(** * OPAM ML pipelines: expense forecast and fraud scoring

    A shallow embedding of [ml_models/expense_predictor.py],
    [ml_models/fraud_detector.py] and [ml_models/run_ml.py].

    Conventions of the embedding.
    - A Python float is a rational ([Q]); the two values that pandas and
      numpy treat specially, NaN and the infinities, are separate
      constructors of [cell].  Rounding to the nearest double is modelled
      where a result is compared with a threshold that an exact change can
      meet, in the trend of the forecast ([float_round]); the other sums and
      products are exact.
    - A Python [dict] is an association list in insertion order.
    - A raised exception is the left injection of [result], carrying the
      text that [str(e)] would give.
    - numpy's transcendental functions, the rounding of floats and the
      scikit-learn estimators are interfaces ([Numpy], [Sklearn]): every
      statement below holds for all of their implementations. *)

From Stdlib Require Import ZArith QArith Qround Qabs Qpower Lqa Lia List Ascii String Bool.
From Stdlib Require Import Sorting.Sorted Sorting.Permutation Qminmax.
From Stdlib Require OrderedTypeEx.
From stdpp Require Import base gmap strings pretty.
Import ListNotations.
Open Scope Q_scope.

(** ** Exceptions *)

Definition result (A : Type) : Type := (string + A)%type.

Definition raise {A : Type} (msg : string) : result A := inl msg.
Definition ret {A : Type} (a : A) : result A := inr a.
Definition bind {A B : Type} (m : result A) (k : A -> result B) : result B :=
  match m with
  | inl e => inl e
  | inr a => k a
  end.

Notation "'let*' x ':=' m 'in' k" := (bind m (fun x => k))
  (at level 10, x pattern, m at level 100, k at level 200).

(** ** Floats *)

Inductive cell : Type :=
| Num (q : Q)
| Inf (neg : bool)
| NaN.

Definition isna (c : cell) : bool :=
  match c with NaN => true | _ => false end.

Definition isfinite (c : cell) : bool :=
  match c with Num _ => true | _ => false end.

Definition Qltb (a b : Q) : bool := negb (Qle_bool b a).

(** IEEE addition, multiplication, division and comparison, without
    rounding. *)
Definition cadd (a b : cell) : cell :=
  match a, b with
  | NaN, _ | _, NaN => NaN
  | Num x, Num y => Num (x + y)
  | Inf s, Inf s' => if Bool.eqb s s' then Inf s else NaN
  | Inf s, Num _ | Num _, Inf s => Inf s
  end.

Definition cmul (a b : cell) : cell :=
  match a, b with
  | NaN, _ | _, NaN => NaN
  | Num x, Num y => Num (x * y)
  | Inf s, Inf s' => Inf (xorb s s')
  | Inf s, Num y | Num y, Inf s =>
      if Qeq_bool y 0 then NaN else Inf (xorb s (Qltb y 0))
  end.

Definition cdiv (a b : cell) : cell :=
  match a, b with
  | NaN, _ | _, NaN => NaN
  | Num x, Num y =>
      if Qeq_bool y 0
      then (if Qeq_bool x 0 then NaN else Inf (Qltb x 0))
      else Num (x / y)
  | Inf _, Inf _ => NaN
  | Inf s, Num y => Inf (xorb s (Qltb y 0))
  | Num _, Inf _ => Num 0
  end.

Definition csub (a b : cell) : cell :=
  cadd a (cmul (Num (-1)) b).

(** [a > b]; every comparison with NaN is false. *)
Definition cgt (a b : cell) : bool :=
  match a, b with
  | NaN, _ | _, NaN => false
  | Num x, Num y => Qltb y x
  | Inf s, Inf s' => negb s && s'
  | Inf s, Num _ => negb s
  | Num _, Inf s => s
  end.

Definition clt (a b : cell) : bool := cgt b a.

Definition cabs (a : cell) : cell :=
  match a with
  | Num x => Num (Qabs x)
  | Inf _ => Inf false
  | NaN => NaN
  end.

(** [np.minimum]: NaN propagates. *)
Definition np_minimum (a b : cell) : cell :=
  match a, b with
  | NaN, _ | _, NaN => NaN
  | _, _ => if clt b a then b else a
  end.

(** [np.clip(x, lo, hi)] is [minimum(maximum(x, lo), hi)]. *)
Definition np_clip (a : cell) (lo hi : Q) : cell :=
  match a with
  | NaN => NaN
  | _ =>
      let m := if cgt (Num lo) a then Num lo else a in
      if clt (Num hi) m then Num hi else m
  end.

(** Python's builtin [max(0, x)] and [min(100, x)] on numbers: the first
    argument is kept unless the second is strictly better. *)
Definition py_max0 (x : Q) : Q := if Qltb 0 x then x else 0.
Definition py_min100 (x : Q) : Q := if Qltb x 100 then x else 100.

(** Python's [round(x, 2)]: to the nearest hundredth, ties to even. *)
Definition round2 (x : Q) : Q :=
  let s := x * 100 in
  let f := Qfloor s in
  let r := s - inject_Z f in
  let n := if Qltb r (1 # 2) then f
           else if Qltb (1 # 2) r then (f + 1)%Z
           else if Z.even f then f else (f + 1)%Z in
  inject_Z n / 100.

(** ** Sums and moments of finite samples *)

Definition sumQ (l : list Q) : Q := fold_right Qplus 0 l.

Definition lenQ {A : Type} (l : list A) : Q := inject_Z (Z.of_nat (length l)).

Definition meanQ (l : list Q) : Q := sumQ l / lenQ l.

(** Sum of squared deviations from the mean, divided by [n - ddof]. *)
Definition varQ (ddof : Z) (l : list Q) : Q :=
  let m := meanQ l in
  sumQ (map (fun x => (x - m) * (x - m)) l)
  / inject_Z (Z.of_nat (length l) - ddof).

Definition maxQ (l : list Q) : Q :=
  match l with
  | [] => 0
  | x :: tl => fold_left (fun m y => if Qltb m y then y else m) tl x
  end.

Definition minQ (l : list Q) : Q :=
  match l with
  | [] => 0
  | x :: tl => fold_left (fun m y => if Qltb y m then y else m) tl x
  end.

(** Half the distance between 1 and the next double, relative to 1. *)
Definition float_ulp : Q := 1 # (2 ^ 53).

(** numpy and the float arithmetic of Python: the functions this code
    uses that have no rational counterpart.  [log1p] is [log (1 + x)] where
    it is a number, for [x > -1]; [float_round] is the double nearest to
    a rational, within a relative error of [2 ^ -53] (overflow and
    underflow apart). *)
Class Numpy : Type := {
  np_sqrt : Q -> Q;
  log1p : Q -> Q;
  float_round : Q -> Q;
  np_sqrt_nonneg : forall x, 0 <= np_sqrt x;
  float_round_near :
    forall x, 0 <= x -> x * (1 - float_ulp) <= float_round x <= x * (1 + float_ulp)
}.

(** [np.log1p]: NaN below -1 and minus infinity at -1 (numpy warns and
    goes on). *)
Definition np_log1p `{Numpy} (x : Q) : cell :=
  if Qltb x (-1) then NaN
  else if Qeq_bool x (-1) then Inf true
  else Num (log1p x).

(** Float addition, multiplication and division: the exact result,
    rounded to the nearest double. *)
Definition fround `{Numpy} (c : cell) : cell :=
  match c with
  | Num q => Num (float_round q)
  | _ => c
  end.

Definition fadd `{Numpy} (a b : cell) : cell := fround (cadd a b).
Definition fmul `{Numpy} (a b : cell) : cell := fround (cmul a b).
Definition fdiv `{Numpy} (a b : cell) : cell := fround (cdiv a b).

Section Moments.
Context `{Numpy}.

(** [np.mean] and [np.std] (population, ddof = 0) of a Python list of
    numbers; both are NaN on the empty list. *)
Definition np_mean (l : list Q) : cell :=
  match l with
  | [] => NaN
  | _ => Num (meanQ l)
  end.

Definition np_std (l : list Q) : cell :=
  match l with
  | [] => NaN
  | _ => Num (np_sqrt (varQ 0 l))
  end.

(** pandas [std] (sample, ddof = 1): NaN below two observations. *)
Definition sample_std (l : list Q) : cell :=
  if (length l <? 2)%nat then NaN else Num (np_sqrt (varQ 1 l)).
End Moments.

(** ** Python dictionaries *)

Definition dict (V : Type) : Type := list (string * V).

Fixpoint dict_get {V : Type} (d : dict V) (k : string) : option V :=
  match d with
  | [] => None
  | (k', v) :: tl => if String.eqb k' k then Some v else dict_get tl k
  end.

(** [d[k] = v]: an existing key keeps its position. *)
Fixpoint dict_set {V : Type} (d : dict V) (k : string) (v : V) : dict V :=
  match d with
  | [] => [(k, v)]
  | (k', v') :: tl =>
      if String.eqb k' k then (k', v) :: tl else (k', v') :: dict_set tl k v
  end.

(** [del d[k]] for a key that is present. *)
Fixpoint dict_del {V : Type} (d : dict V) (k : string) : dict V :=
  match d with
  | [] => []
  | (k', v') :: tl =>
      if String.eqb k' k then tl else (k', v') :: dict_del tl k
  end.

Definition dict_get_default {V : Type} (d : dict V) (k : string) (dflt : V) : V :=
  match dict_get d k with
  | Some v => v
  | None => dflt
  end.

Definition dict_values {V : Type} (d : dict V) : list V := map snd d.
Definition dict_keys {V : Type} (d : dict V) : list string := map fst d.

(** ** pandas: series and frames *)

Definition Series : Type := list cell.

(** A frame is its columns, in declaration order; all have one length. *)
Definition DataFrame : Type := dict Series.

Definition nrows (df : DataFrame) : nat :=
  match df with
  | [] => 0%nat
  | (_, s) :: _ => length s
  end.

(** [df[name]]: a [KeyError] when the column is absent. *)
Definition df_col (df : DataFrame) (name : string) : result Series :=
  match dict_get df name with
  | Some s => ret s
  | None => raise ("KeyError: " +:+ name)
  end.

Definition iloc (s : Series) (i : nat) : cell := nth i s NaN.

(** [s.shift(n)]: the first [n] entries become NaN, the rest move down. *)
Definition shift (n : nat) (s : Series) : Series :=
  firstn (length s) (repeat NaN n ++ s).

(** [s.rolling(window).agg()] on a series without missing values: NaN until
    the window is full, then [agg] of the trailing [window] entries. *)
Definition rolling (window : nat) (agg : list Q -> cell) (s : list Q) : Series :=
  map (fun i =>
         if (S i <? window)%nat then NaN
         else agg (firstn window (skipn (S i - window) s)))
      (seq 0 (length s)).

(** [s.pct_change()] is [s / s.shift(1) - 1]. *)
Definition pct_change (s : Series) : Series :=
  zip_with (fun cur prev => csub (cdiv cur prev) (Num 1)) s (shift 1 s).

Definition row_has_na (df : DataFrame) (i : nat) : bool :=
  existsb (fun col => isna (iloc (snd col) i)) df.

(** [df.dropna()]: keep the rows in which no column is NaN. *)
Definition dropna (df : DataFrame) : DataFrame :=
  let keep := List.filter (fun i => negb (row_has_na df i)) (seq 0 (nrows df)) in
  map (fun col => (fst col, map (iloc (snd col)) keep)) df.

(** [s.mean()] skips NaN; the mean of nothing is NaN.  The entries are
    doubles, added from the left (as numpy does below eight entries) and
    divided by their number, each step rounded. *)
Definition series_mean `{Numpy} (s : Series) : cell :=
  let vals := List.filter (fun c => negb (isna c)) s in
  match vals with
  | [] => NaN
  | _ => fdiv (fold_left fadd (map fround vals) (Num 0)) (Num (lenQ vals))
  end.

(** [s.tail(n)] and [s.iloc[-a:-b]] for [a >= b]. *)
Definition tail {A : Type} (n : nat) (s : list A) : list A :=
  skipn (length s - n) s.

Definition iloc_neg_slice {A : Type} (a b : nat) (s : list A) : list A :=
  firstn (length s - b - (length s - a)) (skipn (length s - a) s).

(** [df[columns].values]: one list per row. *)
Definition df_values (df : DataFrame) (columns : list string)
  : result (list (list cell)) :=
  let fix cols (names : list string) : result (list Series) :=
    match names with
    | [] => ret []
    | n :: tl =>
        let* s := df_col df n in
        let* rest := cols tl in
        ret (s :: rest)
    end in
  let* cs := cols columns in
  ret (map (fun i => map (fun s => iloc s i) cs) (seq 0 (nrows df))).

(** ** scikit-learn *)

(** [check_array] as the two pipelines meet it: the scaler and the
    estimators behind it are given matrices of numbers.  An empty matrix
    and an infinity are refused by the scaler, as in scikit-learn.  A NaN
    is refused here as well; scikit-learn's scaler lets a NaN through to
    the estimator, whose answer depends on the estimator, so a matrix
    with a NaN is outside what this embedding says about the program.
    Training never meets one: the forecast features end with [dropna],
    the fraud features with [fillna(0)]. *)
Definition check_row (row : list cell) : result (list Q) :=
  fold_right
    (fun c acc =>
       let* tl := acc in
       match c with
       | Num q => ret (q :: tl)
       | Inf _ => raise "ValueError: Input X contains infinity or a value too large for dtype('float64')."
       | NaN => raise "ValueError: Input X contains NaN."
       end)
    (ret []) row.

Definition check_array (X : list (list cell)) : result (list (list Q)) :=
  match X with
  | [] => raise "ValueError: Found array with 0 sample(s) while a minimum of 1 is required."
  | [] :: _ => raise "ValueError: Found array with 0 feature(s) while a minimum of 1 is required."
  | _ =>
      fold_right
        (fun row acc =>
           let* tl := acc in
           let* r := check_row row in
           ret (r :: tl))
        (ret []) X
  end.

(** The columns of a matrix given by rows. *)
Definition columns_of (X : list (list Q)) : list (list Q) :=
  match X with
  | [] => []
  | r :: _ => map (fun j => map (fun row => nth j row 0) X) (seq 0 (length r))
  end.

(** A fitted [StandardScaler]. *)
Record StandardScaler : Type := {
  mean_ : list Q;
  scale_ : list Q
}.

Section Scaler.
Context `{Numpy}.

(** Column means and population standard deviations; a zero deviation
    is replaced by 1. *)
Definition scaler_fit (X : list (list Q)) : StandardScaler :=
  let cols := columns_of X in
  {| mean_ := map meanQ cols;
     scale_ := map (fun c => let s := np_sqrt (varQ 0 c) in
                             if Qeq_bool s 0 then 1 else s) cols |}.

Definition scale_row (sc : StandardScaler) (row : list Q) : list Q :=
  zip_with (fun x ms => (x - fst ms) / snd ms) row
           (combine (mean_ sc) (scale_ sc)).

(** [scaler.transform(X)]; [None] is a scaler that was never fitted. *)
Definition scaler_transform (sc : option StandardScaler) (X : list (list cell))
  : result (list (list Q)) :=
  match sc with
  | None => raise "NotFittedError: This StandardScaler instance is not fitted yet."
  | Some sc =>
      let* X' := check_array X in
      if forallb (fun row => (length row =? length (mean_ sc))%nat) X'
      then ret (map (scale_row sc) X')
      else raise "ValueError: X has a different number of features than StandardScaler is expecting."
  end.

Definition scaler_fit_transform (X : list (list cell))
  : result (StandardScaler * list (list Q)) :=
  let* X' := check_array X in
  let sc := scaler_fit X' in
  ret (sc, map (scale_row sc) X').
End Scaler.

(** Hyperparameters of an isolation forest; [None] is the string 'auto'. *)
Record ForestParams : Type := {
  n_estimators : Z;
  max_samples : option Q;
  contamination_param : option Q;
  max_features : Q;
  bootstrap : bool
}.

(** The estimators: what fitting returns and what a fitted estimator
    answers on one row.  [fit_estimator name tune X y] stands for the
    regressor registered under [name], with its hyperparameter search when
    [tune] holds; fitting may raise. *)
Class Sklearn : Type := {
  Model : Type;
  fit_estimator : string -> bool -> list (list Q) -> list Q -> result Model;
  model_predict : Model -> list Q -> Q;
  Forest : Type;
  fit_forest : ForestParams -> list (list Q) -> result Forest;
  decision_function : Forest -> list Q -> Q;
  forest_predict : Forest -> list Q -> Z
}.

(** ** The transaction store *)

Record Timestamp : Type := {
  ts_year : Z;
  ts_month : Z;
  ts_day : Z;
  ts_hour : Z;
  ts_dayofweek : Z
}.

(** A row of the [transactions] table; [None] is SQL NULL. *)
Record Transaction : Type := {
  tx_id : Z;
  tx_user_id : Z;
  tx_date : Timestamp;
  tx_amount : Q;
  tx_category : option string;
  tx_merchant : string;
  tx_payment_method : option string
}.

(** [load_data_from_db], the same in both classes: [rows] is what the
    SELECT returns, or the exception the driver raised. *)
Definition load_data_from_db (rows : result (list Transaction))
  : result (list Transaction) :=
  let* df := rows in
  if (length df =? 0)%nat then raise "No transaction data found"
  else ret df.

(** ** expense_predictor.py *)

Module ExpensePredictor.
Section WithLibraries.
Context `{Numpy} `{Sklearn}.

(** The module-level flag set by the guarded [import xgboost]. *)
Variable HAS_XGBOOST : bool.

(** The instance attributes. *)
Record t : Type := {
  models : dict Model;
  scaler : option StandardScaler;
  feature_columns : list string;
  is_trained : bool;
  ensemble_weights : dict Q
}.

Definition init : t :=
  let ensemble_weights :=
    [ ("linear"%string, 0.10);
      ("ridge"%string, 0.15);
      ("random_forest"%string, 0.25);
      ("gradient_boosting"%string, 0.25);
      ("xgboost"%string, 0.25) ] in
  let ensemble_weights :=
    if negb HAS_XGBOOST then
      let w := dict_set ensemble_weights "gradient_boosting" 0.35 in
      let w := dict_set w "random_forest" 0.30 in
      dict_del w "xgboost"
    else ensemble_weights in
  {| models := [];
     scaler := None;
     feature_columns := [];
     is_trained := false;
     ensemble_weights := ensemble_weights |}.

(** *** Monthly aggregation *)

(** [dt.to_period('M')] as the month's ordinal; months run from 1 to 12. *)
Definition to_period_M (d : Timestamp) : Z := ts_year d * 12 + (ts_month d - 1).
Definition period_year (p : Z) : Z := (p / 12)%Z.
Definition period_month (p : Z) : Z := (p mod 12 + 1)%Z.
Definition period_quarter (p : Z) : Z := ((period_month p - 1) / 3 + 1)%Z.

(** [groupby('year_month')]: groups in ascending key order, rows of a
    group in input order. *)
Fixpoint insert_group (k : Z) (r : Transaction) (gs : list (Z * list Transaction))
  : list (Z * list Transaction) :=
  match gs with
  | [] => [(k, [r])]
  | (k', rs) :: tl =>
      if (k <? k')%Z then (k, [r]) :: gs
      else if (k =? k')%Z then (k', rs ++ [r]) :: tl
      else (k', rs) :: insert_group k r tl
  end.

Definition groupby_year_month (df : list Transaction) : list (Z * list Transaction) :=
  fold_left (fun gs r => insert_group (to_period_M (tx_date r)) r gs) df [].

Definition astype_int (b : bool) : cell := if b then Num 1 else Num 0.

(** The frame of [engineer_features] just before its [dropna]. *)
Definition monthly_features (df : list Transaction) : DataFrame :=
  let groups := groupby_year_month df in
  let amounts := map (fun g => map tx_amount (snd g)) groups in
  let periods := map fst groups in
  let total := map sumQ amounts in
  let total_amount := map Num total in
  let avg_amount := map (fun a => Num (meanQ a)) amounts in
  let transaction_count := map (fun a => Num (lenQ a)) amounts in
  let monthly : DataFrame :=
    [ ("year_month"%string, map (fun p => Num (inject_Z p)) periods);
      ("total_amount"%string, total_amount);
      ("avg_amount"%string, avg_amount);
      ("transaction_count"%string, transaction_count);
      ("std_amount"%string, map sample_std amounts);
      ("max_amount"%string, map (fun a => Num (maxQ a)) amounts);
      ("min_amount"%string, map (fun a => Num (minQ a)) amounts);
      ("num_transactions"%string, map (fun g => Num (lenQ (snd g))) groups) ] in
  let monthly := dict_set monthly "date" (map (fun p => Num (inject_Z p)) periods) in
  (* Temporal features *)
  let monthly := dict_set monthly "year"
                   (map (fun p => Num (inject_Z (period_year p))) periods) in
  let monthly := dict_set monthly "month"
                   (map (fun p => Num (inject_Z (period_month p))) periods) in
  let monthly := dict_set monthly "quarter"
                   (map (fun p => Num (inject_Z (period_quarter p))) periods) in
  let monthly := dict_set monthly "is_q4"
                   (map (fun p => astype_int (period_quarter p =? 4)%Z) periods) in
  let monthly := dict_set monthly "is_year_start"
                   (map (fun p => astype_int (period_month p <=? 2)%Z) periods) in
  let monthly := dict_set monthly "is_year_end"
                   (map (fun p => astype_int (11 <=? period_month p)%Z) periods) in
  (* Lag features *)
  let monthly :=
    fold_left (fun m lag => dict_set m ("lag_" +:+ pretty lag) (shift lag total_amount))
              (seq 1 6) monthly in
  (* Rolling statistics *)
  let monthly :=
    fold_left
      (fun m window =>
         let m := dict_set m ("rolling_mean_" +:+ pretty window)
                    (rolling window (fun w => Num (meanQ w)) total) in
         let m := dict_set m ("rolling_std_" +:+ pretty window)
                    (rolling window sample_std total) in
         let m := dict_set m ("rolling_max_" +:+ pretty window)
                    (rolling window (fun w => Num (maxQ w)) total) in
         dict_set m ("rolling_min_" +:+ pretty window)
           (rolling window (fun w => Num (minQ w)) total))
      [2; 3; 6]%nat monthly in
  (* Month-over-month growth rate *)
  let mom_growth := pct_change total_amount in
  let monthly := dict_set monthly "mom_growth" mom_growth in
  let monthly := dict_set monthly "mom_growth_lag1" (shift 1 mom_growth) in
  (* Average transaction size trend *)
  let monthly := dict_set monthly "avg_txn_lag1" (shift 1 avg_amount) in
  let monthly := dict_set monthly "txn_count_lag1" (shift 1 transaction_count) in
  monthly.

Definition engineer_features (df : list Transaction) : DataFrame :=
  dropna (monthly_features df).

Definition exclude_cols : list string :=
  ["year_month"; "date"; "total_amount"; "num_transactions"]%string.

(** [prepare_data] sets [self.feature_columns] and returns [X, y]. *)
Definition prepare_data (self : t) (monthly_df : DataFrame)
  : result (t * list (list cell) * Series) :=
  let* y := df_col monthly_df "total_amount" in
  let feature_columns :=
    List.filter (fun col => negb (existsb (String.eqb col) exclude_cols))
           (dict_keys monthly_df) in
  let* X := df_values monthly_df feature_columns in
  ret ({| models := models self;
          scaler := scaler self;
          feature_columns := feature_columns;
          is_trained := is_trained self;
          ensemble_weights := ensemble_weights self |}, X, y).

(** *** Training *)

(** [int(len(X) * 0.8)]. *)
Definition split_idx {A : Type} (X : list A) : nat :=
  Z.to_nat (Qfloor (lenQ X * 0.8)).

(** The estimators in the order in which they are fitted and stored. *)
Definition estimator_names : list string :=
  ["linear"; "ridge"; "random_forest"; "gradient_boosting"]%string
    ++ (if HAS_XGBOOST then ["xgboost"%string] else []).

(** [train_with_hyperparameter_tuning], without the evaluation metrics
    it prints and returns: they are computed from the fitted models and
    do not feed back into the instance. *)
Definition train_with_hyperparameter_tuning
           (self : t) (X : list (list cell)) (y : Series) (tune : bool)
  : result t :=
  (* Scale features *)
  let* (sc, X_scaled) := scaler_fit_transform X in
  (* Split data (use last 20% for testing) *)
  let X_train := firstn (split_idx X) X_scaled in
  let X_test := skipn (split_idx X) X_scaled in
  let* y' := check_row y in
  let y_train := firstn (split_idx X) y' in
  let y_test := skipn (split_idx X) y' in
  let* fitted :=
    fold_left
      (fun acc name =>
         let* ms := acc in
         let* m := fit_estimator name tune X_train y_train in
         ret (dict_set ms name m))
      estimator_names (ret (models self)) in
  ret {| models := fitted;
         scaler := Some sc;
         feature_columns := feature_columns self;
         is_trained := true;
         ensemble_weights := ensemble_weights self |}.

(** *** Prediction *)

Definition py_sum (l : list Q) : Q := fold_left Qplus l 0.

Record Prediction : Type := {
  predictions : dict Q;
  confidence : Q;
  trend : string;
  best_model : string
}.

(** The key of [min] in [best_model]: the value, or [float('inf')] for
    the ensemble entry; the first minimum wins. *)
Definition best_model_of (predictions : dict Q) : string :=
  let key (x : string * Q) :=
    if String.eqb (fst x) "ensemble" then Inf false else Num (snd x) in
  match predictions with
  | [] => ""%string
  | it :: tl =>
      fst (fold_left (fun best x => if clt (key x) (key best) then x else best) tl it)
  end.

(** The loop over [self.models.items()]: each prediction for the scaled
    last row, floored at zero. *)
Definition individual_predictions (self : t) (last_row_scaled : list (list Q))
  : dict Q :=
  fold_left
    (fun predictions nm =>
       let pred := model_predict (snd nm) (nth 0 last_row_scaled []) in
       dict_set predictions (fst nm) (py_max0 pred))
    (models self) [].

(** [sum(self.ensemble_weights.get(name, 0) * pred for name, pred in
    predictions.items())]. *)
Definition ensemble_pred (self : t) (predictions : dict Q) : Q :=
  py_sum (map (fun np => dict_get_default (ensemble_weights self) (fst np) 0 * snd np)
              predictions).

(** [_ensemble_predict]: one value per row of [X_scaled], the sum over
    the entries of [ensemble_weights] whose name has a fitted model of
    the weight times that model's predictions. *)
Definition _ensemble_predict (self : t) (X_scaled : list (list Q)) : list Q :=
  let predictions : dict (list Q) :=
    fold_left
      (fun predictions nm =>
         dict_set predictions (fst nm) (map (model_predict (snd nm)) X_scaled))
      (models self) [] in
  fold_left
    (fun ensemble_pred nw =>
       match dict_get predictions (fst nw) with
       | Some p => zip_with Qplus ensemble_pred (map (Qmult (snd nw)) p)
       | None => ensemble_pred
       end)
    (ensemble_weights self) (repeat 0 (length X_scaled)).

(** [[predictions[k] for k in predictions if k != 'ensemble']]. *)
Definition pred_values (predictions : dict Q) : list Q :=
  map snd (List.filter (fun kv => negb (String.eqb (fst kv) "ensemble")) predictions).

(** The confidence before it is rounded: [cv] is the coefficient of
    variation in percent, or 100 when [mean_pred > 0] is false. *)
Definition model_agreement (pred_values : list Q) : Q :=
  let cv :=
    match np_std pred_values, np_mean pred_values with
    | Num std_dev, Num mean_pred =>
        if Qltb 0 mean_pred then std_dev / mean_pred * 100 else 100
    | _, _ => 100
    end in
  py_max0 (py_min100 (100 - cv)).

(** The trend of [predict_next_month].  The two means, the literals
    [1.1] and [0.9] and the two products are doubles. *)
Definition determine_trend (monthly_df : DataFrame) : result string :=
  if (3 <=? nrows monthly_df)%nat then
    let* total_amount := df_col monthly_df "total_amount" in
    let recent_avg := series_mean (tail 3 total_amount) in
    let older_avg :=
      if (6 <=? nrows monthly_df)%nat
      then series_mean (iloc_neg_slice 6 3 total_amount)
      else recent_avg in
    if cgt recent_avg (fmul older_avg (Num (float_round 1.1)))
    then ret "increasing"%string
    else if clt recent_avg (fmul older_avg (Num (float_round 0.9)))
    then ret "decreasing"%string
    else ret "stable"%string
  else ret "insufficient_data"%string.

Definition predict_next_month (self : t) (monthly_df : DataFrame)
  : result Prediction :=
  if negb (is_trained self)
  then raise "Models not trained. Call train_with_hyperparameter_tuning first."
  else
    (* Get last row features for prediction *)
    let* rows := df_values monthly_df (feature_columns self) in
    let last_row := tail 1 rows in
    let* last_row_scaled := scaler_transform (scaler self) last_row in
    let predictions := individual_predictions self last_row_scaled in
    (* Ensemble prediction *)
    let predictions :=
      dict_set predictions "ensemble" (py_max0 (ensemble_pred self predictions)) in
    (* Calculate confidence based on model agreement *)
    let confidence := model_agreement (pred_values predictions) in
    (* Determine trend *)
    let* trend := determine_trend monthly_df in
    ret {| predictions := predictions;
           confidence := round2 confidence;
           trend := trend;
           best_model := best_model_of predictions |}.

(** *** Forecasts by category *)

(** [Series.unique()]: the distinct values in order of first appearance;
    a missing category is one value of its own. *)
Definition same_value (a b : option string) : bool :=
  match a, b with
  | Some x, Some y => String.eqb x y
  | None, None => true
  | _, _ => false
  end.

Fixpoint unique (l : list (option string)) : list (option string) :=
  match l with
  | [] => []
  | x :: tl => x :: List.filter (fun y => negb (same_value x y)) (unique tl)
  end.

(** [df['category'] == category], row by row: a missing category equals
    nothing, not even a missing one. *)
Definition eq_category (a b : option string) : bool :=
  match a, b with
  | Some x, Some y => String.eqb x y
  | _, _ => false
  end.

(** One dictionary of the list [predict_by_category] returns. *)
Record CategoryPrediction : Type := {
  category : option string;
  predicted_amount : Q;
  cp_confidence : Q;
  cp_trend : string;
  avg_transaction : Q;
  transaction_count : Z
}.

Definition category_trend (avg trend_val : Q) : string :=
  if Qltb (avg * 0.1) trend_val then "increasing"
  else if Qltb trend_val (- avg * 0.1) then "decreasing"
  else "stable".

(** The body of the loop for one category: nothing is appended below
    three months.  The sample deviation is taken over at least three
    monthly sums, so it is a number. *)
Definition predict_category (df : list Transaction) (c : option string)
  : option CategoryPrediction :=
  let cat_df := List.filter (fun r => eq_category (tx_category r) c) df in
  (* Simple moving average for category-level prediction *)
  let monthly_cat :=
    map (fun g => sumQ (map tx_amount (snd g))) (groupby_year_month cat_df) in
  if (3 <=? length monthly_cat)%nat then
    let avg := meanQ (tail 6 monthly_cat) in
    let std := np_sqrt (varQ 1 (tail 6 monthly_cat)) in
    let trend_val :=
      if (6 <=? length monthly_cat)%nat
      then meanQ (tail 3 monthly_cat) - meanQ (iloc_neg_slice 6 3 monthly_cat)
      else 0 in
    Some {| category := c;
            predicted_amount := round2 avg;
            cp_confidence :=
              round2 (if Qltb 0 avg then py_max0 (100 - std / avg * 100) else 0);
            cp_trend := category_trend avg trend_val;
            avg_transaction := round2 (meanQ (map tx_amount cat_df));
            transaction_count := Z.of_nat (length cat_df) |}
  else None.

(** [sorted(predictions, key=..., reverse=True)]: descending and stable. *)
Fixpoint insert_desc (p : CategoryPrediction) (l : list CategoryPrediction)
  : list CategoryPrediction :=
  match l with
  | [] => [p]
  | q :: tl =>
      if Qle_bool (predicted_amount q) (predicted_amount p) then p :: l
      else q :: insert_desc p tl
  end.

Definition sorted_desc (l : list CategoryPrediction) : list CategoryPrediction :=
  fold_right insert_desc [] l.

Definition predict_by_category (df : list Transaction) : list CategoryPrediction :=
  let predictions :=
    flat_map (fun c => match predict_category df c with
                       | Some p => [p]
                       | None => []
                       end)
             (unique (map tx_category df)) in
  sorted_desc predictions.

(** *** Persistence *)

(** What [joblib.dump] writes: the pickled dictionary. *)
Record Bundle : Type := {
  b_models : dict Model;
  b_scaler : option StandardScaler;
  b_feature_columns : list string;
  b_ensemble_weights : dict Q
}.

(** [joblib.dump] stores the object under [path]; [joblib.load] returns
    the object stored there. *)
Definition save_models (self : t) (path : string) (fs : gmap string Bundle)
  : gmap string Bundle :=
  <[ path := {| b_models := models self;
                b_scaler := scaler self;
                b_feature_columns := feature_columns self;
                b_ensemble_weights := ensemble_weights self |} ]> fs.

Definition load_models (self : t) (path : string) (fs : gmap string Bundle)
  : result t :=
  match fs !! path with
  | None => raise ("FileNotFoundError: " +:+ path)
  | Some data =>
      ret {| models := b_models data;
             scaler := b_scaler data;
             feature_columns := b_feature_columns data;
             ensemble_weights := b_ensemble_weights data;
             is_trained := true |}
  end.
End WithLibraries.
End ExpensePredictor.

(** ** fraud_detector.py *)

Module FraudDetector.
Section WithLibraries.
Context `{Numpy} `{Sklearn}.

(** The instance attributes; [label_encoders] keeps each encoder's
    [classes_]. *)
Record t : Type := {
  isolation_forest : option Forest;
  scaler : option StandardScaler;
  label_encoders : dict (list string);
  feature_columns : list string;
  is_trained : bool;
  contamination : Q
}.

Definition init : t :=
  {| isolation_forest := None;
     scaler := None;
     label_encoders := [];
     feature_columns := [];
     is_trained := false;
     contamination := 0.05 |}.

(** *** Feature engineering *)

(** A row of the frame returned by [engineer_features]: the transaction
    and the columns added to it. *)
Record Featured : Type := {
  tx : Transaction;
  hour : Z;
  day_of_week : Z;
  is_weekend : Z;
  is_night : Z;
  day_of_month : Z;
  is_month_end : Z;
  log_amount : cell;
  category_encoded : Z;
  payment_encoded : Z;
  cat_mean : cell;
  cat_std : cell;
  amount_zscore : cell;
  amount_percentile : Q;
  is_high_value : Z;
  daily_txn_count : Z;
  high_velocity : Z;
  merchant_frequency : Z;
  rare_merchant : Z
}.

Definition astype_int (b : bool) : Z := if b then 1%Z else 0%Z.

Definition fillna_Unknown (s : option string) : string :=
  match s with
  | Some v => v
  | None => "Unknown"%string
  end.

(** [LabelEncoder]: the classes are the distinct values in sorted
    order, a value is encoded as its position among them. *)
Fixpoint insert_sorted (s : string) (l : list string) : list string :=
  match l with
  | [] => [s]
  | x :: tl =>
      if String.eqb s x then l
      else if String.ltb s x then s :: l
      else x :: insert_sorted s tl
  end.

Definition label_classes (values : list string) : list string :=
  fold_right insert_sorted [] values.

Fixpoint label_transform (classes : list string) (v : string) : Z :=
  match classes with
  | [] => 0%Z
  | c :: tl => if String.eqb c v then 0%Z else (1 + label_transform tl v)%Z
  end.

Definition count_where {A : Type} (p : A -> bool) (l : list A) : Z :=
  Z.of_nat (length (List.filter p l)).

Definition option_string_eqb (a b : option string) : bool :=
  match a, b with
  | Some x, Some y => String.eqb x y
  | _, _ => false
  end.

(** [Series.rank(pct=True)]: the average rank among equal values,
    divided by the number of values. *)
Definition rank_pct (values : list Q) (v : Q) : Q :=
  (inject_Z (count_where (fun w => Qltb w v) values)
   + (inject_Z (count_where (fun w => Qeq_bool w v) values) + 1) / 2)
  / lenQ values.

Definition date_only (d : Timestamp) : Z * Z * Z := (ts_year d, ts_month d, ts_day d).

Definition same_user_day (a b : Transaction) : bool :=
  (tx_user_id a =? tx_user_id b)%Z
  && (ts_year (tx_date a) =? ts_year (tx_date b))%Z
  && (ts_month (tx_date a) =? ts_month (tx_date b))%Z
  && (ts_day (tx_date a) =? ts_day (tx_date b))%Z.

(** [engineer_features] on a frame that has the store's columns; it also
    records the two label encoders on the instance. *)
Definition engineer_features (self : t) (df : list Transaction)
  : t * list Featured :=
  let cat_classes := label_classes (map (fun r => fillna_Unknown (tx_category r)) df) in
  let pay_classes := label_classes (map (fun r => fillna_Unknown (tx_payment_method r)) df) in
  let amounts := map tx_amount df in
  let global_std := sample_std amounts in
  let featured :=
    map (fun r =>
           let hour := ts_hour (tx_date r) in
           let day_of_week := ts_dayofweek (tx_date r) in
           let day_of_month := ts_day (tx_date r) in
           (* Amount deviation from category mean *)
           let group :=
             map tx_amount
                 (List.filter (fun r' => option_string_eqb (tx_category r') (tx_category r)) df) in
           let cat_mean :=
             match tx_category r with
             | Some _ => Num (meanQ group)
             | None => NaN
             end in
           let cat_std :=
             match tx_category r with
             | Some _ => sample_std group
             | None => NaN
             end in
           let cat_std := if isna cat_std then global_std else cat_std in
           let amount_zscore :=
             cdiv (csub (Num (tx_amount r)) cat_mean) (cadd cat_std (Num 1)) in
           (* Global amount statistics *)
           let amount_percentile := rank_pct amounts (tx_amount r) in
           (* Transaction velocity *)
           let daily_txn_count := count_where (same_user_day r) df in
           (* Merchant frequency *)
           let merchant_frequency :=
             count_where (fun r' => String.eqb (tx_merchant r') (tx_merchant r)) df in
           {| tx := r;
              hour := hour;
              day_of_week := day_of_week;
              is_weekend := astype_int (5 <=? day_of_week)%Z;
              is_night := astype_int ((22 <=? hour)%Z || (hour <=? 5)%Z);
              day_of_month := day_of_month;
              is_month_end := astype_int (25 <=? day_of_month)%Z;
              log_amount := np_log1p (tx_amount r);
              category_encoded :=
                label_transform cat_classes (fillna_Unknown (tx_category r));
              payment_encoded :=
                label_transform pay_classes (fillna_Unknown (tx_payment_method r));
              cat_mean := cat_mean;
              cat_std := cat_std;
              amount_zscore := amount_zscore;
              amount_percentile := amount_percentile;
              is_high_value := astype_int (Qltb 0.95 amount_percentile);
              daily_txn_count := daily_txn_count;
              high_velocity := astype_int (5 <? daily_txn_count)%Z;
              merchant_frequency := merchant_frequency;
              rare_merchant := astype_int (merchant_frequency <=? 2)%Z |})
        df in
  ({| isolation_forest := isolation_forest self;
      scaler := scaler self;
      label_encoders :=
        dict_set (dict_set (label_encoders self) "category" cat_classes)
                 "payment_method" pay_classes;
      feature_columns := feature_columns self;
      is_trained := is_trained self;
      contamination := contamination self |},
   featured).

Definition fillna0 (c : cell) : cell := if isna c then Num 0 else c.

Definition all_feature_columns : list string :=
  [ "amount"; "log_amount"; "hour"; "day_of_week"; "is_weekend";
    "is_night"; "day_of_month"; "is_month_end"; "category_encoded";
    "payment_encoded"; "amount_zscore"; "amount_percentile";
    "is_high_value"; "daily_txn_count"; "high_velocity";
    "merchant_frequency"; "rare_merchant" ]%string.

(** [prepare_features]: every listed column exists in a [Featured] row. *)
Definition prepare_features (self : t) (df : list Featured)
  : t * list (list cell) :=
  let zc (z : Z) := Num (inject_Z z) in
  let X :=
    map (fun f =>
           [ Num (tx_amount (tx f)); fillna0 (log_amount f); zc (hour f);
             zc (day_of_week f); zc (is_weekend f); zc (is_night f);
             zc (day_of_month f); zc (is_month_end f);
             zc (category_encoded f); zc (payment_encoded f);
             fillna0 (amount_zscore f); Num (amount_percentile f);
             zc (is_high_value f); zc (daily_txn_count f);
             zc (high_velocity f); zc (merchant_frequency f);
             zc (rare_merchant f) ])
        df in
  ({| isolation_forest := isolation_forest self;
      scaler := scaler self;
      label_encoders := label_encoders self;
      feature_columns := all_feature_columns;
      is_trained := is_trained self;
      contamination := contamination self |},
   X).

(** *** Training *)

Record TrainingResults : Type := {
  n_anomalies : Z;
  anomaly_rate : Q;
  tr_contamination : Q
}.

(** The grid, in the order of the five nested loops. *)
Definition param_grid : list ForestParams :=
  flat_map (fun n_est =>
  flat_map (fun max_samp =>
  flat_map (fun contam =>
  flat_map (fun max_feat =>
  map (fun bootstrap =>
         {| n_estimators := n_est;
            max_samples := max_samp;
            contamination_param := Some contam;
            max_features := max_feat;
            bootstrap := bootstrap |})
      [true; false])
      [0.5; 0.75; 1.0])
      [0.01; 0.02; 0.05; 0.1])
      [None; Some 0.5; Some 0.75; Some 1.0])
      [50; 100; 150; 200]%Z.

(** The manual search: a candidate that raises is skipped, a candidate
    is kept when the spread of its decision scores is strictly larger
    than the best so far, starting from [-inf]. *)
Definition grid_search (X_scaled : list (list Q)) : option ForestParams :=
  snd (fold_left
         (fun best cand =>
            match fit_forest cand X_scaled with
            | inl _ => best
            | inr model =>
                let scores := map (decision_function model) X_scaled in
                let score := np_std scores in
                if cgt score (fst best) then (score, Some cand) else best
            end)
         param_grid (Inf true, None)).

(** [IsolationForest()] with no argument. *)
Definition default_params : ForestParams :=
  {| n_estimators := 100;
     max_samples := None;
     contamination_param := None;
     max_features := 1.0;
     bootstrap := false |}.

Definition train_isolation_forest (self : t) (X : list (list cell)) (tune : bool)
  : result (t * TrainingResults) :=
  let* (sc, X_scaled) := scaler_fit_transform X in
  let best_params := if tune then grid_search X_scaled else None in
  let contamination' :=
    if tune then
      match best_params with
      | Some p =>
          match contamination_param p with
          | Some c => c
          | None => 0.05
          end
      | None => 0.05
      end
    else contamination self in
  let params :=
    if tune then
      match best_params with
      | Some p => p
      | None => default_params
      end
    else
      {| n_estimators := 100;
         max_samples := None;
         contamination_param := Some (contamination self);
         max_features := 1.0;
         bootstrap := false |} in
  let* forest := fit_forest params X_scaled in
  (* Get predictions and scores *)
  let predictions := map (forest_predict forest) X_scaled in
  let n_anomalies := count_where (fun p => (p =? -1)%Z) predictions in
  let anomaly_rate := inject_Z n_anomalies / lenQ predictions * 100 in
  ret ({| isolation_forest := Some forest;
          scaler := Some sc;
          label_encoders := label_encoders self;
          feature_columns := feature_columns self;
          is_trained := true;
          contamination := contamination' |},
       {| n_anomalies := n_anomalies;
          anomaly_rate := round2 anomaly_rate;
          tr_contamination := contamination' |}).

(** *** Scoring *)

(** A row of the frame returned by [calculate_fraud_scores]. *)
Record Scored : Type := {
  featured : Featured;
  ml_anomaly_score : Q;
  amount_score : Q;
  time_score : Z;
  velocity_score : cell;
  deviation_score : cell;
  merchant_score : Z;
  fraud_score : cell;
  risk_level : option string
}.

(** [np.searchsorted(bins, x, side='left')] on ascending bins. *)
Definition searchsorted_left (bins : list Q) (x : Q) : nat :=
  length (List.filter (fun b => Qltb b x) bins).

(** [pd.cut(x, bins, labels)] with the defaults [right=True] and
    [include_lowest=False]: a value at or below the first edge, above
    the last edge, or NaN gets no label. *)
Definition pd_cut (bins : list Q) (labels : list string) (x : cell)
  : option string :=
  match x with
  | Num q =>
      let i := searchsorted_left bins q in
      if (i =? 0)%nat || (i =? length bins)%nat then None
      else nth_error labels (i - 1)
  | Inf _ | NaN => None
  end.

Definition zcell (z : Z) : cell := Num (inject_Z z).

(** The weighted sum of the six sub-scores, before clipping, in exact
    arithmetic: the floats of the program are within a few units in the
    last place of it. *)
Definition weighted_score (ml amount_s : Q) (time_s : Z)
           (velocity_s deviation_s : cell) (merchant_s : Z) : cell :=
  cadd (cadd (cadd (cadd (cadd
    (cmul (Num ml) (Num 0.40))
    (cmul (Num amount_s) (Num 0.20)))
    (cmul (zcell time_s) (Num 0.10)))
    (cmul velocity_s (Num 0.10)))
    (cmul deviation_s (Num 0.15)))
    (cmul (zcell merchant_s) (Num 0.05)).

Definition score_row (f : Featured) (ml : Q) : Scored :=
  (* 2. Amount-based score (0-30 points) *)
  let amount_score := amount_percentile f * 30 in
  (* 3. Time-based score (0-20 points) *)
  let time_score := (is_night f * 15 + is_weekend f * 5)%Z in
  (* 4. Velocity score (0-15 points) *)
  let velocity_score := np_minimum (zcell (daily_txn_count f * 3)) (Num 15) in
  (* 5. Category deviation score (0-25 points) *)
  let deviation_score :=
    np_minimum (cmul (cabs (amount_zscore f)) (Num 5)) (Num 25) in
  (* 6. Rare merchant score (0-10 points) *)
  let merchant_score := (rare_merchant f * 10)%Z in
  (* Combined fraud score, then normalise to 0-100 *)
  let fraud_score :=
    np_clip (weighted_score ml amount_score time_score velocity_score
                            deviation_score merchant_score) 0 100 in
  {| featured := f;
     ml_anomaly_score := ml;
     amount_score := amount_score;
     time_score := time_score;
     velocity_score := velocity_score;
     deviation_score := deviation_score;
     merchant_score := merchant_score;
     fraud_score := fraud_score;
     risk_level :=
       pd_cut [0; 25; 50; 75; 100] ["Low"; "Medium"; "High"; "Critical"]%string
              fraud_score |}.

(** The anomaly column of a frame of [n] rows: the decision scores
    rescaled and inverted, which must be as many as the rows, or the
    constant 0 without a forest. *)
Definition ml_anomaly_scores (self : t) (n : nat) (X_scaled : list (list Q))
  : result (list Q) :=
  match isolation_forest self with
  | Some forest =>
      let decision_scores := map (decision_function forest) X_scaled in
      let min_score := minQ decision_scores in
      let max_score := maxQ decision_scores in
      if (length decision_scores =? n)%nat
      then ret (map (fun d =>
                       100 - (d - min_score)
                             / (max_score - min_score + (1 # 10000000000)) * 100)
                    decision_scores)
      else raise "ValueError: Length of values does not match length of index"
  | None => ret (repeat 0 n)
  end.

Definition calculate_fraud_scores (self : t) (df : list Featured) (X : list (list cell))
  : result (list Scored) :=
  let* X_scaled := scaler_transform (scaler self) X in
  let* ml := ml_anomaly_scores self (length df) X_scaled in
  ret (zip_with score_row df ml).

(** *** The pipeline *)

(** The summary of [detect_fraud], without the risk histogram and the
    ten highest rows, which are read off the scored frame. *)
Record Results : Type := {
  total_transactions : Z;
  flagged_transactions : Z;
  training_results : TrainingResults
}.

Definition detect_fraud (self : t) (df : list Transaction) (tune : bool)
  : result (t * Results * list Scored) :=
  (* Engineer features *)
  let '(self, df_featured) := engineer_features self df in
  (* Prepare feature matrix *)
  let '(self, X) := prepare_features self df_featured in
  (* Train Isolation Forest *)
  let* (self, training) := train_isolation_forest self X tune in
  (* Calculate fraud scores *)
  let* df_scored := calculate_fraud_scores self df_featured X in
  (* Get flagged transactions *)
  let flagged := List.filter (fun s => cgt (fraud_score s) (Num 50)) df_scored in
  ret (self,
       {| total_transactions := Z.of_nat (length df);
          flagged_transactions := Z.of_nat (length flagged);
          training_results := training |},
       df_scored).

(** [df_scored['risk_level'].value_counts().to_dict()], which
    [detect_fraud] puts into its summary: the column is categorical, so
    each of the four labels has an entry, rows without a label are not
    counted. *)
Definition risk_distribution (df_scored : list Scored) : gmap string Z :=
  list_to_map
    (map (fun label =>
            (label,
             count_where (fun s => option_string_eqb (risk_level s) (Some label))
                         df_scored))
         ["Low"; "Medium"; "High"; "Critical"]%string).

(** *** Persistence *)

Record Bundle : Type := {
  b_isolation_forest : option Forest;
  b_scaler : option StandardScaler;
  b_label_encoders : dict (list string);
  b_feature_columns : list string;
  b_contamination : Q
}.

Definition save_models (self : t) (path : string) (fs : gmap string Bundle)
  : gmap string Bundle :=
  <[ path := {| b_isolation_forest := isolation_forest self;
                b_scaler := scaler self;
                b_label_encoders := label_encoders self;
                b_feature_columns := feature_columns self;
                b_contamination := contamination self |} ]> fs.

Definition load_models (self : t) (path : string) (fs : gmap string Bundle)
  : result t :=
  match fs !! path with
  | None => raise ("FileNotFoundError: " +:+ path)
  | Some data =>
      ret {| isolation_forest := b_isolation_forest data;
             scaler := b_scaler data;
             label_encoders := b_label_encoders data;
             feature_columns := b_feature_columns data;
             contamination := b_contamination data;
             is_trained := true |}
  end.
End WithLibraries.
End FraudDetector.

(** ** run_ml.py *)

Module RunML.
Section WithLibraries.
Context `{Numpy} `{Sklearn}.
Variable HAS_XGBOOST : bool.

(** The dictionary a runner returns: [{'status': 'success', ...}] or
    [{'status': 'error', 'message': ...}]. *)
Inductive Output (A : Type) : Type :=
| Success (payload : A) (models_saved : string)
| Error (message : string).
Arguments Success {A} _ _.
Arguments Error {A} _.

Definition status {A : Type} (o : Output A) : string :=
  match o with
  | Success _ _ => "success"
  | Error _ => "error"
  end.

(** [db_path.replace('.db', suffix)]. *)
Fixpoint replace_db (suffix s : string) : string :=
  match s with
  | String "."%char (String "d"%char (String "b"%char rest)) =>
      suffix +:+ replace_db suffix rest
  | String c tl => String c (replace_db suffix tl)
  | EmptyString => EmptyString
  end.

(** [try: ... except Exception as e: return {'status': 'error',
    'message': str(e)}], with the files left as they were. *)
Definition try_except {A F : Type} (fs : F) (body : result (Output A * F))
  : Output A * F :=
  match body with
  | inr r => r
  | inl e => (Error e, fs)
  end.

(** [run_expense_prediction]; [rows] is the answer of the store to the
    query for [user_id].  The per-category averages, which read the
    loaded frame only, are left out of the payload. *)
Definition run_expense_prediction
           (db_path : string) (rows : result (list Transaction)) (tune : bool)
           (fs : gmap string ExpensePredictor.Bundle)
  : Output ExpensePredictor.Prediction * gmap string ExpensePredictor.Bundle :=
  try_except fs
    (let predictor := ExpensePredictor.init HAS_XGBOOST in
     let* df := load_data_from_db rows in
     if (length df <? 10)%nat
     then ret (Error "Need at least 10 transactions for prediction", fs)
     else
       let monthly_df := ExpensePredictor.engineer_features df in
       if (nrows monthly_df <? 3)%nat
       then ret (Error "Need at least 3 months of data", fs)
       else
         let* (predictor, X, y) := ExpensePredictor.prepare_data predictor monthly_df in
         let* predictor :=
           ExpensePredictor.train_with_hyperparameter_tuning
             HAS_XGBOOST predictor X y tune in
         let* predictions := ExpensePredictor.predict_next_month predictor monthly_df in
         (* Save models *)
         let model_path := replace_db "_expense_models.joblib" db_path in
         let fs := ExpensePredictor.save_models predictor model_path fs in
         ret (Success predictions model_path, fs)).

Definition run_fraud_detection
           (db_path : string) (rows : result (list Transaction)) (tune : bool)
           (fs : gmap string FraudDetector.Bundle)
  : Output (FraudDetector.Results * list FraudDetector.Scored)
    * gmap string FraudDetector.Bundle :=
  try_except fs
    (let detector := FraudDetector.init in
     let* df := load_data_from_db rows in
     if (length df <? 10)%nat
     then ret (Error "Need at least 10 transactions for fraud detection", fs)
     else
       let* (detector, results, df_scored) := FraudDetector.detect_fraud detector df tune in
       (* Save models *)
       let model_path := replace_db "_fraud_models.joblib" db_path in
       let fs := FraudDetector.save_models detector model_path fs in
       ret (Success (results, df_scored) model_path, fs)).

End WithLibraries.

Arguments Success {A} _ _.
Arguments Error {A} _.
End RunML.

(** ** Reference implementations of the interfaces

    Small executable instances, used to run the pipelines on concrete
    ledgers. *)

(** A square root correct to ten decimals, exact on squares of such
    numbers. *)
Definition Qsqrt (x : Q) : Q :=
  let d := Z.pos (Qden x) in
  inject_Z (Z.sqrt (Qnum x * d * 10 ^ 20)) / inject_Z (d * 10 ^ 10).

Lemma Qsqrt_nonneg (x : Q) : 0 <= Qsqrt x.
Proof.
  unfold Qsqrt, Qdiv. apply Qmult_le_0_compat.
  - change 0 with (inject_Z 0). rewrite <- Zle_Qle. apply Z.sqrt_nonneg.
  - apply Qinv_le_0_compat. change 0 with (inject_Z 0). rewrite <- Zle_Qle. lia.
Qed.

(** The double nearest to a rational, ties to the even significand:
    53 significant bits, the exponent unbounded.  [float_exponent a] is
    the [e] with [2 ^ e <= a < 2 ^ (e + 1)]. *)
Definition round_half_even (s : Q) : Z :=
  let f := Qfloor s in
  let r := s - inject_Z f in
  if Qltb r (1 # 2) then f
  else if Qltb (1 # 2) r then (f + 1)%Z
  else if Z.even f then f else (f + 1)%Z.

Definition two_pow (e : Z) : Q := Qpower 2 e.

Definition float_exponent (a : Q) : Z :=
  let l := (Z.log2 (Qnum a) - Z.log2 (Z.pos (Qden a)))%Z in
  if Qle_bool (two_pow l) a then l else (l - 1)%Z.

Definition fl64 (x : Q) : Q :=
  if Qeq_bool x 0 then 0
  else
    let a := Qabs x in
    let s := two_pow (52 - float_exponent a) in
    let r := Qred (inject_Z (round_half_even (a * s)) / s) in
    if Qltb x 0 then - r else r.

Lemma round_half_even_near (s : Q) :
  s - (1 # 2) <= inject_Z (round_half_even s) <= s + (1 # 2).
Proof.
  unfold round_half_even.
  pose proof (Qfloor_le s) as Hlo. pose proof (Qlt_floor s) as Hhi.
  rewrite inject_Z_plus in Hhi. change (inject_Z 1) with 1 in Hhi.
  unfold Qltb.
  destruct (Qle_bool (1 # 2) (s - inject_Z (Qfloor s))) eqn:E1; cbn [negb].
  - destruct (Qle_bool (s - inject_Z (Qfloor s)) (1 # 2)) eqn:E2; cbn [negb].
    + apply Qle_bool_iff in E1, E2.
      destruct (Z.even (Qfloor s)).
      * lra.
      * rewrite inject_Z_plus. change (inject_Z 1) with 1. lra.
    + apply Qle_bool_iff in E1.
      rewrite inject_Z_plus. change (inject_Z 1) with 1. lra.
  - assert (H : ~ (1 # 2) <= s - inject_Z (Qfloor s)).
    { intros H. apply Qle_bool_iff in H. congruence. }
    lra.
Qed.

Lemma two_pow_pos (e : Z) : 0 < two_pow e.
Proof. unfold two_pow. apply Qpower_0_lt. reflexivity. Qed.

Lemma two_pow_plus (a b : Z) : two_pow (a + b) == two_pow a * two_pow b.
Proof. unfold two_pow. apply Qpower_plus. discriminate. Qed.

Lemma two_pow_nonneg_Z (k : Z) : (0 <= k)%Z -> two_pow k == inject_Z (2 ^ k).
Proof. intros Hk. unfold two_pow. rewrite Zpower_Qpower by exact Hk. reflexivity. Qed.

Lemma float_exponent_le (a : Q) : 0 < a -> two_pow (float_exponent a) <= a.
Proof.
  intros Ha. unfold float_exponent.
  set (n := Qnum a). set (d := Z.pos (Qden a)).
  destruct (Qle_bool (two_pow (Z.log2 n - Z.log2 d)) a) eqn:E.
  - apply Qle_bool_iff. exact E.
  - clear E.
    assert (Hn : (0 < n)%Z).
    { unfold n. destruct a as [an ad]. unfold Qlt in Ha. cbn in *. lia. }
    assert (Hd : (0 < d)%Z) by (unfold d; lia).
    pose proof (Z.log2_nonneg n) as Hln. pose proof (Z.log2_nonneg d) as Hld.
    destruct (Z.log2_spec n Hn) as [Hn1 _]. destruct (Z.log2_spec d Hd) as [_ Hd2].
    (* two_pow (ln - ld - 1) * two_pow (ld + 1) == two_pow ln *)
    assert (Heq : two_pow (Z.log2 n - Z.log2 d - 1) * two_pow (Z.log2 d + 1)
                  == two_pow (Z.log2 n)).
    { rewrite <- two_pow_plus. replace (Z.log2 n - Z.log2 d - 1 + (Z.log2 d + 1))%Z
        with (Z.log2 n) by lia. reflexivity. }
    rewrite (two_pow_nonneg_Z (Z.log2 d + 1)) in Heq by lia.
    rewrite (two_pow_nonneg_Z (Z.log2 n)) in Heq by lia.
    assert (Ha' : a == inject_Z n / inject_Z d).
    { unfold n, d. destruct a as [an ad]. cbn. apply Qmake_Qdiv. }
    assert (HnQ : inject_Z (2 ^ Z.log2 n) <= inject_Z n) by (rewrite <- Zle_Qle; exact Hn1).
    assert (HdQ : inject_Z d <= inject_Z (2 ^ (Z.log2 d + 1))).
    { rewrite <- Zle_Qle. unfold Z.succ in Hd2. lia. }
    assert (HdQ0 : 0 < inject_Z d).
    { change 0 with (inject_Z 0). rewrite <- Zlt_Qlt. exact Hd. }
    set (p := two_pow (Z.log2 n - Z.log2 d - 1)) in *.
    assert (Hp : 0 < p) by apply two_pow_pos.
    rewrite Ha'. apply Qle_shift_div_l; [exact HdQ0 |].
    apply Qle_trans with (p * inject_Z (2 ^ (Z.log2 d + 1))).
    + apply Qmult_le_l; [exact Hp | exact HdQ].
    + rewrite Heq. exact HnQ.
Qed.

Lemma fl64_near (x : Q) :
  0 <= x -> x * (1 - float_ulp) <= fl64 x <= x * (1 + float_ulp).
Proof.
  intros Hx. unfold fl64.
  destruct (Qeq_bool x 0) eqn:E0.
  - apply Qeq_bool_iff in E0. rewrite E0. split; lra.
  - assert (Hpos : 0 < x).
    { apply Qle_lteq in Hx. destruct Hx as [Hx | Hx]; [exact Hx |].
      exfalso. symmetry in Hx. apply Qeq_bool_iff in Hx. congruence. }
    assert (Hnlt : Qltb x 0 = false).
    { unfold Qltb. apply negb_false_iff. apply Qle_bool_iff. exact Hx. }
    rewrite Hnlt. rewrite Qred_correct.
    assert (Habs : Qabs x = x).
    { destruct x as [n d]. unfold Qabs. f_equal. apply Z.abs_eq.
      unfold Qle in Hx. cbn in Hx. lia. }
    rewrite Habs.
    set (e := float_exponent x).
    pose proof (float_exponent_le x Hpos) as He. fold e in He.
    set (s := two_pow (52 - e)).
    assert (Hs : 0 < s) by apply two_pow_pos.
    pose proof (round_half_even_near (x * s)) as [Hlo Hhi].
    set (R := inject_Z (round_half_even (x * s))) in *.
    assert (Hm : inject_Z (2 ^ 52) <= x * s).
    { assert (H52 : two_pow e * s == inject_Z (2 ^ 52)).
      { unfold s. rewrite <- two_pow_plus. replace (e + (52 - e))%Z with 52%Z by lia.
        reflexivity. }
      rewrite <- H52. apply Qmult_le_r; [exact Hs | exact He]. }
    assert (Hu : x * s * float_ulp >= 1 # 2).
    { unfold float_ulp. 
      assert (H1 : inject_Z (2 ^ 52) * (1 # 2 ^ 53) == 1 # 2) by reflexivity.
      rewrite <- H1. apply Qmult_le_r; [reflexivity | exact Hm]. }
    split.
    + apply Qle_shift_div_l; [exact Hs |]. lra.
    + apply Qle_shift_div_r; [exact Hs |]. lra.
Qed.

#[export] Instance reference_numpy : Numpy :=
  {| np_sqrt := Qsqrt;
     log1p := fun x => x;
     float_round := fl64;
     np_sqrt_nonneg := Qsqrt_nonneg;
     float_round_near := fl64_near |}.

(** Regressors that ignore the features: the baseline answers the last
    training target, every other estimator the mean of the targets (a
    [DummyRegressor]); fitting refuses an empty training set.  The forest
    scores a row by its negated first entry, the standardised amount. *)
#[export] Instance reference_sklearn : Sklearn :=
  {| Model := Q;
     fit_estimator := fun name _ X y =>
       match X with
       | [] => raise "ValueError: Found array with 0 sample(s)"
       | _ => ret (if String.eqb name "linear" then List.last y 0 else meanQ y)
       end;
     model_predict := fun m _ => m;
     Forest := unit;
     fit_forest := fun _ X =>
       match X with
       | [] => raise "ValueError: Found array with 0 sample(s)"
       | _ => ret tt
       end;
     decision_function := fun _ row => Qred (- nth 0 row 0);
     forest_predict := fun _ row => if Qltb 2 (nth 0 row 0) then (-1)%Z else 1%Z |}.

(** ** Vocabulary of the statements *)

(** The weight map of a fresh predictor. *)
Definition weights_of `{Sklearn} (has_xgboost : bool) : dict Q :=
  ExpensePredictor.ensemble_weights (ExpensePredictor.init has_xgboost).

(** A series of [n] entries with no NaN from position [k] on. *)
Definition defined_from (k n : nat) (s : Series) : Prop :=
  length s = n /\ forall i, (k <= i < n)%nat -> isna (iloc s i) = false.

(** The row positions that [dropna] keeps. *)
Definition kept_rows (df : DataFrame) : list nat :=
  List.filter (fun i => negb (row_has_na df i)) (seq 0 (nrows df)).

Definition period_of (r : Transaction) : Z :=
  ExpensePredictor.to_period_M (tx_date r).

(** The number of calendar months that a ledger covers. *)
Definition n_months (df : list Transaction) : nat :=
  length (nodup Z.eq_dec (map period_of df)).

(** ** Sample ledgers *)

Definition sample_tx (i year month day : Z) (amount : Q) : Transaction :=
  {| tx_id := i;
     tx_user_id := 1;
     tx_date := {| ts_year := year; ts_month := month; ts_day := day;
                   ts_hour := 12; ts_dayofweek := 2 |};
     tx_amount := amount;
     tx_category := Some "Food"%string;
     tx_merchant := "Grocer"%string;
     tx_payment_method := Some "Card"%string |}.

(** January to July 2024, one purchase of 100 a month. *)
Definition seven_single_months : list Transaction :=
  map (fun m => sample_tx m 2024 m 5 100) [1; 2; 3; 4; 5; 6; 7]%Z.

(** [n] months from January 2024, two purchases a month. *)
Definition paired_months (months : list Z) : list Transaction :=
  flat_map (fun m => [ sample_tx m 2024 m 5 100;
                       sample_tx (m + 20) 2024 m 9 (50 + inject_Z m) ])
           months.

Definition seven_paired_months : list Transaction :=
  paired_months [1; 2; 3; 4; 5; 6; 7]%Z.

Definition nine_paired_months : list Transaction :=
  paired_months [1; 2; 3; 4; 5; 6; 7; 8; 9]%Z.

(** Two feature matrices of five months and one feature that agree on the
    first four rows, the training split, and differ in the held-out
    fifth. *)
Definition flat_features : list (list cell) :=
  [[Num 0]; [Num 0]; [Num 0]; [Num 0]; [Num 0]].

Definition late_jump_features : list (list cell) :=
  [[Num 0]; [Num 0]; [Num 0]; [Num 0]; [Num 10]].

Definition five_targets : Series := [Num 1; Num 2; Num 3; Num 4; Num 5].

(** The column means held by the scaler of a predictor, in lowest terms. *)
Definition fitted_means `{Sklearn} (r : result ExpensePredictor.t) : option (list Q) :=
  match r with
  | inr self => option_map (fun sc => map Qred (mean_ sc)) (ExpensePredictor.scaler self)
  | inl _ => None
  end.

(** The confidence in the words of the specification: 100 minus the
    coefficient of variation of the individual predictions, which is 100
    times their standard deviation over their mean, clamped to [0, 100]. *)
Definition coefficient_of_variation `{Numpy} (pred_values : list Q) : Q :=
  100 * (np_sqrt (varQ 0 pred_values) / meanQ pred_values).

Definition spec_confidence `{Numpy} (pred_values : list Q) : Q :=
  Qmax 0 (Qmin 100 (100 - coefficient_of_variation pred_values)).

(** A predictor as [load_models] could leave it: two constant models
    answering 1 and 2, one feature [f] with an identity scaler. *)
Definition two_model_predictor : @ExpensePredictor.t reference_sklearn :=
  {| ExpensePredictor.models := [("linear"%string, 1); ("ridge"%string, 2)];
     ExpensePredictor.scaler := Some {| mean_ := [0]; scale_ := [1] |};
     ExpensePredictor.feature_columns := ["f"%string];
     ExpensePredictor.is_trained := true;
     ExpensePredictor.ensemble_weights := weights_of true |}.

(** A monthly frame with the feature [f] and the given totals. *)
Definition totals_frame (totals : list Q) : DataFrame :=
  [ ("total_amount"%string, map Num totals);
    ("f"%string, map (fun _ => Num 0) totals) ].

(** How far, relative to the threshold, the mean of the recent window
    has to be from 1.10 or 0.90 times the older mean for the rounding of
    the float operations not to touch the trend. *)
Definition trend_margin : Q := 1 # 1000000000000.

(** The bin edges and labels of [calculate_fraud_scores]. *)
Definition risk_bins : list Q := [0; 25; 50; 75; 100].
Definition risk_labels : list string := ["Low"; "Medium"; "High"; "Critical"]%string.

(** A featured row in the middle of its ledger: median amount, one
    transaction that day, a daytime weekday, a known merchant, the
    category mean. *)
Definition median_row : FraudDetector.Featured :=
  {| FraudDetector.tx := sample_tx 1 2024 1 5 100;
     FraudDetector.hour := 12;
     FraudDetector.day_of_week := 2;
     FraudDetector.is_weekend := 0;
     FraudDetector.is_night := 0;
     FraudDetector.day_of_month := 5;
     FraudDetector.is_month_end := 0;
     FraudDetector.log_amount := Num 100;
     FraudDetector.category_encoded := 0;
     FraudDetector.payment_encoded := 0;
     FraudDetector.cat_mean := Num 100;
     FraudDetector.cat_std := Num 10;
     FraudDetector.amount_zscore := Num 0;
     FraudDetector.amount_percentile := 1 # 2;
     FraudDetector.is_high_value := 0;
     FraudDetector.daily_txn_count := 1;
     FraudDetector.high_velocity := 0;
     FraudDetector.merchant_frequency := 3;
     FraudDetector.rare_merchant := 0 |}.

(** A featured row whose sub-scores are at their caps, the deviation
    apart: the largest amount of its ledger, at the mean of its category,
    on a Saturday night, the fifth transaction of that day, at a merchant
    seen once.  With an anomaly score of 100 the weighted terms are 40, 6,
    2, 1.5, 0 and 0.5, each of them and each partial sum the same in
    floats, and the fused score is 50. *)
Definition saturday_night_row : FraudDetector.Featured :=
  {| FraudDetector.tx :=
       {| tx_id := 1;
          tx_user_id := 1;
          tx_date := {| ts_year := 2024; ts_month := 1; ts_day := 6;
                        ts_hour := 23; ts_dayofweek := 5 |};
          tx_amount := 100;
          tx_category := Some "Food"%string;
          tx_merchant := "Kiosk"%string;
          tx_payment_method := Some "Card"%string |};
     FraudDetector.hour := 23;
     FraudDetector.day_of_week := 5;
     FraudDetector.is_weekend := 1;
     FraudDetector.is_night := 1;
     FraudDetector.day_of_month := 6;
     FraudDetector.is_month_end := 0;
     FraudDetector.log_amount := Num 100;
     FraudDetector.category_encoded := 0;
     FraudDetector.payment_encoded := 0;
     FraudDetector.cat_mean := Num 100;
     FraudDetector.cat_std := Num 10;
     FraudDetector.amount_zscore := Num 0;
     FraudDetector.amount_percentile := 1;
     FraudDetector.is_high_value := 1;
     FraudDetector.daily_txn_count := 5;
     FraudDetector.high_velocity := 0;
     FraudDetector.merchant_frequency := 1;
     FraudDetector.rare_merchant := 1 |}.

(** What [engineer_features] guarantees about the columns that the scorer
    reads. *)
Definition engineered (f : FraudDetector.Featured) : Prop :=
  0 <= FraudDetector.amount_percentile f <= 1
  /\ (0 <= FraudDetector.is_night f <= 1)%Z
  /\ (0 <= FraudDetector.is_weekend f <= 1)%Z
  /\ (0 <= FraudDetector.rare_merchant f <= 1)%Z.

(** Three purchases over two months. *)
Definition three_purchases : list Transaction :=
  [ sample_tx 1 2024 1 5 100;
    sample_tx 2 2024 1 6 200;
    sample_tx 3 2024 2 7 4000 ].


(** The steps of [run_expense_prediction] behind its two guards. *)
Definition forecast_steps `{Numpy} `{Sklearn} (has_xgboost : bool)
           (df : list Transaction) (tune : bool)
  : result (ExpensePredictor.t * ExpensePredictor.Prediction) :=
  let monthly_df := ExpensePredictor.engineer_features df in
  let* (predictor, X, y) :=
    ExpensePredictor.prepare_data (ExpensePredictor.init has_xgboost) monthly_df in
  let* predictor :=
    ExpensePredictor.train_with_hyperparameter_tuning has_xgboost predictor X y tune in
  let* predictions := ExpensePredictor.predict_next_month predictor monthly_df in
  ret (predictor, predictions).

(** A detector whose scaler is the identity on one feature and which has
    no forest. *)
Definition unfitted_forest_detector : @FraudDetector.t reference_sklearn :=
  {| FraudDetector.isolation_forest := None;
     FraudDetector.scaler := Some {| mean_ := [0]; scale_ := [1] |};
     FraudDetector.label_encoders := [];
     FraudDetector.feature_columns := ["amount"%string];
     FraudDetector.is_trained := true;
     FraudDetector.contamination := 0.05 |}.

(** One turn of the loop that fits and stores the estimators. *)
Definition fit_step `{Sklearn} (fit : string -> result Model)
           (acc : result (dict Model)) (name : string) : result (dict Model) :=
  let* ms := acc in
  let* m := fit name in
  ret (dict_set ms name m).


(** The amount a month's group adds up to. *)
Definition group_total (g : Z * list Transaction) : Q := sumQ (map tx_amount (snd g)).

(** The feature names [prepare_data] finds in an engineered frame. *)
Definition forecast_feature_names : list string :=
  [ "avg_amount"; "transaction_count"; "std_amount"; "max_amount"; "min_amount";
    "year"; "month"; "quarter"; "is_q4"; "is_year_start"; "is_year_end";
    "lag_1"; "lag_2"; "lag_3"; "lag_4"; "lag_5"; "lag_6";
    "rolling_mean_2"; "rolling_std_2"; "rolling_max_2"; "rolling_min_2";
    "rolling_mean_3"; "rolling_std_3"; "rolling_max_3"; "rolling_min_3";
    "rolling_mean_6"; "rolling_std_6"; "rolling_max_6"; "rolling_min_6";
    "mom_growth"; "mom_growth_lag1"; "avg_txn_lag1"; "txn_count_lag1" ]%string.

(** A cell that is not an infinity. *)
Definition never_inf (c : cell) : Prop :=
  match c with
  | Inf _ => False
  | _ => True
  end.

(** A string without the character [.]. *)
Definition dotless (s : string) : bool :=
  forallb (fun c => negb (Ascii.eqb c "."%char)) (list_ascii_of_string s).

(** The spread of the decision scores of a candidate's forest on the
    scaled matrix, when the candidate can be fitted. *)
Definition candidate_spread `{Numpy} `{Sklearn} (X_scaled : list (list Q))
           (cand : ForestParams) : option Q :=
  match fit_forest cand X_scaled with
  | inl _ => None
  | inr model => Some (np_sqrt (varQ 0 (map (decision_function model) X_scaled)))
  end.

(** The contamination values of the search grid. *)
Definition grid_contaminations : list Q := [0.01; 0.02; 0.05; 0.1].

(** The key [min] compares in [predict_next_month]: the prediction, or
    infinity for the ensemble entry. *)
Definition best_model_key (x : string * Q) : cell :=
  if String.eqb (fst x) "ensemble" then Inf false else Num (snd x).

(** Nine months with the same two purchases, 100 and 60, in each. *)
Definition level_months : list Transaction :=
  flat_map (fun m => [ sample_tx m 2024 m 5 100; sample_tx (m + 20) 2024 m 9 60 ])
           [1; 2; 3; 4; 5; 6; 7; 8; 9]%Z.

(** The transactions of a category. *)
Definition of_category (df : list Transaction) (c : string) : list Transaction :=
  List.filter (fun r => ExpensePredictor.eq_category (tx_category r) (Some c)) df.

(** The weighted sum [_ensemble_predict] forms for one row: over the
    weights, with nothing for a name that has no model. *)
Definition weighted_row_sum `{Sklearn} (ms : dict Model) (ws : dict Q) (row : list Q) : Q :=
  sumQ (map (fun kw => snd kw * match dict_get ms (fst kw) with
                                | Some m => model_predict m row
                                | None => 0
                                end) ws).
(** * Properties *)

(** ** Ensemble weights *)

Section EnsembleWeights.
Context `{Sklearn}.

Lemma weights_with_xgboost :
  weights_of true
  = [ ("linear"%string, 0.10); ("ridge"%string, 0.15);
      ("random_forest"%string, 0.25); ("gradient_boosting"%string, 0.25);
      ("xgboost"%string, 0.25) ].
Proof. reflexivity. Qed.

Lemma weights_without_xgboost :
  weights_of false
  = [ ("linear"%string, 0.10); ("ridge"%string, 0.15);
      ("random_forest"%string, 0.30); ("gradient_boosting"%string, 0.35) ].
Proof. reflexivity. Qed.

Lemma weights_nonnegative (has_xgboost : bool) :
  Forall (fun w => 0 <= w) (dict_values (weights_of has_xgboost)).
Proof.
  destruct has_xgboost;
    [rewrite weights_with_xgboost | rewrite weights_without_xgboost];
    repeat constructor; discriminate.
Qed.

Lemma weights_with_xgboost_sum :
  sumQ (dict_values (weights_of true)) == 1.
Proof. rewrite weights_with_xgboost. reflexivity. Qed.

(** C1. Without the optional learner the weight map built by [__init__]
    is non-negative but sums to 0.90, outside 1.0 +- 1e-9: of the 0.25
    taken from [xgboost] only 0.15 is given back, 0.05 to
    [random_forest] and 0.10 to [gradient_boosting], which is not the
    even split of the two original weights either. *)
Theorem weights_without_xgboost_sum :
  sumQ (dict_values (weights_of false)) == 9 # 10
  /\ ~ Qabs (sumQ (dict_values (weights_of false)) - 1) <= 1 # 1000000000
  /\ Forall (fun w => 0 <= w) (dict_values (weights_of false))
  /\ dict_get (weights_of false) "random_forest" = Some 0.30
  /\ dict_get (weights_of false) "gradient_boosting" = Some 0.35
  /\ dict_get (weights_of false) "xgboost" = None
  /\ ~ 0.30 == 0.25 + 0.25 / 2.
Proof.
  rewrite weights_without_xgboost.
  repeat split; try reflexivity.
  - intros Hle. vm_compute in Hle. apply Hle. reflexivity.
  - repeat constructor; discriminate.
  - discriminate.
Qed.
End EnsembleWeights.
(** ** Series and frames *)

Lemma defined_from_weaken (k k' n : nat) (s : Series) :
  (k <= k')%nat -> defined_from k n s -> defined_from k' n s.
Proof. intros Hk [Hl Hs]. split; [exact Hl | intros i Hi; apply Hs; lia]. Qed.

Lemma nth_map_in {A B : Type} (f : A -> B) (l : list A) (i : nat) (d : B) (d' : A) :
  (i < length l)%nat -> nth i (map f l) d = f (nth i l d').
Proof.
  revert i. induction l as [| x l IH]; intros [| i] Hi; cbn in *; try lia.
  - reflexivity.
  - apply IH. lia.
Qed.

Lemma defined_from_map {A : Type} (f : A -> cell) (l : list A) (k : nat) (d : A) :
  (forall i, (k <= i < length l)%nat -> isna (f (nth i l d)) = false) ->
  defined_from k (length l) (map f l).
Proof.
  intros Hf. split; [apply length_map |].
  intros i Hi. unfold iloc. rewrite (nth_map_in f l i NaN d) by lia.
  apply Hf, Hi.
Qed.

Lemma iloc_shift (j : nat) (s : Series) (i : nat) :
  (i < length s)%nat ->
  iloc (shift j s) i = if (i <? j)%nat then NaN else iloc s (i - j).
Proof.
  intros Hi. unfold iloc, shift.
  rewrite nth_firstn. apply Nat.ltb_lt in Hi. rewrite Hi.
  destruct (Nat.ltb_spec i j) as [Hlt | Hge].
  - rewrite app_nth1 by (rewrite repeat_length; exact Hlt).
    apply nth_repeat.
  - rewrite app_nth2 by (rewrite repeat_length; exact Hge).
    rewrite repeat_length. reflexivity.
Qed.

Lemma length_shift (j : nat) (s : Series) : length (shift j s) = length s.
Proof.
  unfold shift. rewrite length_firstn, length_app, repeat_length. lia.
Qed.

Lemma defined_from_shift (k j n : nat) (s : Series) :
  defined_from k n s -> defined_from (k + j) n (shift j s).
Proof.
  intros [Hl Hs]. split; [rewrite length_shift; exact Hl |].
  intros i Hi. rewrite iloc_shift by lia.
  destruct (Nat.ltb_spec i j); [lia |]. apply Hs. lia.
Qed.

Lemma defined_from_rolling (window : nat) (agg : list Q -> cell) (s : list Q) :
  (forall w, length w = window -> isna (agg w) = false) ->
  defined_from (window - 1) (length s) (rolling window agg s).
Proof.
  intros Hagg. unfold rolling.
  split; [rewrite length_map, length_seq; reflexivity |].
  intros i Hi. unfold iloc.
  rewrite (nth_map_in _ _ i NaN 0%nat) by (rewrite length_seq; lia).
  rewrite seq_nth by lia. cbn [Nat.add].
  destruct (Nat.ltb_spec (S i) window); [lia |].
  apply Hagg. rewrite length_firstn, length_skipn. lia.
Qed.

Lemma iloc_pct_change (s : Series) (i : nat) :
  (i < length s)%nat ->
  iloc (pct_change s) i = csub (cdiv (iloc s i) (iloc (shift 1 s) i)) (Num 1).
Proof.
  intros Hi. unfold pct_change, iloc.
  assert (Hl : length (shift 1 s) = length s) by apply length_shift.
  revert Hl Hi. generalize (shift 1 s). revert i.
  induction s as [| x s IH]; intros i t Hl Hi; [cbn in Hi; lia |].
  destruct t as [| y t]; [discriminate |].
  destruct i as [| i]; [reflexivity |].
  cbn. apply IH; cbn in *; lia.
Qed.

Lemma length_pct_change (s : Series) : length (pct_change s) = length s.
Proof.
  unfold pct_change. rewrite length_zip_with, length_shift. lia.
Qed.

Lemma defined_from_pct_change (l : list Q) :
  Forall (fun q => ~ q == 0) l ->
  defined_from 1 (length l) (pct_change (map Num l)).
Proof.
  intros Hl. split; [rewrite length_pct_change; apply length_map |].
  intros i Hi. rewrite iloc_pct_change by (rewrite length_map; lia).
  rewrite iloc_shift by (rewrite length_map; lia).
  destruct (Nat.ltb_spec i 1); [lia |].
  unfold iloc.
  rewrite (nth_map_in Num l i NaN 0), (nth_map_in Num l (i - 1) NaN 0) by lia.
  cbn [cdiv].
  assert (Hnz : ~ nth (i - 1) l 0 == 0).
  { rewrite List.Forall_forall in Hl. apply Hl, nth_In. lia. }
  destruct (Qeq_bool (nth (i - 1) l 0) 0) eqn:E.
  - apply Qeq_bool_eq in E. contradiction.
  - reflexivity.
Qed.

Lemma dict_set_Forall {V : Type} (P : V -> Prop) (d : dict V) (k : string) (v : V) :
  Forall (fun kv => P (snd kv)) d -> P v ->
  Forall (fun kv => P (snd kv)) (dict_set d k v).
Proof.
  intros Hd Hv. induction Hd as [| [k' v'] d Hx Hd IH]; cbn.
  - constructor; [exact Hv | constructor].
  - destruct (String.eqb k' k); constructor; assumption.
Qed.

Lemma dict_get_In {V : Type} (d : dict V) (k : string) (v : V) :
  dict_get d k = Some v -> exists k', In (k', v) d.
Proof.
  induction d as [| [k' v'] d IH]; cbn; [discriminate |].
  destruct (String.eqb k' k).
  - intros [= ->]. exists k'. left. reflexivity.
  - intros Hg. destruct (IH Hg) as [k'' Hin]. exists k''. right. exact Hin.
Qed.

Lemma row_has_na_false (df : DataFrame) (i : nat) :
  row_has_na df i = false
  <-> Forall (fun col => isna (iloc (snd col) i) = false) df.
Proof.
  unfold row_has_na. induction df as [| col df IH]; cbn.
  - split; [constructor | reflexivity].
  - rewrite orb_false_iff, IH. split.
    + intros [Hc Hdf]. constructor; assumption.
    + intros Hall. inversion Hall; subst. split; assumption.
Qed.

Lemma nrows_dropna (df : DataFrame) :
  df <> [] -> nrows (dropna df) = length (kept_rows df).
Proof.
  destruct df as [| [name s] df]; [congruence |]. intros _.
  unfold dropna, kept_rows. cbn [map nrows fst snd]. apply length_map.
Qed.

Lemma dropna_no_na (df : DataFrame) (col : string * Series) (c : cell) :
  In col (dropna df) -> In c (snd col) -> isna c = false.
Proof.
  unfold dropna. intros Hcol Hc.
  apply in_map_iff in Hcol as [col0 [<- Hcol0]]. cbn [snd] in Hc.
  apply in_map_iff in Hc as [i [<- Hi]].
  apply filter_In in Hi as [_ Hi]. apply negb_true_iff in Hi.
  rewrite row_has_na_false in Hi. rewrite List.Forall_forall in Hi.
  apply (Hi col0 Hcol0).
Qed.

Lemma filter_seq_length (p : nat -> bool) (k n : nat) :
  (forall i, (i < n)%nat -> p i = (k <=? i)%nat) ->
  length (List.filter p (seq 0 n)) = (n - k)%nat.
Proof.
  induction n as [| n IH]; intros Hp; [reflexivity |].
  rewrite seq_S, List.filter_app, length_app, IH by (intros i Hi; apply Hp; lia).
  cbn [Nat.add List.filter]. rewrite (Hp n) by lia.
  destruct (Nat.leb_spec k n); cbn [length]; lia.
Qed.

Lemma filter_seq_length_le (p : nat -> bool) (k n : nat) :
  (forall i, (i < n)%nat -> p i = true -> (k <= i)%nat) ->
  (length (List.filter p (seq 0 n)) <= n - k)%nat.
Proof.
  induction n as [| n IH]; intros Hp; [cbn; lia |].
  rewrite seq_S, List.filter_app, length_app.
  assert (Hn : (length (List.filter p (seq 0 n)) <= n - k)%nat)
    by (apply IH; intros i Hi; apply Hp; lia).
  cbn [Nat.add List.filter]. destruct (p n) eqn:E; cbn [length]; [| lia].
  specialize (Hp n (Nat.lt_succ_diag_r n) E). lia.
Qed.

(** ** Grouping by month *)

Section Grouping.
Import ExpensePredictor.

Lemma insert_group_keys (k : Z) (r : Transaction) (gs : list (Z * list Transaction)) (k' : Z) :
  In k' (map fst (insert_group k r gs)) <-> k' = k \/ In k' (map fst gs).
Proof.
  induction gs as [| [k0 rs] gs IH]; cbn.
  - intuition.
  - destruct (Z.ltb_spec k k0); [cbn; intuition |].
    destruct (Z.eqb_spec k k0); cbn; [subst; intuition |].
    rewrite IH. intuition.
Qed.

Lemma insert_group_sorted (k : Z) (r : Transaction) (gs : list (Z * list Transaction)) :
  StronglySorted Z.lt (map fst gs) ->
  StronglySorted Z.lt (map fst (insert_group k r gs)).
Proof.
  induction gs as [| [k0 rs] gs IH]; cbn; intros Hs.
  - repeat constructor.
  - inversion Hs as [| ? ? Hs' Hall]; subst.
    destruct (Z.ltb_spec k k0).
    + cbn. constructor; [exact Hs |]. constructor; [assumption |].
      eapply List.Forall_impl; [| exact Hall]. cbn. intros; lia.
    + destruct (Z.eqb_spec k k0); cbn; [exact Hs |].
      constructor; [apply IH, Hs' |].
      rewrite List.Forall_forall. intros k' Hk'.
      apply insert_group_keys in Hk' as [-> | Hk']; [lia |].
      rewrite List.Forall_forall in Hall. apply Hall, Hk'.
Qed.

Lemma insert_group_members (k : Z) (r : Transaction) (gs : list (Z * list Transaction))
      (P : Transaction -> Prop) :
  P r ->
  Forall (fun g => snd g <> [] /\ Forall P (snd g)) gs ->
  Forall (fun g => snd g <> [] /\ Forall P (snd g)) (insert_group k r gs).
Proof.
  intros Hr Hgs. induction Hgs as [| [k0 rs] gs [Hne Hrs] Hgs IH]; cbn.
  - repeat constructor; [discriminate | exact Hr].
  - destruct (Z.ltb_spec k k0).
    + constructor; [split; [discriminate | repeat constructor; exact Hr] |].
      constructor; [split; assumption | exact Hgs].
    + destruct (Z.eqb_spec k k0).
      * constructor; [| exact Hgs]. cbn in *. split.
        -- destruct rs; discriminate.
        -- apply List.Forall_app. split; [exact Hrs | repeat constructor; exact Hr].
      * constructor; [split; assumption | exact IH].
Qed.

Lemma groupby_invariant (P : Transaction -> Prop) (df : list Transaction) :
  Forall P df ->
  forall gs,
    StronglySorted Z.lt (map fst gs) ->
    Forall (fun g => snd g <> [] /\ Forall P (snd g)) gs ->
    let gs' := fold_left (fun gs r => insert_group (period_of r) r gs) df gs in
    StronglySorted Z.lt (map fst gs')
    /\ Forall (fun g => snd g <> [] /\ Forall P (snd g)) gs'
    /\ (forall k, In k (map fst gs') <-> In k (map period_of df) \/ In k (map fst gs)).
Proof.
  induction 1 as [| r df Hr Hdf IH]; intros gs Hs Hm; cbn.
  - intuition.
  - destruct (IH (insert_group (period_of r) r gs)) as (Hs' & Hm' & Hk').
    + apply insert_group_sorted, Hs.
    + apply insert_group_members; assumption.
    + split; [exact Hs' |]. split; [exact Hm' |].
      intros k. rewrite Hk', insert_group_keys. intuition.
Qed.

Lemma sorted_NoDup (l : list Z) : StronglySorted Z.lt l -> List.NoDup l.
Proof.
  induction 1 as [| x l Hs IH Hall]; constructor; [| exact IH].
  intros Hin. rewrite List.Forall_forall in Hall.
  specialize (Hall x Hin). lia.
Qed.

Lemma groupby_members (P : Transaction -> Prop) (df : list Transaction) :
  Forall P df ->
  Forall (fun g => snd g <> [] /\ Forall P (snd g)) (groupby_year_month df).
Proof.
  intros Hdf.
  apply (groupby_invariant P df Hdf []); constructor.
Qed.

Lemma length_groupby (df : list Transaction) :
  length (groupby_year_month df) = n_months df.
Proof.
  destruct (groupby_invariant (fun _ => True) df) with (gs := @nil (Z * list Transaction))
    as (Hs & _ & Hk); try constructor.
  { rewrite List.Forall_forall. trivial. }
  unfold n_months. rewrite <- (length_map fst).
  apply Permutation.Permutation_length, Permutation.NoDup_Permutation.
  - apply sorted_NoDup, Hs.
  - apply List.NoDup_nodup.
  - intros k. rewrite nodup_In. 
    change (In k (map fst (groupby_year_month df)) <-> In k (map period_of df)).
    unfold groupby_year_month. 
    setoid_rewrite Hk. cbn. intuition.
Qed.
End Grouping.

(** ** The forecast feature builder *)

Lemma sumQ_pos (l : list Q) : l <> [] -> Forall (fun q => 0 < q) l -> 0 < sumQ l.
Proof.
  intros Hne Hall. destruct Hall as [| x l Hx Hl]; [congruence |].
  clear Hne. cbn. revert x Hx. induction Hl as [| y l Hy Hl IH]; intros x Hx; cbn.
  - lra.
  - specialize (IH y Hy). cbn in IH. lra.
Qed.

Lemma defined_map_total {A : Type} (f : A -> cell) (l : list A) (k n : nat) :
  (forall x, isna (f x) = false) -> length l = n -> defined_from k n (map f l).
Proof.
  intros Hf <-. destruct l as [| d l'] eqn:E.
  - split; [reflexivity | cbn; intros; lia].
  - rewrite <- E. apply (defined_from_map f l k d). intros i _. apply Hf.
Qed.

Lemma defined_lag (j n : nat) (s : Series) :
  (j <= 6)%nat -> defined_from 0 n s -> defined_from 6 n (shift j s).
Proof.
  intros Hj Hs. apply (defined_from_weaken (0 + j)); [lia |].
  apply defined_from_shift, Hs.
Qed.

Lemma defined_rolling (window n : nat) (agg : list Q -> cell) (s : list Q) :
  (window <= 7)%nat -> length s = n ->
  (forall w, length w = window -> isna (agg w) = false) ->
  defined_from 6 n (rolling window agg s).
Proof.
  intros Hw <- Hagg. apply (defined_from_weaken (window - 1)); [lia |].
  apply defined_from_rolling, Hagg.
Qed.

Section ForecastFeatures.
Context `{Numpy}.
Import ExpensePredictor.

Lemma sample_std_defined (w : list Q) :
  (2 <= length w)%nat -> isna (sample_std w) = false.
Proof.
  intros Hw. unfold sample_std.
  destruct (Nat.ltb_spec (length w) 2); [lia | reflexivity].
Qed.

Lemma isna_astype_int (b : bool) : isna (astype_int b) = false.
Proof. destruct b; reflexivity. Qed.

Lemma nrows_monthly_features (df : list Transaction) :
  nrows (monthly_features df) = n_months df.
Proof.
  rewrite <- length_groupby.
  change (nrows (monthly_features df))
    with (length (map (fun p => Num (inject_Z p)) (map fst (groupby_year_month df)))).
  rewrite !length_map. reflexivity.
Qed.

Lemma monthly_features_nonempty (df : list Transaction) : monthly_features df <> [].
Proof. discriminate. Qed.

Lemma monthly_totals_nonzero (df : list Transaction) :
  Forall (fun r => 0 < tx_amount r) df ->
  Forall (fun q => ~ q == 0)
         (map sumQ (map (fun g => map tx_amount (snd g)) (groupby_year_month df))).
Proof.
  intros Hpos. rewrite map_map. apply Forall_map.
  eapply List.Forall_impl; [| apply (groupby_members _ df Hpos)].
  intros [k rs] [Hne Hrs]. cbn [snd] in *.
  assert (0 < sumQ (map tx_amount rs)) as Hs; [| intros Heq; rewrite Heq in Hs; lra].
  apply sumQ_pos.
  - destruct rs; [congruence | discriminate].
  - apply Forall_map. exact Hrs.
Qed.

Lemma monthly_features_defined (df : list Transaction) :
  Forall (fun r => 0 < tx_amount r) df ->
  Forall (fun g => (2 <= length (snd g))%nat) (skipn 6 (groupby_year_month df)) ->
  Forall (fun col => defined_from 6 (n_months df) (snd col)) (monthly_features df).
Proof.
  intros Hpos Htwo. rewrite <- length_groupby.
  pose proof (monthly_totals_nonzero df Hpos) as Hnz.
  unfold monthly_features. cbn [fold_left seq].
  set (groups := groupby_year_month df) in *.
  set (amounts := map (fun g => map tx_amount (snd g)) groups) in *.
  set (total := map sumQ amounts) in *.
  assert (Ha : length amounts = length groups) by apply length_map.
  assert (Ht : length total = length groups)
    by (unfold total; rewrite length_map; exact Ha).
  assert (Hp : length (map fst groups) = length groups) by apply length_map.
  assert (Hn : length (map Num total) = length groups)
    by (rewrite length_map; exact Ht).
  assert (Hstd : defined_from 6 (length groups) (map sample_std amounts)).
  { rewrite <- Ha. apply (defined_from_map sample_std amounts 6 []).
    intros i Hi. apply sample_std_defined. unfold amounts.
    rewrite (nth_map_in _ groups i [] (0%Z, [])) by lia.
    rewrite length_map.
    rewrite List.Forall_forall in Htwo. apply Htwo.
    replace i with (6 + (i - 6))%nat by lia. rewrite <- nth_skipn.
    apply nth_In. rewrite length_skipn. lia. }
  assert (Hmom : defined_from 1 (length groups) (pct_change (map Num total))).
  { rewrite <- Ht. apply defined_from_pct_change, Hnz. }
  repeat apply dict_set_Forall;
    [ repeat apply List.Forall_cons; [.. | apply List.Forall_nil]; cbn [snd] | ..];
    try exact Hstd;
    try (apply defined_map_total;
         [intros x; first [reflexivity | apply isna_astype_int]
         | first [assumption | reflexivity]]);
    try (apply defined_lag; [lia |];
         apply defined_map_total; [reflexivity | assumption]);
    try (apply defined_rolling; [lia | assumption |];
         intros w Hw; try reflexivity; apply sample_std_defined; lia).
  - apply (defined_from_weaken 1); [lia | exact Hmom].
  - apply (defined_from_weaken (1 + 1)); [lia |].
    apply defined_from_shift, Hmom.
Qed.

Lemma monthly_features_lag6 (df : list Transaction) (i : nat) :
  (i < 6)%nat -> (i < n_months df)%nat ->
  row_has_na (monthly_features df) i = true.
Proof.
  intros Hi Hn. rewrite <- length_groupby in Hn.
  destruct (row_has_na (monthly_features df) i) eqn:E; [reflexivity |].
  rewrite row_has_na_false, List.Forall_forall in E.
  specialize (E ("lag_6"%string,
                 shift 6 (map Num (map sumQ (map (fun g => map tx_amount (snd g))
                                                  (groupby_year_month df)))))).
  cbn [snd] in E. rewrite iloc_shift in E by (rewrite !length_map; exact Hn).
  destruct (Nat.ltb_spec i 6); [| lia].
  enough (Hna : isna NaN = false) by discriminate Hna.
  apply E. unfold monthly_features. cbn [fold_left seq].
  do 20 right. left. reflexivity.
Qed.

Lemma kept_rows_ge_6 (df : list Transaction) (i : nat) :
  In i (kept_rows (monthly_features df)) -> (6 <= i)%nat.
Proof.
  unfold kept_rows. rewrite filter_In, in_seq, nrows_monthly_features.
  intros [[_ Hn] Hkeep]. cbn in Hn.
  destruct (Nat.lt_ge_cases i 6) as [Hlt | Hge]; [| exact Hge].
  rewrite (monthly_features_lag6 df i Hlt Hn) in Hkeep. discriminate.
Qed.

(** X22. Whatever the ledger, the six first months are lost: the frame of
    [engineer_features] has at most as many rows as the ledger has months
    beyond six. *)
Lemma engineer_features_rows_le (df : list Transaction) :
  (nrows (engineer_features df) <= n_months df - 6)%nat.
Proof.
  unfold engineer_features.
  rewrite nrows_dropna by apply monthly_features_nonempty.
  unfold kept_rows. rewrite nrows_monthly_features.
  apply filter_seq_length_le. intros i Hi Hkeep.
  apply (kept_rows_ge_6 df). unfold kept_rows.
  rewrite filter_In, in_seq, nrows_monthly_features. split; [lia | exact Hkeep].
Qed.

(** C2, as the code has it.  On a ledger of positive amounts that covers
    N calendar months, each of them from the seventh on with at least
    two transactions, [engineer_features] returns exactly max(0, N - 6)
    rows, and no cell of a returned row is NaN. *)
Theorem engineer_features_rows (df : list Transaction) :
  Forall (fun r => 0 < tx_amount r) df ->
  Forall (fun g => (2 <= length (snd g))%nat) (skipn 6 (groupby_year_month df)) ->
  nrows (engineer_features df) = Nat.max 0 (n_months df - 6)
  /\ forall col c, In col (engineer_features df) -> In c (snd col) -> isna c = false.
Proof.
  intros Hpos Htwo. split; [| intros col c; apply dropna_no_na].
  unfold engineer_features.
  rewrite nrows_dropna by apply monthly_features_nonempty.
  unfold kept_rows. rewrite nrows_monthly_features, Nat.max_0_l.
  apply filter_seq_length. intros i Hi.
  destruct (Nat.leb_spec 6 i) as [Hge | Hlt].
  - apply negb_true_iff, row_has_na_false.
    eapply List.Forall_impl; [| apply (monthly_features_defined df Hpos Htwo)].
    intros col [_ Hcol]. apply Hcol. lia.
  - apply negb_false_iff, monthly_features_lag6; lia.
Qed.
End ForecastFeatures.

(** The statement of C2 on a ledger that meets its conditions: seven
    months of two purchases each leave one row. *)
Lemma engineer_features_rows_witness :
  nrows (ExpensePredictor.engineer_features seven_paired_months) = Nat.max 0 (n_months seven_paired_months - 6)
  /\ forall col c,
      In col (ExpensePredictor.engineer_features seven_paired_months) ->
      In c (snd col) -> isna c = false.
Proof.
  apply (engineer_features_rows seven_paired_months).
  - repeat constructor.
  - vm_compute. repeat constructor.
Defined.

(** C2 as the claim states it fails when a month holds a single
    transaction: its [std_amount] is NaN and [dropna] removes the row.
    Seven months of one purchase each leave no row at all, where
    max(0, 7 - 6) = 1. *)
Lemma engineer_features_rows_counterexample :
  n_months seven_single_months = 7%nat
  /\ nrows (ExpensePredictor.engineer_features seven_single_months) = 0%nat
  /\ nrows (ExpensePredictor.engineer_features seven_single_months)
     <> Nat.max 0 (n_months seven_single_months - 6).
Proof. vm_compute. repeat split. discriminate. Qed.

(** ** Training: where the scaler is fitted *)

Lemma dict_get_set_eq {V : Type} (d : dict V) (k : string) (v : V) :
  dict_get (dict_set d k v) k = Some v.
Proof.
  induction d as [| [k' v'] d IH]; cbn.
  - rewrite String.eqb_refl. reflexivity.
  - destruct (String.eqb k' k) eqn:E; cbn; rewrite E; [reflexivity | exact IH].
Qed.

Lemma dict_get_set_ne {V : Type} (d : dict V) (k k' : string) (v : V) :
  k <> k' -> dict_get (dict_set d k v) k' = dict_get d k'.
Proof.
  intros Hne. induction d as [| [k0 v0] d IH]; cbn.
  - destruct (String.eqb_spec k k'); [contradiction | reflexivity].
  - destruct (String.eqb_spec k0 k) as [-> | Hk]; cbn.
    + destruct (String.eqb_spec k k'); [contradiction | reflexivity].
    + destruct (String.eqb_spec k0 k'); [reflexivity | exact IH].
Qed.

Section Training.
Context `{Numpy} `{Sklearn}.
Import ExpensePredictor.

Lemma fit_all_raised (fit : string -> result Model) (names : list string) (e : string) :
  fold_left (fit_step fit) names (inl e) = inl e.
Proof. induction names as [| n names IH]; [reflexivity | exact IH]. Qed.

Lemma fit_all_stored (fit : string -> result Model) (names : list string) :
  List.NoDup names ->
  forall ms0 fitted,
    fold_left (fit_step fit) names (ret ms0) = inr fitted ->
    (forall name, In name names ->
                  exists m, fit name = inr m /\ dict_get fitted name = Some m)
    /\ (forall k, ~ In k names -> dict_get fitted k = dict_get ms0 k).
Proof.
  induction 1 as [| n names Hn Hnd IH]; intros ms0 fitted Hfold.
  - cbn in Hfold. injection Hfold as <-. split; [intros ? [] | reflexivity].
  - cbn [fold_left] in Hfold. unfold fit_step at 2 in Hfold. cbn [bind ret] in Hfold.
    destruct (fit n) as [e | m] eqn:Hfit; cbn [bind] in Hfold.
    + rewrite fit_all_raised in Hfold. discriminate.
    + destruct (IH _ _ Hfold) as [Hin Hout]. split.
      * intros name [<- | Hname].
        -- exists m. split; [exact Hfit |].
           rewrite (Hout n Hn). apply dict_get_set_eq.
        -- apply Hin, Hname.
      * intros k Hk. rewrite Hout by (intros Hin'; apply Hk; right; exact Hin').
        apply dict_get_set_ne. intros ->. apply Hk. left. reflexivity.
Qed.

Lemma estimator_names_NoDup (has_xgboost : bool) :
  List.NoDup (estimator_names has_xgboost).
Proof.
  destruct has_xgboost; cbn;
    repeat (constructor; [cbn; intuition discriminate |]); constructor.
Qed.

(** C3, as the code has it.  When training succeeds, the scaler kept on
    the instance, which [predict_next_month] then reads, is the one fitted
    on all the rows handed to training, before the chronological split,
    the last 20% included; and every estimator is fitted on the first
    [int(0.8 n)] rows standardised with it. *)
Theorem train_scaler_fit_on_all_rows
        (has_xgboost : bool) (self : t) (X : list (list cell)) (y : Series)
        (tune : bool) (trained : t) :
  train_with_hyperparameter_tuning has_xgboost self X y tune = inr trained ->
  exists X' y',
    check_array X = inr X'
    /\ check_row y = inr y'
    /\ scaler trained = Some (scaler_fit X')
    /\ is_trained trained = true
    /\ forall name,
        In name (estimator_names has_xgboost) ->
        exists m,
          fit_estimator name tune
                        (firstn (split_idx X) (map (scale_row (scaler_fit X')) X'))
                        (firstn (split_idx X) y') = inr m
          /\ dict_get (models trained) name = Some m.
Proof.
  unfold train_with_hyperparameter_tuning, scaler_fit_transform.
  destruct (check_array X) as [e | X']; [discriminate |]. cbn [bind ret].
  destruct (check_row y) as [e | y']; [discriminate |]. cbn [bind].
  set (X_train := firstn (split_idx X) (map (scale_row (scaler_fit X')) X')).
  set (y_train := firstn (split_idx X) y').
  intros Htrain.
  change (fold_left _ (estimator_names has_xgboost) (ret (models self)))
    with (fold_left (fit_step (fun name => fit_estimator name tune X_train y_train))
                    (estimator_names has_xgboost) (ret (models self))) in Htrain.
  destruct (fold_left _ _ _) as [e | fitted] eqn:Hfold; [discriminate |].
  cbn [bind ret] in Htrain. injection Htrain as <-.
  exists X', y'. repeat split.
  intros name Hname.
  apply (fit_all_stored _ _ (estimator_names_NoDup has_xgboost) _ _ Hfold), Hname.
Qed.
End Training.

(** A run of the statement of C3: five months, one feature. *)
Lemma train_scaler_fit_on_all_rows_witness :
  exists X' y',
    check_array late_jump_features = inr X'
    /\ check_row five_targets = inr y'
    /\ fitted_means
         (ExpensePredictor.train_with_hyperparameter_tuning
            false (ExpensePredictor.init false) late_jump_features five_targets false)
       = Some (map Qred (mean_ (scaler_fit X'))).
Proof.
  destruct (ExpensePredictor.train_with_hyperparameter_tuning
              false (ExpensePredictor.init false) late_jump_features five_targets false)
    as [e | trained] eqn:Htrain; [vm_compute in Htrain; discriminate |].
  destruct (train_scaler_fit_on_all_rows false _ _ _ _ _ Htrain)
    as (X' & y' & HX & Hy & Hsc & _).
  exists X', y'. repeat split; [exact HX | exact Hy |].
  cbn [fitted_means]. rewrite Hsc. reflexivity.
Defined.

(** C3 as the claim states it fails: two matrices with the same first
    four rows, the whole training split of five, and a different fifth
    row leave different means in the scaler, so the held-out row took part
    in the fit. *)
Lemma train_scaler_counterexample :
  firstn (ExpensePredictor.split_idx flat_features) flat_features
  = firstn (ExpensePredictor.split_idx late_jump_features) late_jump_features
  /\ ExpensePredictor.split_idx late_jump_features = 4%nat
  /\ fitted_means
       (ExpensePredictor.train_with_hyperparameter_tuning
          false (ExpensePredictor.init false) flat_features five_targets false)
     = Some [0]
  /\ fitted_means
       (ExpensePredictor.train_with_hyperparameter_tuning
          false (ExpensePredictor.init false) late_jump_features five_targets false)
     = Some [2].
Proof. vm_compute. repeat split. Qed.

(** ** Prediction: forecast, confidence and trend *)

Lemma Qltb_lt (a b : Q) : Qltb a b = true <-> a < b.
Proof.
  unfold Qltb. rewrite negb_true_iff. split.
  - intros Hb. apply Qnot_le_lt. intros Hle.
    apply Qle_bool_iff in Hle. congruence.
  - intros Hlt. destruct (Qle_bool b a) eqn:E; [| reflexivity].
    apply Qle_bool_iff in E. lra.
Qed.

Lemma Qltb_ge (a b : Q) : Qltb a b = false <-> b <= a.
Proof.
  unfold Qltb. rewrite negb_false_iff. apply Qle_bool_iff.
Qed.

Lemma py_max0_nonneg (x : Q) : 0 <= py_max0 x.
Proof.
  unfold py_max0. destruct (Qltb 0 x) eqn:E; [| lra].
  apply Qltb_lt in E. lra.
Qed.

Lemma py_clamp_eq (y : Q) : py_max0 (py_min100 y) == Qmax 0 (Qmin 100 y).
Proof.
  unfold py_max0, py_min100.
  destruct (Qltb y 100) eqn:Ey.
  - apply Qltb_lt in Ey. rewrite (Q.min_r 100 y) by lra.
    destruct (Qltb 0 y) eqn:E0.
    + apply Qltb_lt in E0. rewrite Q.max_r by lra. reflexivity.
    + apply Qltb_ge in E0. rewrite Q.max_l by lra. reflexivity.
  - apply Qltb_ge in Ey. rewrite (Q.min_l 100 y) by lra.
    change (Qltb 0 100) with true. cbn iota. rewrite Q.max_r by lra. reflexivity.
Qed.

Lemma py_clamp_range (y : Q) : 0 <= py_max0 (py_min100 y) <= 100.
Proof.
  split; [apply py_max0_nonneg |].
  unfold py_max0, py_min100.
  destruct (Qltb y 100) eqn:Ey.
  - apply Qltb_lt in Ey. destruct (Qltb 0 y); lra.
  - change (Qltb 0 100) with true. cbn iota. lra.
Qed.

#[export] Instance round2_Proper : Proper (Qeq ==> Qeq) round2.
Proof.
  intros x y Hxy. unfold round2.
  assert (Hf : Qfloor (x * 100) = Qfloor (y * 100)) by (rewrite Hxy; reflexivity).
  rewrite Hf.
  assert (Hr : x * 100 - inject_Z (Qfloor (y * 100))
               == y * 100 - inject_Z (Qfloor (y * 100))) by (rewrite Hxy; reflexivity).
  assert (Hb1 : Qltb (x * 100 - inject_Z (Qfloor (y * 100))) (1 # 2)
                = Qltb (y * 100 - inject_Z (Qfloor (y * 100))) (1 # 2))
    by (unfold Qltb; rewrite Hr; reflexivity).
  assert (Hb2 : Qltb (1 # 2) (x * 100 - inject_Z (Qfloor (y * 100)))
                = Qltb (1 # 2) (y * 100 - inject_Z (Qfloor (y * 100))))
    by (unfold Qltb; rewrite Hr; reflexivity).
  rewrite Hb1, Hb2. reflexivity.
Qed.

Lemma round2_0 : round2 0 == 0.
Proof. reflexivity. Qed.

Lemma inject_Z_div100_range (n : Z) :
  (0 <= n <= 10000)%Z -> 0 <= inject_Z n / 100 <= 100.
Proof.
  intros [Hlo Hhi]. unfold Qle, Qdiv, Qmult, Qinv, inject_Z. cbn. lia.
Qed.

Lemma round2_range (x : Q) : 0 <= x <= 100 -> 0 <= round2 x <= 100.
Proof.
  intros [Hlo Hhi]. unfold round2.
  assert (Hs : 0 <= x * 100 <= 10000) by lra.
  set (s := x * 100) in *. set (f := Qfloor s).
  assert (Hf0 : (0 <= f)%Z).
  { unfold f. rewrite <- (Qfloor_Z 0). apply Qfloor_resp_le. apply Hs. }
  assert (Hf1 : (f <= 10000)%Z).
  { unfold f. rewrite <- (Qfloor_Z 10000). apply Qfloor_resp_le. apply Hs. }
  clearbody f. clearbody s.
  assert (Hup : 0 < s - inject_Z f -> (f + 1 <= 10000)%Z).
  { intros Hr. assert (Hlt : inject_Z f < inject_Z 10000).
    { change (inject_Z 10000) with 10000. lra. }
    rewrite <- Zlt_Qlt in Hlt. lia. }
  apply inject_Z_div100_range.
  destruct (Qltb (s - inject_Z f) (1 # 2)) eqn:E1; [lia |].
  apply Qltb_ge in E1.
  destruct (Qltb (1 # 2) (s - inject_Z f)) eqn:E2.
  { apply Qltb_lt in E2. assert (Hr : 0 < s - inject_Z f) by lra.
    specialize (Hup Hr). lia. }
  destruct (Z.even f); [lia |].
  assert (Hr : 0 < s - inject_Z f) by lra. specialize (Hup Hr). lia.
Qed.

Lemma fold_left_Qplus (l : list Q) (a : Q) : fold_left Qplus l a == a + sumQ l.
Proof.
  revert a. induction l as [| x l IH]; intros a.
  - change (a == a + 0). lra.
  - cbn [fold_left]. rewrite IH.
    change (sumQ (x :: l)) with (x + sumQ l). lra.
Qed.

Lemma tail_map {A B : Type} (f : A -> B) (n : nat) (l : list A) :
  tail n (map f l) = map f (tail n l).
Proof. unfold tail. rewrite length_map. apply skipn_map. Qed.

Lemma iloc_neg_slice_map {A B : Type} (f : A -> B) (a b : nat) (l : list A) :
  iloc_neg_slice a b (map f l) = map f (iloc_neg_slice a b l).
Proof.
  unfold iloc_neg_slice. rewrite length_map, skipn_map, firstn_map. reflexivity.
Qed.

Section Prediction.
Context `{Numpy} `{Sklearn}.
Import ExpensePredictor.

(** What a returned prediction is made of. *)
Lemma predict_next_month_inv (self : t) (monthly_df : DataFrame) (r : Prediction) :
  predict_next_month self monthly_df = inr r ->
  is_trained self = true
  /\ determine_trend monthly_df = inr (trend r)
  /\ confidence r = round2 (model_agreement (pred_values (predictions r)))
  /\ exists preds,
      predictions r = dict_set preds "ensemble" (py_max0 (ensemble_pred self preds)).
Proof.
  unfold predict_next_month.
  destruct (is_trained self); [cbn [negb] | discriminate].
  destruct (df_values monthly_df (feature_columns self)) as [e | rows];
    [discriminate |]. cbn [bind].
  destruct (scaler_transform (scaler self) (tail 1 rows)) as [e | scaled];
    [discriminate |]. cbn [bind].
  destruct (determine_trend monthly_df) as [e | tr]; [discriminate |]. cbn [bind ret].
  intros [= <-]. cbn. repeat split. eexists. reflexivity.
Qed.

Lemma determine_trend_returns (monthly_df : DataFrame) :
  (exists tr, determine_trend monthly_df = inr tr)
  <-> ((3 <= nrows monthly_df)%nat ->
       exists s, dict_get monthly_df "total_amount" = Some s).
Proof.
  unfold determine_trend, df_col.
  destruct (Nat.leb_spec 3 (nrows monthly_df)) as [H3 | H3].
  - destruct (dict_get monthly_df "total_amount") as [s |]; cbn [bind ret raise].
    + split; [intros _ _; exists s; reflexivity | intros _].
      destruct (cgt _ _); [eexists; reflexivity |].
      destruct (clt _ _); eexists; reflexivity.
    + split; [intros [tr Htr]; discriminate |].
      intros Hcol. destruct (Hcol H3) as [s Hs]. discriminate.
  - split; [intros _ H3'; lia | intros _; eexists; reflexivity].
Qed.

(** It returns exactly when the instance is trained and neither the
    column lookups nor the scaler raise. *)
Lemma predict_next_month_returns (self : t) (monthly_df : DataFrame) :
  (exists r, predict_next_month self monthly_df = inr r)
  <-> is_trained self = true
      /\ (exists rows scaled,
             df_values monthly_df (feature_columns self) = inr rows
             /\ scaler_transform (scaler self) (tail 1 rows) = inr scaled)
      /\ ((3 <= nrows monthly_df)%nat ->
          exists s, dict_get monthly_df "total_amount" = Some s).
Proof.
  rewrite <- determine_trend_returns. unfold predict_next_month.
  destruct (is_trained self); cbn [negb];
    [| split; [intros [r Hr] | intros [Ht _]]; discriminate].
  destruct (df_values monthly_df (feature_columns self)) as [e | rows]; cbn [bind].
  { split; [intros [r Hr]; discriminate |].
    intros (_ & (rows & scaled & Hd & _) & _). discriminate. }
  destruct (scaler_transform (scaler self) (tail 1 rows)) as [e | scaled] eqn:Hsc;
    cbn [bind].
  { split; [intros [r Hr]; discriminate |].
    intros (_ & (rows' & scaled & Hd & Hs) & _).
    injection Hd as <-. rewrite Hsc in Hs. discriminate. }
  destruct (determine_trend monthly_df) as [e | tr]; cbn [bind ret].
  - split; [intros [r Hr]; discriminate |].
    intros (_ & _ & [tr Htr]). discriminate.
  - split; [intros _ | intros _; eexists; reflexivity].
    split; [reflexivity |]. split; [| exists tr; reflexivity].
    exists rows, scaled. split; [reflexivity | exact Hsc].
Qed.


(** *** Confidence *)

Lemma model_agreement_spec (pv : list Q) :
  0 < meanQ pv -> model_agreement pv == spec_confidence pv.
Proof.
  intros Hmean. unfold model_agreement, spec_confidence, coefficient_of_variation.
  destruct pv as [| x pv]; [vm_compute in Hmean; discriminate |].
  cbn [np_std np_mean].
  apply Qltb_lt in Hmean. rewrite Hmean.
  rewrite py_clamp_eq.
  assert (Hcv : np_sqrt (varQ 0 (x :: pv)) / meanQ (x :: pv) * 100
                == 100 * (np_sqrt (varQ 0 (x :: pv)) / meanQ (x :: pv))) by ring.
  rewrite Hcv. reflexivity.
Qed.

Lemma model_agreement_zero_mean (pv : list Q) :
  ~ 0 < meanQ pv -> model_agreement pv == 0.
Proof.
  intros Hmean. unfold model_agreement.
  destruct pv as [| x pv]; [reflexivity |].
  cbn [np_std np_mean].
  destruct (Qltb 0 (meanQ (x :: pv))) eqn:E;
    [apply Qltb_lt in E; contradiction | reflexivity].
Qed.

(** C7, as the code has it.  The returned confidence is 100 minus the
    coefficient of variation of the individual predictions, clamped to
    [0, 100] and then rounded to two decimals; it is 0 when their mean
    is 0, and always within [0, 100]. *)
Theorem confidence_rounded_agreement
        (self : t) (monthly_df : DataFrame) (r : Prediction) :
  predict_next_month self monthly_df = inr r ->
  let pv := pred_values (predictions r) in
  (0 < meanQ pv -> confidence r == round2 (spec_confidence pv))
  /\ (meanQ pv == 0 -> confidence r == 0)
  /\ 0 <= confidence r <= 100.
Proof.
  intros Hr pv. destruct (predict_next_month_inv _ _ _ Hr) as (_ & _ & -> & _).
  fold pv. repeat split.
  - intros Hmean. rewrite (model_agreement_spec pv Hmean). reflexivity.
  - intros Hmean. rewrite model_agreement_zero_mean by lra. reflexivity.
  - apply round2_range, py_clamp_range.
  - apply round2_range, py_clamp_range.
Qed.
End Prediction.
(** A run of the statement of C7: the two constant models answer 1 and
    2, so the mean is 3/2, the deviation 1/2, and the confidence is
    round(100 - 100/3, 2) = 66.67. *)
Lemma confidence_rounded_agreement_witness :
  exists r,
    ExpensePredictor.predict_next_month two_model_predictor (totals_frame [100]) = inr r
    /\ let pv := ExpensePredictor.pred_values (ExpensePredictor.predictions r) in
       (0 < meanQ pv -> ExpensePredictor.confidence r == round2 (spec_confidence pv))
       /\ (meanQ pv == 0 -> ExpensePredictor.confidence r == 0)
       /\ 0 <= ExpensePredictor.confidence r <= 100.
Proof.
  eexists. split; [vm_compute; reflexivity |].
  apply (confidence_rounded_agreement two_model_predictor (totals_frame [100])).
  vm_compute. reflexivity.
Defined.

(** C7 as the claim states it fails by the rounding: on that run the
    returned confidence is 66.67, while 100 minus the coefficient of
    variation, clamped, is 200/3. *)
Lemma confidence_counterexample :
  exists r,
    ExpensePredictor.predict_next_month two_model_predictor (totals_frame [100]) = inr r
    /\ ExpensePredictor.pred_values (ExpensePredictor.predictions r) = [1; 2]
    /\ spec_confidence [1; 2] == 200 # 3
    /\ ExpensePredictor.confidence r == 6667 # 100
    /\ ~ ExpensePredictor.confidence r == spec_confidence [1; 2].
Proof.
  eexists. split; [vm_compute; reflexivity |].
  split; [reflexivity |]. split; [vm_compute; reflexivity |].
  split; [vm_compute; reflexivity |].
  vm_compute. discriminate.
Qed.

(** *** Trend *)

Lemma sumQ_nonneg (l : list Q) : Forall (fun q => 0 <= q) l -> 0 <= sumQ l.
Proof.
  induction 1 as [| x l Hx Hl IH]; [apply Qle_refl |].
  change (sumQ (x :: l)) with (x + sumQ l). lra.
Qed.

Lemma meanQ_nonneg (l : list Q) : Forall (fun q => 0 <= q) l -> 0 <= meanQ l.
Proof.
  intros Hl. unfold meanQ, Qdiv. apply Qmult_le_0_compat; [apply sumQ_nonneg, Hl |].
  apply Qinv_le_0_compat. unfold lenQ.
  change 0 with (inject_Z 0). rewrite <- Zle_Qle. lia.
Qed.

Lemma length_three {A : Type} (l : list A) :
  length l = 3%nat -> exists a b c, l = [a; b; c].
Proof.
  destruct l as [| a [| b [| c [| d l]]]]; try discriminate.
  intros _. exists a, b, c. reflexivity.
Qed.

Lemma length_tail_3 {A : Type} (l : list A) :
  (3 <= length l)%nat -> length (tail 3 l) = 3%nat.
Proof. intros Hl. unfold tail. rewrite length_skipn. lia. Qed.

Lemma length_iloc_neg_slice_6_3 {A : Type} (l : list A) :
  (6 <= length l)%nat -> length (iloc_neg_slice 6 3 l) = 3%nat.
Proof.
  intros Hl. unfold iloc_neg_slice. rewrite length_firstn, length_skipn. lia.
Qed.

Section FloatMean.
Context `{Numpy}.

(** The float mean of three non-negative doubles is the exact mean, up
    to the five roundings on the way. *)
Lemma series_mean_three (a b c : Q) :
  0 <= a -> 0 <= b -> 0 <= c ->
  exists m,
    series_mean [Num a; Num b; Num c] = Num m
    /\ meanQ [a; b; c] * (1 - (1 # 1000000000000000)) <= m
    /\ m <= meanQ [a; b; c] * (1 + (1 # 1000000000000000)).
Proof.
  intros Ha Hb Hc.
  assert (Hmean : meanQ [a; b; c] == (a + b + c) * (1 # 3)).
  { unfold meanQ, sumQ, lenQ. cbn [fold_right length].
    change (inject_Z (Z.of_nat 3)) with (3 # 1). field. }
  assert (Hrun : series_mean [Num a; Num b; Num c]
                 = Num (float_round
                          ((float_round
                              (float_round (float_round (0 + float_round a)
                                            + float_round b)
                               + float_round c))
                           / (3 # 1))))
    by reflexivity.
  eexists. split; [exact Hrun |]. rewrite Hmean.
  pose proof (float_round_near a Ha) as Hfa.
  pose proof (float_round_near b Hb) as Hfb.
  pose proof (float_round_near c Hc) as Hfc.
  set (fa := float_round a) in *. set (fb := float_round b) in *.
  set (fc := float_round c) in *.
  change float_ulp with (1 # 9007199254740992) in *.
  assert (H1 : 0 <= 0 + fa) by lra.
  pose proof (float_round_near _ H1) as Hs1.
  set (s1 := float_round (0 + fa)) in *.
  change float_ulp with (1 # 9007199254740992) in *.
  assert (H2 : 0 <= s1 + fb) by lra.
  pose proof (float_round_near _ H2) as Hs2.
  set (s2 := float_round (s1 + fb)) in *.
  change float_ulp with (1 # 9007199254740992) in *.
  assert (H3 : 0 <= s2 + fc) by lra.
  pose proof (float_round_near _ H3) as Hs3.
  set (s3 := float_round (s2 + fc)) in *.
  change float_ulp with (1 # 9007199254740992) in *.
  assert (Hdiv : s3 / (3 # 1) == s3 * (1 # 3)) by field.
  assert (H4 : 0 <= s3 / (3 # 1)) by (rewrite Hdiv; lra).
  pose proof (float_round_near _ H4) as Hm.
  set (m := float_round (s3 / (3 # 1))) in *.
  change float_ulp with (1 # 9007199254740992) in *.
  rewrite Hdiv in Hm.
  split; lra.
Qed.

(** The float product of a non-negative double and one of the two
    literals is the exact product, up to two roundings. *)
Lemma float_threshold (m k : Q) :
  0 <= m -> 0 <= k ->
  m * k * (1 - (1 # 1000000000000000)) <= float_round (m * float_round k)
  /\ float_round (m * float_round k) <= m * k * (1 + (1 # 1000000000000000)).
Proof.
  intros Hm Hk.
  pose proof (float_round_near k Hk) as Hfk.
  set (fk := float_round k) in *.
  change float_ulp with (1 # 9007199254740992) in *.
  assert (Hlo : m * (k * (1 - (1 # 9007199254740992))) <= m * fk).
  { rewrite !(Qmult_comm m). apply Qmult_le_compat_r; [apply Hfk | exact Hm]. }
  assert (Hhi : m * fk <= m * (k * (1 + (1 # 9007199254740992)))).
  { rewrite !(Qmult_comm m). apply Qmult_le_compat_r; [apply Hfk | exact Hm]. }
  assert (Hmk : 0 <= m * k) by (apply Qmult_le_0_compat; assumption).
  set (mk := m * k) in *.
  assert (Hlo' : mk * (1 - (1 # 9007199254740992)) <= m * fk).
  { eapply Qle_trans; [| exact Hlo]. unfold mk. apply Qle_lteq. right. ring. }
  assert (Hhi' : m * fk <= mk * (1 + (1 # 9007199254740992))).
  { eapply Qle_trans; [exact Hhi |]. unfold mk. apply Qle_lteq. right. ring. }
  assert (H0 : 0 <= m * fk) by lra.
  pose proof (float_round_near _ H0) as Ht.
  set (p := m * fk) in *. set (t := float_round p) in *.
  change float_ulp with (1 # 9007199254740992) in *.
  split; lra.
Qed.
End FloatMean.

Section Trend.
Context `{Numpy} `{Sklearn}.
Import ExpensePredictor.

Lemma determine_trend_short (monthly_df : DataFrame) :
  (nrows monthly_df < 3)%nat ->
  determine_trend monthly_df = inr "insufficient_data"%string.
Proof.
  intros Hn. unfold determine_trend.
  destruct (Nat.leb_spec 3 (nrows monthly_df)); [lia | reflexivity].
Qed.

(** The float mean of a window of three non-negative totals. *)
Lemma series_mean_window (w : list Q) :
  length w = 3%nat ->
  Forall (fun q => 0 <= q) w ->
  exists m,
    series_mean (map Num w) = Num m
    /\ meanQ w * (1 - (1 # 1000000000000000)) <= m
    /\ m <= meanQ w * (1 + (1 # 1000000000000000))
    /\ 0 <= meanQ w.
Proof.
  intros Hlen Hpos.
  destruct (length_three w Hlen) as (a & b & c & ->).
  inversion Hpos as [| ? ? Ha Hpos1]; subst.
  inversion Hpos1 as [| ? ? Hb Hpos2]; subst.
  inversion Hpos2 as [| ? ? Hc _]; subst.
  destruct (series_mean_three a b c Ha Hb Hc) as (m & Hm & Hlo & Hhi).
  exists m. split; [exact Hm |]. split; [exact Hlo |]. split; [exact Hhi |].
  apply meanQ_nonneg. exact Hpos.
Qed.

(** The label over six months or more of non-negative totals: the
    comparison of the two exact means decides it wherever they are not
    within [trend_margin] of a threshold. *)
Lemma determine_trend_full (monthly_df : DataFrame) (totals : list Q) (label : string) :
  (6 <= nrows monthly_df)%nat ->
  dict_get monthly_df "total_amount" = Some (map Num totals) ->
  length totals = nrows monthly_df ->
  Forall (fun q => 0 <= q) totals ->
  determine_trend monthly_df = inr label ->
  let recent := meanQ (tail 3 totals) in
  let older := meanQ (iloc_neg_slice 6 3 totals) in
  (1.1 * older * (1 + trend_margin) < recent -> label = "increasing"%string)
  /\ (recent < 0.9 * older * (1 - trend_margin) -> label = "decreasing"%string)
  /\ (0.9 * older * (1 + trend_margin) <= recent <= 1.1 * older * (1 - trend_margin)
      -> label = "stable"%string)
  /\ (label = "increasing"%string -> 1.1 * older * (1 - trend_margin) < recent)
  /\ (label = "decreasing"%string -> recent < 0.9 * older * (1 + trend_margin))
  /\ (label = "stable"%string
      -> 0.9 * older * (1 - trend_margin) <= recent <= 1.1 * older * (1 + trend_margin))
  /\ In label ["increasing"; "decreasing"; "stable"]%string.
Proof.
  intros Hn Hcol Hlen Hpos Hlabel recent older.
  unfold determine_trend, df_col in Hlabel. rewrite Hcol in Hlabel.
  destruct (Nat.leb_spec 3 (nrows monthly_df)); [| lia].
  destruct (Nat.leb_spec 6 (nrows monthly_df)); [| lia].
  cbn [bind ret] in Hlabel.
  rewrite tail_map, iloc_neg_slice_map in Hlabel.
  destruct (series_mean_window (tail 3 totals)) as (m1 & E1 & Hlo1 & Hhi1 & Hr0).
  { apply length_tail_3. lia. }
  { unfold tail. apply Forall_drop, Hpos. }
  destruct (series_mean_window (iloc_neg_slice 6 3 totals))
    as (m2 & E2 & Hlo2 & Hhi2 & Ho0).
  { apply length_iloc_neg_slice_6_3. lia. }
  { unfold iloc_neg_slice. apply Forall_take, Forall_drop, Hpos. }
  fold recent in Hlo1, Hhi1, Hr0. fold older in Hlo2, Hhi2, Ho0.
  rewrite E1, E2 in Hlabel. unfold fmul in Hlabel. cbn [cmul fround cgt clt] in Hlabel.
  assert (Hm2 : 0 <= m2) by lra.
  destruct (float_threshold m2 1.1 Hm2) as [Hup_lo Hup_hi]; [lra |].
  destruct (float_threshold m2 0.9 Hm2) as [Hdn_lo Hdn_hi]; [lra |].
  set (up := float_round (m2 * float_round 1.1)) in *.
  set (dn := float_round (m2 * float_round 0.9)) in *.
  unfold trend_margin.
  destruct (Qltb up m1) eqn:Einc.
  - injection Hlabel as <-. apply Qltb_lt in Einc.
    split; [reflexivity |].
    split; [intros; exfalso; lra |].
    split; [intros; exfalso; lra |].
    split; [intros _; lra |].
    split; [discriminate |].
    split; [discriminate |].
    left. reflexivity.
  - apply Qltb_ge in Einc.
    destruct (Qltb m1 dn) eqn:Edec; injection Hlabel as <-.
    + apply Qltb_lt in Edec.
      split; [intros; exfalso; lra |].
      split; [reflexivity |].
      split; [intros; exfalso; lra |].
      split; [discriminate |].
      split; [intros _; lra |].
      split; [discriminate |].
      right. left. reflexivity.
    + apply Qltb_ge in Edec.
      split; [intros; exfalso; lra |].
      split; [intros; exfalso; lra |].
      split; [reflexivity |].
      split; [discriminate |].
      split; [discriminate |].
      split; [intros _; lra |].
      right. right. left. reflexivity.
Qed.

(** With three to five months the older window is the recent one, and
    non-negative totals are labelled stable. *)
Lemma determine_trend_partial (monthly_df : DataFrame) (totals : list Q) :
  (3 <= nrows monthly_df < 6)%nat ->
  dict_get monthly_df "total_amount" = Some (map Num totals) ->
  length totals = nrows monthly_df ->
  Forall (fun q => 0 <= q) totals ->
  determine_trend monthly_df = inr "stable"%string.
Proof.
  intros Hn Hcol Hlen Hpos.
  unfold determine_trend, df_col. rewrite Hcol.
  destruct (Nat.leb_spec 3 (nrows monthly_df)); [| lia].
  destruct (Nat.leb_spec 6 (nrows monthly_df)); [lia |].
  cbn [bind ret]. rewrite tail_map.
  destruct (series_mean_window (tail 3 totals)) as (m1 & -> & Hlo1 & Hhi1 & Hr0).
  { apply length_tail_3. lia. }
  { unfold tail. apply Forall_drop, Hpos. }
  assert (Hm : 0 <= m1) by lra.
  unfold fmul. cbn [cmul fround cgt clt].
  destruct (float_threshold m1 1.1 Hm) as [Hup_lo Hup_hi]; [lra |].
  destruct (float_threshold m1 0.9 Hm) as [Hdn_lo Hdn_hi]; [lra |].
  set (up := float_round (m1 * float_round 1.1)) in *.
  set (dn := float_round (m1 * float_round 0.9)) in *.
  destruct (Qltb up m1) eqn:Einc; [apply Qltb_lt in Einc; lra |].
  destruct (Qltb m1 dn) eqn:Edec; [apply Qltb_lt in Edec; lra |].
  reflexivity.
Qed.

(** C8, as the code has it.  The returned trend is [insufficient_data]
    below three monthly rows.  Over non-negative monthly totals it is
    [stable] with three to five rows, where the recent mean is compared
    with itself, and from six rows on it follows the mean of the last
    three totals and the mean of the three before, both computed in
    floats: [increasing] when the recent mean exceeds 1.10 times the
    older one by more than [trend_margin] of it, [decreasing] when it is
    below 0.90 times the older one by more than that, [stable] when it is
    between the two with that margin; an [increasing] label gives a
    recent mean above 1.10 times the older one less the margin, and the
    like for the other two.  Within the margin of a threshold the
    rounding decides. *)
Theorem trend_label_rule (self : t) (monthly_df : DataFrame) (r : Prediction) :
  predict_next_month self monthly_df = inr r ->
  ((nrows monthly_df < 3)%nat -> trend r = "insufficient_data"%string)
  /\ forall totals,
      dict_get monthly_df "total_amount" = Some (map Num totals) ->
      length totals = nrows monthly_df ->
      Forall (fun q => 0 <= q) totals ->
      ((3 <= nrows monthly_df < 6)%nat -> trend r = "stable"%string)
      /\ ((6 <= nrows monthly_df)%nat ->
          let recent := meanQ (tail 3 totals) in
          let older := meanQ (iloc_neg_slice 6 3 totals) in
          (1.1 * older * (1 + trend_margin) < recent
           -> trend r = "increasing"%string)
          /\ (recent < 0.9 * older * (1 - trend_margin)
              -> trend r = "decreasing"%string)
          /\ (0.9 * older * (1 + trend_margin) <= recent
              <= 1.1 * older * (1 - trend_margin)
              -> trend r = "stable"%string)
          /\ (trend r = "increasing"%string
              -> 1.1 * older * (1 - trend_margin) < recent)
          /\ (trend r = "decreasing"%string
              -> recent < 0.9 * older * (1 + trend_margin))
          /\ (trend r = "stable"%string
              -> 0.9 * older * (1 - trend_margin) <= recent
                 <= 1.1 * older * (1 + trend_margin))
          /\ In (trend r) ["increasing"; "decreasing"; "stable"]%string).
Proof.
  intros Hr. destruct (predict_next_month_inv _ _ _ Hr) as (_ & Htrend & _).
  split.
  - intros Hn. rewrite (determine_trend_short _ Hn) in Htrend.
    injection Htrend as <-. reflexivity.
  - intros totals Hcol Hlen Hpos. split.
    + intros Hn.
      rewrite (determine_trend_partial monthly_df totals Hn Hcol Hlen Hpos) in Htrend.
      injection Htrend as <-. reflexivity.
    + intros Hn.
      apply (determine_trend_full monthly_df totals (trend r)); assumption.
Qed.
End Trend.

Lemma rising_months_forecast :
  exists r,
    ExpensePredictor.predict_next_month
      two_model_predictor (totals_frame [100; 100; 100; 130; 130; 130]) = inr r.
Proof. eexists. vm_compute. reflexivity. Qed.

(** A run of the statement of C8: six months that rise from 100 to 130
    a month are [increasing]. *)
Lemma trend_label_rule_witness :
  exists r,
    ExpensePredictor.predict_next_month
      two_model_predictor (totals_frame [100; 100; 100; 130; 130; 130]) = inr r
    /\ 1.1 * meanQ (iloc_neg_slice 6 3 [100; 100; 100; 130; 130; 130])
       * (1 + trend_margin)
       < meanQ (tail 3 [100; 100; 100; 130; 130; 130])
    /\ ExpensePredictor.trend r = "increasing"%string.
Proof.
  destruct rising_months_forecast as [r Hr].
  exists r. split; [exact Hr |]. split; [reflexivity |].
  refine (proj1 (proj2 (proj2 (trend_label_rule two_model_predictor
                                 (totals_frame [100; 100; 100; 130; 130; 130])
                                 r Hr)
                              [100; 100; 100; 130; 130; 130] _ _ _) _) _).
  - reflexivity.
  - reflexivity.
  - repeat constructor; discriminate.
  - cbn. lia.
  - reflexivity.
Defined.

(** C8 as the claim states it fails on the thresholds.  Older totals of
    33, 33 and 34 have the mean 100/3, recent totals of 30 have the mean
    30, which is 0.90 times 100/3 and not below it; the float mean of the
    older window is 33.333333333333336, its product with 0.9 is
    30.000000000000004, and the label is [decreasing]. *)
Lemma trend_label_counterexample :
  exists r,
    ExpensePredictor.predict_next_month
      two_model_predictor (totals_frame [33; 33; 34; 30; 30; 30]) = inr r
    /\ meanQ (tail 3 [33; 33; 34; 30; 30; 30])
       == 0.9 * meanQ (iloc_neg_slice 6 3 [33; 33; 34; 30; 30; 30])
    /\ ExpensePredictor.trend r = "decreasing"%string
    /\ ~ (ExpensePredictor.trend r = "decreasing"%string
          <-> meanQ (tail 3 [33; 33; 34; 30; 30; 30])
              < 0.9 * meanQ (iloc_neg_slice 6 3 [33; 33; 34; 30; 30; 30])).
Proof.
  eexists. split; [vm_compute; reflexivity |].
  split; [reflexivity |]. split; [reflexivity |].
  intros [Hdec _]. specialize (Hdec eq_refl). vm_compute in Hdec. discriminate.
Qed.
(** ** Fraud scores and risk labels *)

Lemma np_clip_range (q : Q) :
  exists r, np_clip (Num q) 0 100 = Num r /\ 0 <= r <= 100 /\ (q <= 100 -> r <= Qmax 0 q).
Proof.
  unfold np_clip, clt. cbn [cgt].
  destruct (Qltb q 0) eqn:Elo.
  - apply Qltb_lt in Elo. cbn [cgt]. change (Qltb 100 0) with false. cbn iota.
    exists 0. split; [reflexivity |]. split; [lra |]. intros _. apply Q.le_max_l.
  - apply Qltb_ge in Elo. cbn [cgt].
    destruct (Qltb 100 q) eqn:Ehi.
    + apply Qltb_lt in Ehi. exists 100. split; [reflexivity |]. split; [lra |].
      intros Hq. lra.
    + apply Qltb_ge in Ehi. exists q. split; [reflexivity |]. split; [lra |].
      intros _. apply Q.le_max_r.
Qed.

(** The labels that [pd.cut] gives over the edges 0, 25, 50, 75, 100:
    each bin is open on the left and closed on the right. *)
Lemma pd_cut_risk (q : Q) :
  (FraudDetector.pd_cut risk_bins risk_labels (Num q) = Some "Low"%string
   <-> 0 < q <= 25)
  /\ (FraudDetector.pd_cut risk_bins risk_labels (Num q) = Some "Medium"%string
      <-> 25 < q <= 50)
  /\ (FraudDetector.pd_cut risk_bins risk_labels (Num q) = Some "High"%string
      <-> 50 < q <= 75)
  /\ (FraudDetector.pd_cut risk_bins risk_labels (Num q) = Some "Critical"%string
      <-> 75 < q <= 100)
  /\ (FraudDetector.pd_cut risk_bins risk_labels (Num q) = None
      <-> q <= 0 \/ 100 < q).
Proof.
  unfold FraudDetector.pd_cut, FraudDetector.searchsorted_left, risk_bins, risk_labels.
  cbn [List.filter].
  destruct (Qltb 0 q) eqn:E0; [apply Qltb_lt in E0 | apply Qltb_ge in E0];
  (destruct (Qltb 25 q) eqn:E1; [apply Qltb_lt in E1 | apply Qltb_ge in E1]);
  (destruct (Qltb 50 q) eqn:E2; [apply Qltb_lt in E2 | apply Qltb_ge in E2]);
  (destruct (Qltb 75 q) eqn:E3; [apply Qltb_lt in E3 | apply Qltb_ge in E3]);
  (destruct (Qltb 100 q) eqn:E4; [apply Qltb_lt in E4 | apply Qltb_ge in E4]);
  try (exfalso; lra);
  cbn;
  repeat split; intros; try discriminate; try reflexivity; try lra;
  try (exfalso; lra); try (left; lra); try (right; lra);
  match goal with
  | Hor : _ \/ _ |- _ => destruct Hor; exfalso; lra
  | _ => idtac
  end.
Qed.

Lemma In_zip_with {A B C : Type} (g : A -> B -> C) (l1 : list A) (l2 : list B) (c : C) :
  In c (zip_with g l1 l2) -> exists a b, In a l1 /\ In b l2 /\ c = g a b.
Proof.
  revert l2. induction l1 as [| a l1 IH]; intros [| b l2] Hc; cbn in Hc; try contradiction.
  destruct Hc as [<- | Hc].
  - exists a, b. cbn. auto.
  - destruct (IH l2 Hc) as (a' & b' & Ha & Hb & ->).
    exists a', b'. cbn. auto.
Qed.

Lemma minQ_fold_le (l : list Q) (a : Q) :
  fold_left (fun m y => if Qltb y m then y else m) l a <= a
  /\ forall d, In d l -> fold_left (fun m y => if Qltb y m then y else m) l a <= d.
Proof.
  revert a. induction l as [| x l IH]; intros a; cbn [fold_left].
  - split; [apply Qle_refl | intros d []].
  - destruct (Qltb x a) eqn:E; [apply Qltb_lt in E | apply Qltb_ge in E].
    + destruct (IH x) as [Hx Hl]. split; [lra |].
      intros d [<- | Hd]; [exact Hx | apply Hl, Hd].
    + destruct (IH a) as [Ha Hl]. split; [exact Ha |].
      intros d [<- | Hd]; [lra | apply Hl, Hd].
Qed.

Lemma maxQ_fold_ge (l : list Q) (a : Q) :
  a <= fold_left (fun m y => if Qltb m y then y else m) l a
  /\ forall d, In d l -> d <= fold_left (fun m y => if Qltb m y then y else m) l a.
Proof.
  revert a. induction l as [| x l IH]; intros a; cbn [fold_left].
  - split; [apply Qle_refl | intros d []].
  - destruct (Qltb a x) eqn:E; [apply Qltb_lt in E | apply Qltb_ge in E].
    + destruct (IH x) as [Hx Hl]. split; [lra |].
      intros d [<- | Hd]; [exact Hx | apply Hl, Hd].
    + destruct (IH a) as [Ha Hl]. split; [exact Ha |].
      intros d [<- | Hd]; [lra | apply Hl, Hd].
Qed.

Lemma minQ_le (l : list Q) (d : Q) : In d l -> minQ l <= d.
Proof.
  destruct l as [| x l]; [intros [] |]. cbn [minQ].
  destruct (minQ_fold_le l x) as [Hx Hl].
  intros [<- | Hd]; [exact Hx | apply Hl, Hd].
Qed.

Lemma maxQ_ge (l : list Q) (d : Q) : In d l -> d <= maxQ l.
Proof.
  destruct l as [| x l]; [intros [] |]. cbn [maxQ].
  destruct (maxQ_fold_ge l x) as [Hx Hl].
  intros [<- | Hd]; [exact Hx | apply Hl, Hd].
Qed.

Lemma filter_disjoint_length {A : Type} (p q : A -> bool) (l : list A) :
  (forall x, p x = true -> q x = true -> False) ->
  (length (List.filter p l) + length (List.filter q l) <= length l)%nat.
Proof.
  intros Hpq. induction l as [| x l IH]; [cbn; lia |].
  cbn [List.filter]. specialize (Hpq x).
  destruct (p x), (q x); cbn [length]; try lia;
    exfalso; apply Hpq; reflexivity.
Qed.

Lemma filter_In_length {A : Type} (p : A -> bool) (l : list A) (x : A) :
  In x l -> p x = true -> (1 <= length (List.filter p l))%nat.
Proof.
  intros Hx Hp. assert (Hin : In x (List.filter p l)) by (apply filter_In; auto).
  destruct (List.filter p l); [contradiction | cbn; lia].
Qed.

Section FraudScores.
Context `{Numpy} `{Sklearn}.
Import FraudDetector.

(** The percentile rank of a value of the column lies in [0, 1]. *)
Lemma rank_pct_range (values : list Q) (v : Q) :
  In v values -> 0 <= rank_pct values v <= 1.
Proof.
  intros Hv. unfold rank_pct, count_where, lenQ.
  set (L := length (List.filter (fun w => Qltb w v) values)).
  set (E := length (List.filter (fun w => Qeq_bool w v) values)).
  assert (HLE : (L + E <= length values)%nat).
  { apply filter_disjoint_length. intros x Hlt Heq.
    apply Qltb_lt in Hlt. apply Qeq_bool_eq in Heq. lra. }
  assert (HE : (1 <= E)%nat).
  { apply (filter_In_length _ values v Hv). apply Qeq_bool_refl. }
  assert (Hn : 0 < inject_Z (Z.of_nat (length values))).
  { change 0 with (inject_Z 0). rewrite <- Zlt_Qlt. lia. }
  assert (HL0 : 0 <= inject_Z (Z.of_nat L)).
  { change 0 with (inject_Z 0). rewrite <- Zle_Qle. lia. }
  assert (HE1 : 1 <= inject_Z (Z.of_nat E)).
  { change 1 with (inject_Z 1). rewrite <- Zle_Qle. lia. }
  assert (HLEq : inject_Z (Z.of_nat L) + inject_Z (Z.of_nat E)
                 <= inject_Z (Z.of_nat (length values))).
  { rewrite <- inject_Z_plus, <- Zle_Qle. lia. }
  assert (Hhalf : 0 <= (inject_Z (Z.of_nat E) + 1) / 2 <= inject_Z (Z.of_nat E)).
  { split; [apply Qle_shift_div_l | apply Qle_shift_div_r]; lra. }
  split.
  - apply Qle_shift_div_l; [exact Hn | lra].
  - apply Qle_shift_div_r; [exact Hn | lra].
Qed.

Lemma astype_int_range (b : bool) : (0 <= astype_int b <= 1)%Z.
Proof. destruct b; cbn; lia. Qed.

Lemma engineer_features_engineered (self : t) (df : list Transaction) (f : Featured) :
  In f (snd (engineer_features self df)) -> engineered f.
Proof.
  unfold engineer_features. cbn [snd]. intros Hf.
  apply in_map_iff in Hf as [r [<- Hr]]. unfold engineered. cbn.
  repeat split; try apply astype_int_range;
    apply rank_pct_range, in_map, Hr.
Qed.

(** With at least two transactions, the z-score of a transaction that has
    a category is a number: a category of one falls back on the global
    deviation, and the denominator is at least 1. *)
Lemma engineer_features_zscore (self : t) (df : list Transaction) (f : Featured) :
  In f (snd (engineer_features self df)) ->
  (2 <= length df)%nat ->
  tx_category (tx f) <> None ->
  exists z, amount_zscore f = Num z.
Proof.
  unfold engineer_features. cbn [snd]. intros Hf Hlen Hcat.
  apply in_map_iff in Hf as [r [<- Hr]]. cbn [tx amount_zscore] in *.
  destruct (tx_category r) as [c |] eqn:Ec; [| congruence].
  set (group := map tx_amount (List.filter _ df)).
  assert (Hstd : exists sd, (if isna (sample_std group)
                             then sample_std (map tx_amount df)
                             else sample_std group) = Num sd /\ 0 <= sd).
  { unfold sample_std. rewrite (length_map tx_amount df).
    destruct (Nat.ltb_spec (length group) 2); cbn [isna].
    - destruct (Nat.ltb_spec (length df) 2); [lia |].
      eexists. split; [reflexivity | apply np_sqrt_nonneg].
    - eexists. split; [reflexivity | apply np_sqrt_nonneg]. }
  destruct Hstd as (sd & -> & Hsd).
  cbn [csub cmul cadd cdiv].
  destruct (Qeq_bool (sd + 1) 0) eqn:E; [apply Qeq_bool_eq in E; lra |].
  eexists. reflexivity.
Qed.

(** *** The six sub-scores *)

Lemma velocity_score_le (c : Z) :
  exists v, np_minimum (zcell (c * 3)) (Num 15) = Num v /\ v <= 15.
Proof.
  unfold np_minimum, zcell, clt. cbn [cgt].
  destruct (Qltb 15 (inject_Z (c * 3))) eqn:E;
    [apply Qltb_lt in E | apply Qltb_ge in E]; eexists; split;
      try reflexivity; lra.
Qed.

Lemma deviation_score_le (z : cell) :
  (z = NaN /\ np_minimum (cmul (cabs z) (Num 5)) (Num 25) = NaN)
  \/ exists d, np_minimum (cmul (cabs z) (Num 5)) (Num 25) = Num d /\ d <= 25.
Proof.
  destruct z as [q | neg |]; [right | right | left; split; reflexivity].
  - unfold np_minimum, clt. cbn [cabs cmul cgt].
    destruct (Qltb 25 (Qabs q * 5)) eqn:E;
      [apply Qltb_lt in E | apply Qltb_ge in E]; eexists; split;
        try reflexivity; lra.
  - exists 25. split; [reflexivity | lra].
Qed.

Lemma time_score_le (f : Featured) :
  engineered f -> inject_Z (is_night f * 15 + is_weekend f * 5) <= 20.
Proof.
  intros (_ & Hn & Hw & _). change 20 with (inject_Z 20).
  rewrite <- Zle_Qle. lia.
Qed.

Lemma merchant_score_le (f : Featured) :
  engineered f -> inject_Z (rare_merchant f * 10) <= 10.
Proof.
  intros (_ & _ & _ & Hr). change 10 with (inject_Z 10).
  rewrite <- Zle_Qle. lia.
Qed.


(** On a row that [engineer_features] built, with an anomaly score of
    at most 100, the fused score is NaN or at most 53.75, the sum of the
    weighted caps, already before clipping; the label is never
    [Critical]. *)
Lemma score_row_bound (f : Featured) (ml : Q) :
  engineered f -> ml <= 100 ->
  let s := score_row f ml in
  ((fraud_score s = NaN /\ amount_zscore f = NaN)
   \/ exists w q,
       weighted_score (ml_anomaly_score s) (amount_score s) (time_score s)
                      (velocity_score s) (deviation_score s) (merchant_score s)
       = Num w
       /\ w <= 53.75
       /\ fraud_score s = Num q
       /\ 0 <= q <= 53.75)
  /\ risk_level s <> Some "Critical"%string.
Proof.
  intros Heng Hml s.
  pose proof (time_score_le f Heng) as Ht.
  pose proof (merchant_score_le f Heng) as Hm.
  destruct Heng as (Hp & _).
  subst s. cbn [score_row fraud_score risk_level ml_anomaly_score amount_score
                time_score velocity_score deviation_score merchant_score].
  unfold weighted_score.
  destruct (velocity_score_le (daily_txn_count f)) as (v & -> & Hv).
  destruct (deviation_score_le (amount_zscore f)) as [[Hnan ->] | (d & -> & Hd)].
  { cbn [cmul cadd zcell np_clip pd_cut]. split.
    - left. split; [reflexivity | exact Hnan].
    - discriminate. }
  cbn [cmul cadd zcell].
  set (w := ml * 0.40 + amount_percentile f * 30 * 0.20
            + inject_Z (is_night f * 15 + is_weekend f * 5) * 0.10 + v * 0.10
            + d * 0.15 + inject_Z (rare_merchant f * 10) * 0.05).
  assert (Hw : w <= 53.75) by (unfold w; lra).
  destruct (np_clip_range w) as (q & -> & [Hq0 Hq100] & Hqw).
  assert (Hq : q <= 53.75).
  { assert (Hmax : Qmax 0 w <= 53.75) by (apply Q.max_lub; lra).
    assert (q <= Qmax 0 w) by (apply Hqw; lra). lra. }
  split.
  - right. exists w, q. repeat split; try assumption; reflexivity.
  - intros Hcrit.
    apply (proj1 (proj2 (proj2 (proj2 (pd_cut_risk q))))) in Hcrit. lra.
Qed.

(** *** The scorer *)

Lemma ml_anomaly_scores_le (self : t) (n : nat) (X_scaled : list (list Q))
      (ml : list Q) (m : Q) :
  ml_anomaly_scores self n X_scaled = inr ml -> In m ml -> m <= 100.
Proof.
  unfold ml_anomaly_scores.
  destruct (isolation_forest self) as [forest |].
  - set (ds := map (decision_function forest) X_scaled).
    destruct (length ds =? n)%nat; [| discriminate].
    intros [= <-] Hm. apply in_map_iff in Hm as (d & <- & Hd).
    pose proof (minQ_le ds d Hd) as Hmin.
    pose proof (maxQ_ge ds d Hd) as Hmax.
    assert (Hden : 0 < maxQ ds - minQ ds + (1 # 10000000000)) by lra.
    assert (Hratio : 0 <= (d - minQ ds) / (maxQ ds - minQ ds + (1 # 10000000000))).
    { apply Qle_shift_div_l; [exact Hden | lra]. }
    lra.
  - intros [= <-] Hm. apply repeat_spec in Hm. subst m. lra.
Qed.

Lemma calculate_fraud_scores_rows (self : t) (df : list Featured) (X : list (list cell))
      (scored : list Scored) (s : Scored) :
  calculate_fraud_scores self df X = inr scored -> In s scored ->
  exists f ml, In f df /\ ml <= 100 /\ s = score_row f ml.
Proof.
  unfold calculate_fraud_scores.
  destruct (scaler_transform (scaler self) X) as [e | X_scaled]; [discriminate |].
  cbn [bind].
  destruct (ml_anomaly_scores self (length df) X_scaled) as [e | ml] eqn:Hml;
    [discriminate |].
  cbn [bind ret]. intros [= <-] Hs.
  apply In_zip_with in Hs as (f & m & Hf & Hm & ->).
  exists f, m. split; [exact Hf |]. split; [| reflexivity].
  apply (ml_anomaly_scores_le _ _ _ _ _ Hml Hm).
Qed.

Lemma detect_fraud_rows (self : t) (df : list Transaction) (tune : bool)
      (self' : t) (results : Results) (scored : list Scored) (s : Scored) :
  detect_fraud self df tune = inr (self', results, scored) -> In s scored ->
  exists f ml,
    In f (snd (engineer_features self df)) /\ ml <= 100 /\ s = score_row f ml.
Proof.
  unfold detect_fraud.
  destruct (engineer_features self df) as [self1 df_featured] eqn:Hfeat.
  destruct (prepare_features self1 df_featured) as [self2 X].
  destruct (train_isolation_forest self2 X tune) as [e | [self3 training]];
    [discriminate |].
  cbn [bind].
  destruct (calculate_fraud_scores self3 df_featured X) as [e | df_scored] eqn:Hcalc;
    [discriminate |].
  cbn [bind ret]. intros [= <- <- <-] Hs.
  destruct (calculate_fraud_scores_rows _ _ _ _ _ Hcalc Hs) as (f & ml & Hf & Hml & ->).
  exists f, ml. split; [exact Hf | split; [exact Hml | reflexivity]].
Qed.

(** C10.  In the frame returned by [detect_fraud], every fused score
    that is a number is at most 53.75, the unclipped weighted sum of the
    six sub-scores already being at most 53.75 (so the clip at 100 does
    nothing), and no transaction is labelled [Critical]; on a ledger of
    at least two transactions, the score of a transaction that has a
    category is such a number. *)
Theorem fraud_score_at_most_53_75
        (self : t) (df : list Transaction) (tune : bool)
        (self' : t) (results : Results) (scored : list Scored) (s : Scored) :
  detect_fraud self df tune = inr (self', results, scored) ->
  In s scored ->
  (forall q, fraud_score s = Num q -> q <= 53.75)
  /\ (forall w,
        weighted_score (ml_anomaly_score s) (amount_score s) (time_score s)
                       (velocity_score s) (deviation_score s) (merchant_score s)
        = Num w ->
        w <= 53.75)
  /\ fraud_score s <> Inf false
  /\ risk_level s <> Some "Critical"%string
  /\ ((2 <= length df)%nat ->
      tx_category (tx (featured s)) <> None ->
      exists q, fraud_score s = Num q /\ 0 <= q <= 53.75).
Proof.
  intros Hrun Hs.
  destruct (detect_fraud_rows _ _ _ _ _ _ _ Hrun Hs) as (f & ml & Hf & Hml & ->).
  pose proof (engineer_features_engineered self df f Hf) as Heng.
  destruct (score_row_bound f ml Heng Hml)
    as [[[Hnan Hz] | (w & q & Hw & Hwle & Hq & Hqle)] Hcrit].
  - repeat split; try exact Hcrit.
    + intros q Hq. rewrite Hnan in Hq. discriminate.
    + intros w Hw. cbn [score_row fraud_score] in Hnan.
      cbn [score_row ml_anomaly_score amount_score time_score velocity_score
                     deviation_score merchant_score] in Hw.
      rewrite Hw in Hnan. destruct (np_clip_range w) as (r & Hr & _).
      rewrite Hr in Hnan. discriminate.
    + rewrite Hnan. discriminate.
    + intros Hlen Hcat. cbn [score_row featured] in Hcat.
      destruct (engineer_features_zscore self df f Hf Hlen Hcat) as [z Hnum].
      rewrite Hnum in Hz. discriminate.
  - repeat split; try exact Hcrit.
    + intros q' Hq'. rewrite Hq in Hq'. injection Hq' as <-. lra.
    + intros w' Hw'. rewrite Hw in Hw'. injection Hw' as <-. exact Hwle.
    + rewrite Hq. discriminate.
    + intros _ _. exists q. split; [exact Hq | exact Hqle].
Qed.

(** C5, as the code has it.  The label of a scored row follows the
    bins of [pd.cut], open on the left and closed on the right: Low
    iff the score is in (0, 25], Medium iff in (25, 50], High iff in
    (50, 75], Critical iff in (75, 100]; every score in (0, 100] gets
    one of the four labels. *)
Theorem risk_label_bins (f : Featured) (ml q : Q) :
  fraud_score (score_row f ml) = Num q ->
  let label := risk_level (score_row f ml) in
  (label = Some "Low"%string <-> 0 < q <= 25)
  /\ (label = Some "Medium"%string <-> 25 < q <= 50)
  /\ (label = Some "High"%string <-> 50 < q <= 75)
  /\ (label = Some "Critical"%string <-> 75 < q <= 100)
  /\ (0 < q <= 100 -> exists l, label = Some l /\ In l risk_labels).
Proof.
  intros Hq label. subst label. cbn [score_row risk_level].
  cbn [score_row fraud_score] in Hq. rewrite Hq.
  destruct (pd_cut_risk q) as (Hlow & Hmed & Hhigh & Hcrit & Hnone).
  split; [exact Hlow |]. split; [exact Hmed |]. split; [exact Hhigh |].
  split; [exact Hcrit |]. intros Hrange.
  destruct (pd_cut [0; 25; 50; 75; 100] ["Low"; "Medium"; "High"; "Critical"]%string
                   (Num q)) as [l |] eqn:E.
  - exists l. split; [reflexivity |].
    unfold pd_cut in E.
    destruct (_ || _); [discriminate |].
    apply nth_error_In in E. exact E.
  - exfalso. assert (Hn : q <= 0 \/ 100 < q) by (apply Hnone; exact E).
    destruct Hn; lra.
Qed.
End FraudScores.

(** A run of the statement of C5, on the edge between the second and
    the third bin: the sub-scores of [saturday_night_row] with an anomaly
    score of 100 add up to 40 + 6 + 2 + 1.5 + 0 + 0.5 = 50. *)
Lemma risk_label_bins_witness :
  exists q,
    FraudDetector.fraud_score (FraudDetector.score_row saturday_night_row 100) = Num q
    /\ q == 50
    /\ (FraudDetector.risk_level (FraudDetector.score_row saturday_night_row 100)
        = Some "Medium"%string <-> 25 < q <= 50).
Proof.
  eexists. split; [vm_compute; reflexivity |]. split; [reflexivity |].
  refine (proj1 (proj2 (risk_label_bins saturday_night_row 100 _ _))).
  vm_compute. reflexivity.
Defined.

(** C5 as the claim states it fails on the bin edges: a score of
    exactly 50 is labelled Medium, not High, although it lies in
    [50, 75) and not in [25, 50). *)
Lemma risk_label_counterexample :
  exists q,
    FraudDetector.fraud_score (FraudDetector.score_row saturday_night_row 100) = Num q
    /\ q == 50
    /\ FraudDetector.risk_level (FraudDetector.score_row saturday_night_row 100)
       = Some "Medium"%string
    /\ ~ (FraudDetector.risk_level (FraudDetector.score_row saturday_night_row 100)
          = Some "High"%string <-> 50 <= q < 75).
Proof.
  eexists. split; [vm_compute; reflexivity |]. split; [reflexivity |].
  split; [vm_compute; reflexivity |].
  intros [_ Hhigh]. vm_compute in Hhigh.
  assert (Habs : Some "Medium"%string = Some "High"%string).
  { apply Hhigh. split; [discriminate | reflexivity]. }
  discriminate Habs.
Qed.

Lemma three_purchases_scored :
  exists self' results scored,
    FraudDetector.detect_fraud FraudDetector.init three_purchases false
    = inr (self', results, scored)
    /\ length scored = 3%nat.
Proof.
  do 3 eexists. split; [vm_compute; reflexivity | reflexivity].
Qed.

(** A run of the statement of C10 on a ledger of three purchases. *)
Lemma fraud_score_at_most_53_75_witness :
  exists self' results scored,
    FraudDetector.detect_fraud FraudDetector.init three_purchases false
    = inr (self', results, scored)
    /\ length scored = 3%nat
    /\ forall s,
        In s scored ->
        (forall q, FraudDetector.fraud_score s = Num q -> q <= 53.75)
        /\ FraudDetector.risk_level s <> Some "Critical"%string.
Proof.
  destruct three_purchases_scored as (self' & results & scored & Hrun & Hlen).
  exists self', results, scored. split; [exact Hrun |]. split; [exact Hlen |].
  intros s Hs.
  destruct (fraud_score_at_most_53_75 _ _ _ _ _ _ s Hrun Hs) as (Hq & _ & _ & Hc & _).
  split; assumption.
Defined.

(** ** Ranges of the two outputs *)

Section Ranges.
Context `{Numpy} `{Sklearn}.

(** The scorer returns exactly when the scaler accepts the matrix and,
    with a forest, the matrix has as many rows as the frame. *)
Lemma calculate_fraud_scores_returns
      (self : FraudDetector.t) (df : list FraudDetector.Featured) (X : list (list cell)) :
  (exists scored, FraudDetector.calculate_fraud_scores self df X = inr scored)
  <-> exists X_scaled,
      scaler_transform (FraudDetector.scaler self) X = inr X_scaled
      /\ (FraudDetector.isolation_forest self <> None -> length X_scaled = length df).
Proof.
  unfold FraudDetector.calculate_fraud_scores, FraudDetector.ml_anomaly_scores.
  destruct (scaler_transform (FraudDetector.scaler self) X) as [e | X_scaled];
    cbn [bind].
  { split; [intros [? Hs]; discriminate | intros (? & Hs & _); discriminate]. }
  destruct (FraudDetector.isolation_forest self) as [forest |].
  - rewrite length_map.
    destruct (Nat.eqb_spec (length X_scaled) (length df)) as [Hlen | Hlen];
      cbn [bind ret raise].
    + split; [intros _ | intros _; eexists; reflexivity].
      exists X_scaled. split; [reflexivity | intros _; exact Hlen].
    + split; [intros [? Hs]; discriminate |].
      intros (Xs & [= <-] & Hl). exfalso. apply Hlen, Hl. discriminate.
  - cbn [bind ret]. split; [intros _ | intros _; eexists; reflexivity].
    exists X_scaled. split; [reflexivity | intros Hne; congruence].
Qed.


End Ranges.




(** ** Persistence *)

Section Persistence.
Context `{Numpy} `{Sklearn}.

Lemma expense_load_after_save
      (self fresh : ExpensePredictor.t) (path : string)
      (fs : gmap string ExpensePredictor.Bundle) :
  ExpensePredictor.load_models fresh path (ExpensePredictor.save_models self path fs)
  = inr {| ExpensePredictor.models := ExpensePredictor.models self;
           ExpensePredictor.scaler := ExpensePredictor.scaler self;
           ExpensePredictor.feature_columns := ExpensePredictor.feature_columns self;
           ExpensePredictor.is_trained := true;
           ExpensePredictor.ensemble_weights := ExpensePredictor.ensemble_weights self |}.
Proof.
  unfold ExpensePredictor.load_models, ExpensePredictor.save_models.
  rewrite lookup_insert_eq. reflexivity.
Qed.

Lemma fraud_load_after_save
      (self fresh : FraudDetector.t) (path : string)
      (fs : gmap string FraudDetector.Bundle) :
  FraudDetector.load_models fresh path (FraudDetector.save_models self path fs)
  = inr {| FraudDetector.isolation_forest := FraudDetector.isolation_forest self;
           FraudDetector.scaler := FraudDetector.scaler self;
           FraudDetector.label_encoders := FraudDetector.label_encoders self;
           FraudDetector.feature_columns := FraudDetector.feature_columns self;
           FraudDetector.is_trained := true;
           FraudDetector.contamination := FraudDetector.contamination self |}.
Proof.
  unfold FraudDetector.load_models, FraudDetector.save_models.
  rewrite lookup_insert_eq. reflexivity.
Qed.

(** C9.  With [joblib] storing and returning the pickled dictionary
    unchanged, loading what a trained predictor saved, into any other
    instance, gives a predictor whose [predict_next_month] agrees with the
    original on every monthly frame; and loading what a detector saved
    gives a detector whose [calculate_fraud_scores] agrees with the
    original on every frame and matrix. *)
Theorem save_load_roundtrip :
  (forall (self fresh : ExpensePredictor.t) (path : string)
          (fs : gmap string ExpensePredictor.Bundle) (monthly_df : DataFrame),
      ExpensePredictor.is_trained self = true ->
      exists loaded,
        ExpensePredictor.load_models fresh path
          (ExpensePredictor.save_models self path fs) = inr loaded
        /\ ExpensePredictor.predict_next_month loaded monthly_df
           = ExpensePredictor.predict_next_month self monthly_df)
  /\ (forall (self fresh : FraudDetector.t) (path : string)
             (fs : gmap string FraudDetector.Bundle)
             (df : list FraudDetector.Featured) (X : list (list cell)),
         exists loaded,
           FraudDetector.load_models fresh path
             (FraudDetector.save_models self path fs) = inr loaded
           /\ FraudDetector.calculate_fraud_scores loaded df X
              = FraudDetector.calculate_fraud_scores self df X).
Proof.
  split.
  - intros self fresh path fs monthly_df Htrained.
    eexists. split; [apply expense_load_after_save |].
    destruct self as [ms sc fc tr ws]. cbn in Htrained. subst tr. reflexivity.
  - intros self fresh path fs df X.
    eexists. split; [apply fraud_load_after_save |]. reflexivity.
Qed.
End Persistence.

(** A run of the statement of C9: the two constant models saved and
    loaded into a fresh predictor, the detector without a forest saved
    and loaded into a fresh detector. *)
Lemma save_load_roundtrip_witness :
  (exists loaded,
      ExpensePredictor.load_models (ExpensePredictor.init false) "opam_expense_models.joblib"
        (ExpensePredictor.save_models two_model_predictor "opam_expense_models.joblib" ∅)
      = inr loaded
      /\ ExpensePredictor.predict_next_month loaded (totals_frame [100])
         = ExpensePredictor.predict_next_month two_model_predictor (totals_frame [100]))
  /\ (exists loaded,
         FraudDetector.load_models FraudDetector.init "opam_fraud_models.joblib"
           (FraudDetector.save_models unfitted_forest_detector "opam_fraud_models.joblib" ∅)
         = inr loaded
         /\ FraudDetector.calculate_fraud_scores loaded [median_row] [[Num 0]]
            = FraudDetector.calculate_fraud_scores unfitted_forest_detector
                [median_row] [[Num 0]]).
Proof.
  destruct (@save_load_roundtrip reference_numpy reference_sklearn) as [Hexp Hfraud].
  split.
  - apply (Hexp two_model_predictor (ExpensePredictor.init false)
                "opam_expense_models.joblib"%string ∅ (totals_frame [100])).
    reflexivity.
  - apply (Hfraud unfitted_forest_detector FraudDetector.init
                  "opam_fraud_models.joblib"%string ∅ [median_row] [[Num 0]]).
Defined.

(** ** The runners *)

Section Runners.
Context `{Numpy} `{Sklearn}.

(** A runner never lets an exception through: its answer is one of the
    two dictionaries. *)
Lemma status_cases {A : Type} (o : RunML.Output A) :
  RunML.status o = "success"%string \/ RunML.status o = "error"%string.
Proof. destruct o; [left | right]; reflexivity. Qed.

(** What the store raises, and an empty answer, come back as errors. *)
Lemma runner_load_failure
      (has_xgboost : bool) (db_path : string) (tune : bool)
      (fs : gmap string ExpensePredictor.Bundle)
      (ffs : gmap string FraudDetector.Bundle) :
  (forall e,
      fst (RunML.run_expense_prediction has_xgboost db_path (inl e) tune fs)
      = RunML.Error e
      /\ fst (RunML.run_fraud_detection db_path (inl e) tune ffs) = RunML.Error e)
  /\ fst (RunML.run_expense_prediction has_xgboost db_path (inr []) tune fs)
     = RunML.Error "No transaction data found"
  /\ fst (RunML.run_fraud_detection db_path (inr []) tune ffs)
     = RunML.Error "No transaction data found".
Proof. repeat split. Qed.

(** C6, as the code has it.  On a ledger of fewer than 10 transactions
    both runners answer with an error dictionary.  From 10 transactions
    on, the forecast runner answers [Need at least 3 months of data] when
    feature engineering leaves fewer than 3 monthly rows, and otherwise
    answers with the outcome of training and prediction, an exception
    becoming an error dictionary with its text; the fraud runner answers
    with the outcome of [detect_fraud] in the same way. *)
Theorem runner_insufficient_data
        (has_xgboost : bool) (db_path : string) (df : list Transaction) (tune : bool)
        (fs : gmap string ExpensePredictor.Bundle)
        (ffs : gmap string FraudDetector.Bundle) :
  let out := fst (RunML.run_expense_prediction has_xgboost db_path (inr df) tune fs) in
  let fout := fst (RunML.run_fraud_detection db_path (inr df) tune ffs) in
  ((length df < 10)%nat ->
   RunML.status out = "error"%string /\ RunML.status fout = "error"%string)
  /\ ((10 <= length df)%nat ->
      (nrows (ExpensePredictor.engineer_features df) < 3)%nat ->
      out = RunML.Error "Need at least 3 months of data")
  /\ ((10 <= length df)%nat ->
      (3 <= nrows (ExpensePredictor.engineer_features df))%nat ->
      out = match forecast_steps has_xgboost df tune with
            | inl e => RunML.Error e
            | inr (_, predictions) =>
                RunML.Success predictions
                              (RunML.replace_db "_expense_models.joblib" db_path)
            end)
  /\ ((10 <= length df)%nat ->
      fout = match FraudDetector.detect_fraud FraudDetector.init df tune with
             | inl e => RunML.Error e
             | inr (_, results, df_scored) =>
                 RunML.Success (results, df_scored)
                               (RunML.replace_db "_fraud_models.joblib" db_path)
             end).
Proof.
  intros out fout. subst out fout.
  unfold RunML.run_expense_prediction, RunML.run_fraud_detection,
    RunML.try_except, load_data_from_db, forecast_steps.
  cbn [bind].
  destruct df as [| r df]; [cbn; repeat split; intros; lia |].
  cbn [length Nat.eqb bind ret].
  set (ledger := r :: df).
  change (S (length df)) with (length ledger).
  destruct (Nat.ltb_spec (length ledger) 10) as [Hlt | Hge]; cbn [bind ret fst].
  { repeat split; intros; lia. }
  split; [intros; lia |].
  destruct (Nat.ltb_spec (nrows (ExpensePredictor.engineer_features ledger)) 3)
    as [Hfew | Henough]; cbn [bind ret fst].
  - split; [reflexivity |]. split; [intros; lia |]. intros _.
    destruct (FraudDetector.detect_fraud FraudDetector.init ledger tune)
      as [e | [[detector results] df_scored]]; reflexivity.
  - split; [intros; lia |]. split.
    + intros _ _.
      destruct (ExpensePredictor.prepare_data _ _) as [e | [[predictor X] y]];
        [reflexivity |]. cbn [bind].
      destruct (ExpensePredictor.train_with_hyperparameter_tuning _ _ _ _ _)
        as [e | predictor']; [reflexivity |]. cbn [bind].
      destruct (ExpensePredictor.predict_next_month _ _) as [e | predictions];
        reflexivity.
    + intros _.
      destruct (FraudDetector.detect_fraud FraudDetector.init ledger tune)
        as [e | [[detector results] df_scored]]; reflexivity.
Qed.
End Runners.

Lemma nine_months_forecast :
  nrows (ExpensePredictor.engineer_features nine_paired_months) = 3%nat
  /\ exists predictor predictions,
      forecast_steps false nine_paired_months false = inr (predictor, predictions).
Proof.
  split; [vm_compute; reflexivity |].
  do 2 eexists. vm_compute. reflexivity.
Qed.

(** A run of the statement of C6: nine months of two purchases each are
    18 transactions and leave 3 monthly rows, and the forecast runner,
    without tuning, answers with a success. *)
Lemma runner_insufficient_data_witness :
  exists predictions,
    fst (RunML.run_expense_prediction false "opam.db" (inr nine_paired_months) false ∅)
    = RunML.Success predictions "opam_expense_models.joblib".
Proof.
  destruct nine_months_forecast as (Hrows & predictor & predictions & Hsteps).
  exists predictions.
  destruct (runner_insufficient_data false "opam.db" nine_paired_months false ∅ ∅)
    as (_ & _ & Hrun & _).
  rewrite Hrun.
  - rewrite Hsteps. reflexivity.
  - cbn. lia.
  - rewrite Hrows. lia.
Defined.

(** C6 as the claim states it fails between 3 and 5 months: the same
    ledger has fewer than 6 monthly rows after feature engineering, and
    the forecast runner returns a success, not an error. *)
Lemma runner_insufficient_data_counterexample :
  (nrows (ExpensePredictor.engineer_features nine_paired_months) < 6)%nat
  /\ RunML.status
       (fst (RunML.run_expense_prediction
               false "opam.db" (inr nine_paired_months) false ∅))
     = "success"%string.
Proof.
  split; [rewrite (proj1 nine_months_forecast); lia | vm_compute; reflexivity].
Qed.

(** ** The monthly aggregation as a partition of the ledger *)

Lemma sumQ_app (l1 l2 : list Q) : sumQ (l1 ++ l2) == sumQ l1 + sumQ l2.
Proof.
  induction l1 as [| x l1 IH].
  - change (sumQ l2 == 0 + sumQ l2). lra.
  - change (x + sumQ (l1 ++ l2) == x + sumQ l1 + sumQ l2). rewrite IH. lra.
Qed.

Section Aggregation.
Import ExpensePredictor.


Lemma insert_group_keyed (r : Transaction) (gs : list (Z * list Transaction)) :
  Forall (fun g => Forall (fun r' => period_of r' = fst g) (snd g)) gs ->
  Forall (fun g => Forall (fun r' => period_of r' = fst g) (snd g))
         (insert_group (period_of r) r gs).
Proof.
  induction 1 as [| [k0 rs] gs Hg Hgs IH]; cbn.
  - repeat constructor.
  - destruct (Z.ltb_spec (period_of r) k0).
    + constructor; [repeat constructor |]. constructor; assumption.
    + destruct (Z.eqb_spec (period_of r) k0) as [Heq | Hne].
      * constructor; [| exact Hgs]. cbn [fst snd] in *.
        apply List.Forall_app. split; [exact Hg |]. repeat constructor. exact Heq.
      * constructor; assumption.
Qed.

Lemma insert_group_total (k : Z) (r : Transaction) (gs : list (Z * list Transaction)) :
  sumQ (map group_total (insert_group k r gs))
  == tx_amount r + sumQ (map group_total gs).
Proof.
  induction gs as [| [k0 rs] gs IH]; cbn [insert_group].
  - unfold group_total. cbn. lra.
  - destruct (k <? k0)%Z.
    + unfold group_total at 1. cbn [map snd sumQ fold_right].
      change (tx_amount r + 0 + sumQ (map group_total ((k0, rs) :: gs))
              == tx_amount r + sumQ (map group_total ((k0, rs) :: gs))). lra.
    + destruct (k =? k0)%Z.
      * cbn [map]. unfold group_total at 1 3. cbn [snd].
        change (sumQ (map tx_amount (rs ++ [r])) + sumQ (map group_total gs)
                == tx_amount r + (sumQ (map tx_amount rs) + sumQ (map group_total gs))).
        rewrite map_app, sumQ_app. cbn [map sumQ fold_right]. lra.
      * cbn [map].
        change (group_total (k0, rs) + sumQ (map group_total (insert_group k r gs))
                == tx_amount r + (group_total (k0, rs) + sumQ (map group_total gs))).
        rewrite IH. lra.
Qed.

Lemma insert_group_size (k : Z) (r : Transaction) (gs : list (Z * list Transaction)) :
  Permutation (concat (map snd (insert_group k r gs))) (r :: concat (map snd gs)).
Proof.
  induction gs as [| [k0 rs] gs IH]; cbn [insert_group].
  - reflexivity.
  - destruct (k <? k0)%Z; [reflexivity |].
    destruct (k =? k0)%Z; cbn [map snd concat].
    + rewrite <- app_assoc. cbn [app].
      symmetry. apply Permutation_middle.
    + rewrite IH. symmetry. apply Permutation_middle.
Qed.

Lemma groupby_fold_partition (df : list Transaction) :
  forall gs,
    Forall (fun g => Forall (fun r' => period_of r' = fst g) (snd g)) gs ->
    Forall (fun g => Forall (fun r' => period_of r' = fst g) (snd g))
           (fold_left (fun gs r => insert_group (period_of r) r gs) df gs)
    /\ Permutation
         (concat (map snd (fold_left (fun gs r => insert_group (period_of r) r gs) df gs)))
         (df ++ concat (map snd gs))
    /\ sumQ (map group_total
                 (fold_left (fun gs r => insert_group (period_of r) r gs) df gs))
       == sumQ (map tx_amount df) + sumQ (map group_total gs).
Proof.
  induction df as [| r df IH]; intros gs Hk; cbn [fold_left].
  - split; [exact Hk |]. split; [reflexivity |].
    change (sumQ (map group_total gs) == 0 + sumQ (map group_total gs)). lra.
  - destruct (IH (insert_group (period_of r) r gs)) as (Hk' & Hp & Hs).
    { apply insert_group_keyed, Hk. }
    split; [exact Hk' |]. split.
    + rewrite Hp, insert_group_size. cbn [app].
      symmetry. apply Permutation_middle.
    + rewrite Hs, insert_group_total.
      change (sumQ (map tx_amount (r :: df))) with (tx_amount r + sumQ (map tx_amount df)).
      lra.
Qed.

(** X1. The monthly groups partition the ledger: their keys are the months
    of the ledger in strictly ascending order, no group is empty, every
    transaction sits in the group of its own month and in no other, and
    the monthly totals add up to the total of the ledger. *)
Theorem groupby_year_month_partition (df : list Transaction) :
  let groups := groupby_year_month df in
  StronglySorted Z.lt (map fst groups)
  /\ length groups = n_months df
  /\ Forall (fun g => snd g <> [] /\ Forall (fun r => period_of r = fst g) (snd g)) groups
  /\ Permutation (concat (map snd groups)) df
  /\ sumQ (map group_total groups) == sumQ (map tx_amount df).
Proof.
  intros groups. subst groups.
  assert (Htrue : Forall (fun _ : Transaction => True) df)
    by (rewrite List.Forall_forall; trivial).
  destruct (groupby_invariant (fun _ => True) df Htrue []
                              (SSorted_nil _) (List.Forall_nil _))
    as (Hsorted & Hne & _).
  destruct (groupby_fold_partition df []) as (Hkey & Hperm & Hsum); [constructor |].
  split; [exact Hsorted |]. split; [apply length_groupby |]. split; [| split].
  - unfold groupby_year_month.
    rewrite List.Forall_forall in Hne, Hkey. rewrite List.Forall_forall.
    intros g Hg. split; [apply (Hne g Hg) | apply (Hkey g Hg)].
  - unfold groupby_year_month. rewrite Hperm. cbn. rewrite app_nil_r. reflexivity.
  - unfold groupby_year_month. rewrite Hsum.
    change (sumQ (map group_total [])) with 0. lra.
Qed.
End Aggregation.

(** ** Finite features *)


Lemma In_firstn {A : Type} (n : nat) (l : list A) (x : A) :
  In x (firstn n l) -> In x l.
Proof.
  intros Hx. rewrite <- (firstn_skipn n l). apply in_or_app. left. exact Hx.
Qed.

Lemma never_inf_shift (j : nat) (s : Series) :
  Forall never_inf s -> Forall never_inf (shift j s).
Proof.
  intros Hs. unfold shift. apply Forall_take, List.Forall_app. split; [| exact Hs].
  rewrite List.Forall_forall. intros c Hc. apply repeat_spec in Hc. subst c. exact I.
Qed.

Lemma never_inf_rolling (window : nat) (agg : list Q -> cell) (s : list Q) :
  (forall w, never_inf (agg w)) -> Forall never_inf (rolling window agg s).
Proof.
  intros Hagg. unfold rolling. apply Forall_map.
  rewrite List.Forall_forall. intros i _.
  destruct (S i <? window)%nat; [exact I | apply Hagg].
Qed.

Lemma never_inf_map {A : Type} (f : A -> cell) (l : list A) :
  (forall x, never_inf (f x)) -> Forall never_inf (map f l).
Proof.
  intros Hf. apply Forall_map. rewrite List.Forall_forall. intros x _. apply Hf.
Qed.

Lemma never_inf_pct_change (l : list Q) :
  Forall (fun q => ~ q == 0) l -> Forall never_inf (pct_change (map Num l)).
Proof.
  intros Hl. rewrite List.Forall_forall. intros c Hc.
  unfold pct_change in Hc. apply In_zip_with in Hc as (a & b & Ha & Hb & ->).
  apply in_map_iff in Ha as (x & <- & _).
  unfold shift in Hb. apply In_firstn in Hb.
  apply in_app_or in Hb as [Hb | Hb].
  - apply repeat_spec in Hb. subst b. exact I.
  - apply in_map_iff in Hb as (y & <- & Hy).
    rewrite List.Forall_forall in Hl. specialize (Hl y Hy).
    cbn [cdiv]. destruct (Qeq_bool y 0) eqn:E; [apply Qeq_bool_eq in E; contradiction |].
    exact I.
Qed.

Lemma never_inf_iloc (s : Series) (i : nat) : Forall never_inf s -> never_inf (iloc s i).
Proof.
  intros Hs. unfold iloc. destruct (nth_in_or_default i s NaN) as [Hin | ->]; [| exact I].
  rewrite List.Forall_forall in Hs. apply Hs, Hin.
Qed.

Section FiniteFeatures.
Context `{Numpy}.
Import ExpensePredictor.

Lemma never_inf_sample_std (w : list Q) : never_inf (sample_std w).
Proof. unfold sample_std. destruct (length w <? 2)%nat; exact I. Qed.

Lemma never_inf_astype_int (b : bool) : never_inf (astype_int b).
Proof. destruct b; exact I. Qed.

Lemma monthly_features_never_inf (df : list Transaction) :
  Forall (fun r => 0 < tx_amount r) df ->
  Forall (fun col => Forall never_inf (snd col)) (monthly_features df).
Proof.
  intros Hpos. pose proof (monthly_totals_nonzero df Hpos) as Hnz.
  unfold monthly_features. cbn [fold_left seq].
  repeat apply dict_set_Forall;
    [ repeat apply List.Forall_cons; [.. | apply List.Forall_nil]; cbn [snd] | ..];
    try (apply never_inf_shift);
    try (apply never_inf_rolling; intros w);
    try (apply never_inf_pct_change, Hnz);
    try (apply never_inf_map; intros x);
    first [exact I | apply never_inf_sample_std | apply never_inf_astype_int].
Qed.

(** The columns of the engineered frame all have its number of rows, and
    on positive amounts hold numbers only. *)
Lemma engineer_features_columns (df : list Transaction) :
  Forall (fun r => 0 < tx_amount r) df ->
  Forall (fun col => length (snd col) = nrows (engineer_features df)
                     /\ Forall (fun c => isfinite c = true) (snd col))
         (engineer_features df).
Proof.
  intros Hpos. rewrite List.Forall_forall. intros col Hcol. split.
  - pose proof (nrows_dropna (monthly_features df) (monthly_features_nonempty df)) as Hn.
    unfold engineer_features in *. rewrite Hn. unfold dropna, kept_rows in *.
    apply in_map_iff in Hcol as (col0 & <- & _). apply length_map.
  - rewrite List.Forall_forall. intros c Hc.
    pose proof (dropna_no_na _ _ _ Hcol Hc) as Hna.
    unfold engineer_features, dropna in Hcol.
    apply in_map_iff in Hcol as (col0 & <- & Hcol0). cbn [snd] in Hc.
    apply in_map_iff in Hc as (i & <- & _).
    pose proof (monthly_features_never_inf df Hpos) as Hinf.
    rewrite List.Forall_forall in Hinf. specialize (Hinf col0 Hcol0).
    pose proof (never_inf_iloc (snd col0) i Hinf) as Hni.
    destruct (iloc (snd col0) i) as [q | neg |];
      [reflexivity | contradiction | discriminate].
Qed.

(** X3. On a ledger of positive amounts every cell of the frame returned
    by [engineer_features] is a finite number: neither NaN nor an infinity
    reaches the scaler. *)
Theorem engineer_features_finite (df : list Transaction) :
  Forall (fun r => 0 < tx_amount r) df ->
  forall col c,
    In col (engineer_features df) -> In c (snd col) -> exists q, c = Num q.
Proof.
  intros Hpos col c Hcol Hc.
  pose proof (engineer_features_columns df Hpos) as Hcols.
  rewrite List.Forall_forall in Hcols. destruct (Hcols col Hcol) as [_ Hfin].
  rewrite List.Forall_forall in Hfin. specialize (Hfin c Hc).
  destruct c as [q | neg |]; [exists q; reflexivity | discriminate | discriminate].
Qed.
End FiniteFeatures.

(** The statement of X3 on seven months of two purchases each. *)
Lemma engineer_features_finite_witness :
  Forall (fun r => 0 < tx_amount r) seven_paired_months
  /\ forall col c,
      In col (ExpensePredictor.engineer_features seven_paired_months) ->
      In c (snd col) -> exists q, c = Num q.
Proof.
  assert (Hpos : Forall (fun r => 0 < tx_amount r) seven_paired_months)
    by repeat constructor.
  split; [exact Hpos | apply (engineer_features_finite seven_paired_months Hpos)].
Defined.

(** ** From the ledger to a forecast *)

Lemma check_row_finite (row : list cell) :
  Forall (fun c => isfinite c = true) row ->
  exists r, check_row row = inr r /\ length r = length row.
Proof.
  induction 1 as [| c row Hc Hrow IH]; [exists []; split; reflexivity |].
  destruct IH as (r & Hr & Hlen). unfold check_row in *. cbn [fold_right].
  rewrite Hr. cbn [bind]. destruct c as [q | neg |]; try discriminate.
  exists (q :: r). split; [reflexivity | cbn; rewrite Hlen; reflexivity].
Qed.

Lemma check_rows_finite (X : list (list cell)) (width : nat) :
  Forall (fun row => length row = width /\ Forall (fun c => isfinite c = true) row) X ->
  exists X',
    fold_right (fun row acc => let* tl := acc in let* r := check_row row in ret (r :: tl))
               (ret []) X = inr X'
    /\ length X' = length X
    /\ Forall (fun row => length row = width) X'.
Proof.
  induction 1 as [| row X [Hw Hrow] HX IH].
  - exists []. repeat split. constructor.
  - destruct IH as (X' & HX' & Hlen & Hwidth).
    destruct (check_row_finite row Hrow) as (r & Hr & Hrl).
    cbn [fold_right]. rewrite HX'. cbn [bind]. rewrite Hr. cbn [bind ret].
    exists (r :: X'). split; [reflexivity |]. split; [cbn; rewrite Hlen; reflexivity |].
    constructor; [lia | exact Hwidth].
Qed.

Lemma check_array_finite (X : list (list cell)) (width : nat) :
  X <> [] -> (0 < width)%nat ->
  Forall (fun row => length row = width /\ Forall (fun c => isfinite c = true) row) X ->
  exists X',
    check_array X = inr X'
    /\ length X' = length X
    /\ Forall (fun row => length row = width) X'.
Proof.
  intros Hne Hw HX. destruct (check_rows_finite X width HX) as (X' & HX' & Hlen & Hwidth).
  exists X'. split; [| split; assumption].
  unfold check_array. destruct X as [| row X]; [congruence |].
  destruct row as [| c row]; [| exact HX'].
  inversion HX as [| ? ? [Hrow _] _]; subst. cbn in Hw. lia.
Qed.

Lemma length_columns_of (X : list (list Q)) (width : nat) :
  X <> [] -> Forall (fun row => length row = width) X ->
  length (columns_of X) = width.
Proof.
  intros Hne HX. destruct X as [| r X]; [congruence |].
  unfold columns_of. rewrite length_map, length_seq.
  inversion HX; subst. reflexivity.
Qed.

Lemma forallb_width (X : list (list Q)) (width : nat) :
  Forall (fun row => length row = width) X ->
  forallb (fun row => (length row =? width)%nat) X = true.
Proof.
  intros HX. apply forallb_forall. rewrite List.Forall_forall in HX.
  intros row Hrow. apply Nat.eqb_eq, HX, Hrow.
Qed.

Lemma df_values_cells (df : DataFrame) (names : list string) (X : list (list cell)) :
  df_values df names = inr X ->
  length X = nrows df
  /\ forall row,
      In row X ->
      length row = length names
      /\ forall c, In c row ->
                   exists name s i,
                     In name names /\ dict_get df name = Some s
                     /\ (i < nrows df)%nat /\ c = iloc s i.
Proof.
  unfold df_values.
  set (cols := fix cols (names : list string) : result (list Series) :=
         match names with
         | [] => ret []
         | n :: tl => let* s := df_col df n in let* rest := cols tl in ret (s :: rest)
         end).
  assert (Hcols : forall names cs,
             cols names = inr cs ->
             length cs = length names
             /\ forall s, In s cs -> exists name, In name names /\ dict_get df name = Some s).
  { clear. induction names as [| n names IH]; intros cs Hcs; cbn in Hcs.
    - injection Hcs as <-. split; [reflexivity | intros s []].
    - unfold df_col in Hcs. destruct (dict_get df n) as [s0 |] eqn:Hn; [| discriminate].
      cbn [bind ret] in Hcs. destruct (cols names) as [e | rest]; [discriminate |].
      cbn [bind ret] in Hcs. injection Hcs as <-.
      destruct (IH rest eq_refl) as [Hlen Hin]. split; [cbn; rewrite Hlen; reflexivity |].
      intros s [<- | Hs].
      + exists n. split; [left; reflexivity | exact Hn].
      + destruct (Hin s Hs) as (name & Hname & Hget).
        exists name. split; [right; exact Hname | exact Hget]. }
  destruct (cols names) as [e | cs] eqn:Hcs; [discriminate |].
  cbn [bind ret]. intros [= <-].
  destruct (Hcols names cs Hcs) as [Hlen Hin].
  split; [rewrite length_map, length_seq; reflexivity |].
  intros row Hrow. apply in_map_iff in Hrow as (i & <- & Hi). apply in_seq in Hi.
  split; [rewrite length_map; exact Hlen |].
  intros c Hc. apply in_map_iff in Hc as (s & <- & Hs).
  destruct (Hin s Hs) as (name & Hname & Hget).
  exists name, s, i. repeat split; try assumption. lia.
Qed.

Lemma split_idx_pos {A : Type} (X : list A) :
  (2 <= length X)%nat -> (1 <= ExpensePredictor.split_idx X)%nat.
Proof.
  intros Hlen. unfold ExpensePredictor.split_idx.
  assert (Hq : 1 <= lenQ X * 0.8).
  { unfold lenQ. assert (2 <= inject_Z (Z.of_nat (length X))).
    { change 2 with (inject_Z 2). rewrite <- Zle_Qle. lia. }
    lra. }
  apply Qfloor_resp_le in Hq. change (Qfloor 1) with 1%Z in Hq. lia.
Qed.

Section ForecastPipeline.
Context `{Numpy} `{Sklearn}.
Import ExpensePredictor.

Lemma fit_all_succeeds (fit : string -> result Model) (names : list string) :
  (forall name, In name names -> exists m, fit name = inr m) ->
  forall ms0, exists fitted, fold_left (fit_step fit) names (ret ms0) = inr fitted.
Proof.
  induction names as [| n names IH]; intros Hfit ms0; [exists ms0; reflexivity |].
  cbn [fold_left]. unfold fit_step at 2. cbn [bind ret].
  destruct (Hfit n (or_introl eq_refl)) as [m Hm]. rewrite Hm. cbn [bind].
  apply IH. intros name Hname. apply Hfit. right. exact Hname.
Qed.

End ForecastPipeline.

(** ** The feature frame handed to training *)

Section FeatureFrame.
Context `{Numpy} `{Sklearn}.
Import ExpensePredictor.

Lemma dropna_total_amount (df : list Transaction) :
  exists s, dict_get (engineer_features df) "total_amount" = Some s
            /\ length s = nrows (engineer_features df).
Proof.
  pose proof (nrows_dropna (monthly_features df) (monthly_features_nonempty df)) as Hn.
  unfold engineer_features. rewrite Hn. unfold dropna, kept_rows.
  set (keep := List.filter _ _).
  eexists. split; [reflexivity |]. rewrite !length_map. reflexivity.
Qed.

Lemma prepare_data_returns (self : t) (df : list Transaction) :
  exists X y,
    prepare_data self (engineer_features df)
    = inr ({| models := models self;
              scaler := scaler self;
              feature_columns := forecast_feature_names;
              is_trained := is_trained self;
              ensemble_weights := ensemble_weights self |}, X, y)
    /\ df_values (engineer_features df) forecast_feature_names = inr X
    /\ dict_get (engineer_features df) "total_amount" = Some y.
Proof.
  unfold engineer_features, prepare_data, dropna, df_col.
  set (keep := List.filter _ _).
  eexists. eexists. split; [reflexivity |]. split; reflexivity.
Qed.

(** X2. On the frame of [engineer_features], [prepare_data] never raises:
    it fixes the same 33 feature names in the same order whatever the
    ledger, leaves the other attributes alone, and returns one row of 33
    features and one target per monthly row. *)
Theorem prepare_data_engineered (self : t) (df : list Transaction) :
  exists X y,
    prepare_data self (engineer_features df)
    = inr ({| models := models self;
              scaler := scaler self;
              feature_columns := forecast_feature_names;
              is_trained := is_trained self;
              ensemble_weights := ensemble_weights self |}, X, y)
    /\ length X = nrows (engineer_features df)
    /\ Forall (fun row => length row = 33%nat) X
    /\ df_col (engineer_features df) "total_amount" = inr y
    /\ length y = nrows (engineer_features df).
Proof.
  destruct (prepare_data_returns self df) as (X & y & Hprep & HX & Hy).
  exists X, y. split; [exact Hprep |].
  destruct (df_values_cells _ _ _ HX) as [Hlen Hrows].
  split; [exact Hlen |]. split.
  - rewrite List.Forall_forall. intros row Hrow. apply (Hrows row Hrow).
  - unfold df_col. rewrite Hy. split; [reflexivity |].
    destruct (dropna_total_amount df) as (s & Hs & Hsl). congruence.
Qed.
End FeatureFrame.

Section ForecastReturns.
Context `{Numpy} `{Sklearn}.
Import ExpensePredictor.

Lemma engineered_matrix_finite (df : list Transaction) (names : list string)
      (X : list (list cell)) :
  Forall (fun r => 0 < tx_amount r) df ->
  df_values (engineer_features df) names = inr X ->
  Forall (fun row => length row = length names
                     /\ Forall (fun c => isfinite c = true) row) X.
Proof.
  intros Hpos HX. destruct (df_values_cells _ _ _ HX) as [_ Hrows].
  pose proof (engineer_features_columns df Hpos) as Hcols.
  rewrite List.Forall_forall in Hcols.
  rewrite List.Forall_forall. intros row Hrow. destruct (Hrows row Hrow) as [Hlen Hcells].
  split; [exact Hlen |]. rewrite List.Forall_forall. intros c Hc.
  destruct (Hcells c Hc) as (name & s & i & _ & Hget & Hi & ->).
  apply dict_get_In in Hget as [name' Hin].
  destruct (Hcols _ Hin) as [Hsl Hfin]. cbn [snd] in *.
  rewrite List.Forall_forall in Hfin. apply Hfin. unfold iloc. apply nth_In. lia.
Qed.

(** Behind the runner's guards nothing but an estimator can fail. *)
Lemma forecast_steps_returns (has_xgboost : bool) (df : list Transaction) (tune : bool) :
  Forall (fun r => 0 < tx_amount r) df ->
  (2 <= nrows (engineer_features df))%nat ->
  (forall name X y,
      In name (estimator_names has_xgboost) -> X <> [] ->
      exists m, fit_estimator name tune X y = inr m) ->
  exists predictor r,
    forecast_steps has_xgboost df tune = inr (predictor, r)
    /\ predict_next_month predictor (engineer_features df) = inr r
    /\ is_trained predictor = true
    /\ feature_columns predictor = forecast_feature_names
    /\ ensemble_weights predictor = ensemble_weights (init has_xgboost).
Proof.
  intros Hpos Hrows Hfit.
  destruct (prepare_data_returns (init has_xgboost) df) as (X & y & Hprep & HX & Hy).
  pose proof (engineered_matrix_finite df _ X Hpos HX) as HXfin.
  destruct (df_values_cells _ _ _ HX) as [HlenX _].
  change (length forecast_feature_names) with 33%nat in HXfin.
  assert (HXne : X <> []).
  { intros Hnil. rewrite Hnil in HlenX. cbn [length] in HlenX. lia. }
  destruct (check_array_finite X 33 HXne ltac:(lia) HXfin) as (X' & HX' & HlenX' & HwX').
  assert (Hyfin : Forall (fun c => isfinite c = true) y).
  { apply dict_get_In in Hy as [name' Hin].
    pose proof (engineer_features_columns df Hpos) as Hcols.
    rewrite List.Forall_forall in Hcols. apply (Hcols _ Hin). }
  destruct (check_row_finite y Hyfin) as (y' & Hy' & _).
  unfold forecast_steps. rewrite Hprep. cbn [bind].
  unfold train_with_hyperparameter_tuning, scaler_fit_transform.
  rewrite HX'. cbn [bind ret]. rewrite Hy'. cbn [bind ret].
  set (sc := scaler_fit X').
  set (X_train := firstn (split_idx X) (map (scale_row sc) X')).
  set (y_train := firstn (split_idx X) y').
  assert (Htrain : X_train <> []).
  { intros Hnil. apply (f_equal (@length _)) in Hnil. subst X_train.
    rewrite length_firstn, length_map in Hnil. cbn [length] in Hnil.
    pose proof (split_idx_pos X ltac:(lia)). lia. }
  destruct (fit_all_succeeds (fun name => fit_estimator name tune X_train y_train)
                             (estimator_names has_xgboost)
                             (fun name Hname => Hfit name X_train y_train Hname Htrain)
                             (models (init has_xgboost)))
    as [fitted Hfitted].
  unfold fit_step in Hfitted. cbn [models init] in Hfitted |- *.
  rewrite Hfitted. cbn [bind ret].
  match goal with
  | |- context [predict_next_month ?p ?m] =>
      destruct (proj2 (predict_next_month_returns p m)) as [r Hr]
  end.
  - split; [reflexivity |]. split.
    + cbn [feature_columns scaler]. exists X.
      assert (Htail : tail 1 X <> []).
      { intros Hnil. apply (f_equal (@length _)) in Hnil. unfold tail in Hnil.
        rewrite length_skipn in Hnil. cbn [length] in Hnil. lia. }
      assert (Htfin : Forall (fun row => length row = 33%nat
                                         /\ Forall (fun c => isfinite c = true) row)
                             (tail 1 X))
        by (apply Forall_drop, HXfin).
      destruct (check_array_finite _ 33 Htail ltac:(lia) Htfin) as (L & HL & _ & HwL).
      unfold scaler_transform. rewrite HL. cbn [bind].
      assert (Hmean : length (mean_ sc) = 33%nat).
      { subst sc. unfold scaler_fit. cbn [mean_]. rewrite length_map.
        apply length_columns_of; [| exact HwX'].
        intros Hnil. rewrite Hnil in HlenX'. cbn [length] in HlenX'. lia. }
      rewrite Hmean, (forallb_width L 33 HwL).
      eexists. split; [exact HX | reflexivity].
    + intros _. destruct (dropna_total_amount df) as (s & Hs & _). exists s. exact Hs.
  - rewrite Hr. cbn [bind ret]. do 2 eexists. split; [reflexivity |].
    split; [exact Hr |]. repeat split.
Qed.

(** X4. A ledger of at least 10 positive amounts that leaves at least 3
    monthly rows makes the forecast runner succeed whenever the estimators
    fit a non-empty training set: none of its other steps, from
    [prepare_data] to [predict_next_month], can raise.  The runner then
    reports the model file it wrote, and a fresh predictor that loads this
    file gives the reported forecast again. *)
Theorem run_expense_prediction_succeeds
        (has_xgboost : bool) (db_path : string) (df : list Transaction) (tune : bool)
        (fs : gmap string Bundle) :
  Forall (fun r => 0 < tx_amount r) df ->
  (10 <= length df)%nat ->
  (3 <= nrows (engineer_features df))%nat ->
  (forall name X y,
      In name (estimator_names has_xgboost) -> X <> [] ->
      exists m, fit_estimator name tune X y = inr m) ->
  exists r fs',
    RunML.run_expense_prediction has_xgboost db_path (inr df) tune fs
    = (RunML.Success r (RunML.replace_db "_expense_models.joblib" db_path), fs')
    /\ (let* loaded :=
           load_models (init has_xgboost)
                       (RunML.replace_db "_expense_models.joblib" db_path) fs' in
         predict_next_month loaded (engineer_features df)) = inr r.
Proof.
  intros Hpos Hlen Hrows Hfit.
  destruct (forecast_steps_returns has_xgboost df tune Hpos ltac:(lia) Hfit)
    as (predictor & r & Hsteps & Hr & Htrained & _).
  unfold RunML.run_expense_prediction, RunML.try_except, load_data_from_db.
  cbn [bind ret].
  destruct df as [| r0 df]; [cbn [length] in Hlen; lia |].
  set (ledger := r0 :: df) in *.
  replace (length ledger =? 0)%nat with false by reflexivity. cbn [bind ret].
  replace (length ledger <? 10)%nat with false by (symmetry; apply Nat.ltb_ge; exact Hlen).
  replace (nrows (engineer_features ledger) <? 3)%nat with false
    by (symmetry; apply Nat.ltb_ge; exact Hrows).
  unfold forecast_steps in Hsteps.
  destruct (prepare_data _ _) as [e | [[p0 X] y]]; [discriminate |]. cbn [bind] in Hsteps |- *.
  destruct (train_with_hyperparameter_tuning _ _ _ _ _) as [e | p1];
    [discriminate |]. cbn [bind] in Hsteps |- *.
  destruct (predict_next_month p1 _) as [e | r1]; [discriminate |].
  cbn [bind ret] in Hsteps |- *. injection Hsteps as -> ->.
  do 2 eexists. split; [reflexivity |].
  rewrite expense_load_after_save. cbn [bind].
  rewrite <- Hr. destruct predictor as [ms sc fc tr ws]. cbn in Htrained. subst tr.
  reflexivity.
Qed.
End ForecastReturns.

(** The statement of X4 on nine months of two purchases each, with the
    reference estimators and no tuning. *)
Lemma run_expense_prediction_succeeds_witness :
  exists r fs',
    RunML.run_expense_prediction false "opam.db" (inr nine_paired_months) false ∅
    = (RunML.Success r (RunML.replace_db "_expense_models.joblib" "opam.db"), fs')
    /\ (let* loaded :=
          ExpensePredictor.load_models
            (ExpensePredictor.init false)
            (RunML.replace_db "_expense_models.joblib" "opam.db") fs' in
        ExpensePredictor.predict_next_month
          loaded (ExpensePredictor.engineer_features nine_paired_months)) = inr r.
Proof.
  apply (run_expense_prediction_succeeds false "opam.db" nine_paired_months false ∅).
  - repeat constructor.
  - cbn. lia.
  - rewrite (proj1 nine_months_forecast). lia.
  - intros name X y _ HX. destruct X as [| row X]; [congruence |].
    eexists. reflexivity.
Defined.

(** ** The fraud pipeline end to end *)

Section FraudPipeline.
Context `{Numpy} `{Sklearn}.
Import FraudDetector.

Lemma engineer_features_zscore_not_inf (self : t) (df : list Transaction) (f : Featured) :
  In f (snd (engineer_features self df)) -> never_inf (amount_zscore f).
Proof.
  unfold engineer_features. cbn [snd]. intros Hf.
  apply in_map_iff in Hf as [r [<- Hr]]. cbn [amount_zscore].
  set (group := map tx_amount (List.filter _ df)).
  set (cat_mean := match tx_category r with Some _ => Num (meanQ group) | None => NaN end).
  set (cat_std := match tx_category r with Some _ => sample_std group | None => NaN end).
  assert (Hstd : (if isna cat_std then sample_std (map tx_amount df) else cat_std) = NaN
                 \/ exists sd, (if isna cat_std then sample_std (map tx_amount df)
                                else cat_std) = Num sd /\ 0 <= sd).
  { assert (Hs : forall l, sample_std l = NaN
                           \/ exists sd, sample_std l = Num sd /\ 0 <= sd).
    { intros l. unfold sample_std. destruct (length l <? 2)%nat; [left; reflexivity |].
      right. eexists. split; [reflexivity | apply np_sqrt_nonneg]. }
    subst cat_std. destruct (tx_category r); cbn [isna]; [| apply Hs].
    destruct (Hs group) as [-> | (sd & -> & Hsd)]; cbn [isna]; [apply Hs |].
    right. exists sd. split; [reflexivity | exact Hsd]. }
  destruct Hstd as [-> | (sd & -> & Hsd)].
  - destruct cat_mean as [m | neg |]; cbn; exact I.
  - assert (Hm : cat_mean = NaN \/ exists m, cat_mean = Num m).
    { subst cat_mean. destruct (tx_category r); [right; eexists; reflexivity | left; reflexivity]. }
    destruct Hm as [-> | [m ->]]; [exact I |].
    cbn [csub cmul cadd cdiv].
    destruct (Qeq_bool (sd + 1) 0) eqn:E; [apply Qeq_bool_eq in E; lra | exact I].
Qed.

(** [log_amount] is minus infinity for an amount of -1 and for no
    other. *)
Lemma engineer_features_log_not_inf (self : t) (df : list Transaction) (f : Featured) :
  Forall (fun r => ~ tx_amount r == -1) df ->
  In f (snd (engineer_features self df)) -> never_inf (log_amount f).
Proof.
  intros Hamt. unfold engineer_features. cbn [snd]. intros Hf.
  apply in_map_iff in Hf as [r [<- Hr]]. cbn [log_amount].
  rewrite List.Forall_forall in Hamt. specialize (Hamt r Hr).
  unfold np_log1p. destruct (Qltb (tx_amount r) (-1)); [exact I |].
  destruct (Qeq_bool (tx_amount r) (-1)) eqn:E; [| exact I].
  apply Qeq_bool_eq in E. contradiction.
Qed.

Lemma prepare_features_matrix (self : t) (df : list Featured) :
  Forall (fun f => never_inf (amount_zscore f)) df ->
  Forall (fun f => never_inf (log_amount f)) df ->
  length (snd (prepare_features self df)) = length df
  /\ Forall (fun row => length row = 17%nat /\ Forall (fun c => isfinite c = true) row)
            (snd (prepare_features self df)).
Proof.
  intros Hz Hl. unfold prepare_features. cbn [snd]. split; [apply length_map |].
  apply Forall_map. rewrite List.Forall_forall in Hz, Hl. rewrite List.Forall_forall.
  intros f Hf. split; [reflexivity |].
  specialize (Hz f Hf). specialize (Hl f Hf).
  repeat apply List.Forall_cons; try apply List.Forall_nil; try reflexivity.
  - destruct (log_amount f); [reflexivity | contradiction | reflexivity].
  - destruct (amount_zscore f); [reflexivity | contradiction | reflexivity].
Qed.

Lemma ml_anomaly_scores_range (self : t) (n : nat) (X_scaled : list (list Q))
      (ml : list Q) :
  ml_anomaly_scores self n X_scaled = inr ml ->
  length ml = n /\ Forall (fun m => 0 <= m <= 100) ml.
Proof.
  unfold ml_anomaly_scores.
  destruct (isolation_forest self) as [forest |].
  - set (ds := map (decision_function forest) X_scaled).
    destruct (Nat.eqb_spec (length ds) n) as [Hn |]; [| discriminate].
    intros [= <-]. split; [rewrite length_map; exact Hn |].
    apply Forall_map. rewrite List.Forall_forall. intros d Hd.
    pose proof (minQ_le ds d Hd) as Hmin.
    pose proof (maxQ_ge ds d Hd) as Hmax.
    assert (Hden : 0 < maxQ ds - minQ ds + (1 # 10000000000)) by lra.
    assert (Hlo : 0 <= (d - minQ ds) / (maxQ ds - minQ ds + (1 # 10000000000))).
    { apply Qle_shift_div_l; [exact Hden | lra]. }
    assert (Hhi : (d - minQ ds) / (maxQ ds - minQ ds + (1 # 10000000000)) <= 1).
    { apply Qle_shift_div_r; [exact Hden | lra]. }
    lra.
  - intros [= <-]. split; [apply repeat_length |].
    rewrite List.Forall_forall. intros m Hm. apply repeat_spec in Hm. subst m. lra.
Qed.

(** What a returned [detect_fraud] is made of. *)
Lemma detect_fraud_inv (self : t) (df : list Transaction) (tune : bool)
      (self' : t) (results : Results) (scored : list Scored) :
  detect_fraud self df tune = inr (self', results, scored) ->
  exists ml,
    length ml = length df
    /\ Forall (fun m => 0 <= m <= 100) ml
    /\ scored = zip_with score_row (snd (engineer_features self df)) ml
    /\ total_transactions results = Z.of_nat (length df)
    /\ flagged_transactions results
       = Z.of_nat (length (List.filter (fun s => cgt (fraud_score s) (Num 50)) scored))
    /\ is_trained self' = true
    /\ feature_columns self' = all_feature_columns
    /\ label_encoders self' = label_encoders (fst (engineer_features self df))
    /\ isolation_forest self' <> None
    /\ scaler self' <> None.
Proof.
  unfold detect_fraud.
  destruct (engineer_features self df) as [self1 df_featured] eqn:Hfeat.
  assert (Hlen : length df_featured = length df).
  { apply (f_equal snd) in Hfeat. cbn [snd] in Hfeat. subst df_featured.
    unfold engineer_features. cbn [snd]. apply length_map. }
  destruct (prepare_features self1 df_featured) as [self2 X] eqn:Hprep.
  assert (Hself2 : feature_columns self2 = all_feature_columns
                   /\ label_encoders self2 = label_encoders self1).
  { apply (f_equal fst) in Hprep. cbn [fst] in Hprep. subst self2.
    split; reflexivity. }
  destruct (train_isolation_forest self2 X tune) as [e | [self3 training]] eqn:Htrain;
    [discriminate |].
  cbn [bind].
  destruct (calculate_fraud_scores self3 df_featured X) as [e | df_scored] eqn:Hcalc;
    [discriminate |].
  cbn [bind ret]. intros [= <- <- <-].
  unfold calculate_fraud_scores in Hcalc.
  destruct (scaler_transform (scaler self3) X) as [e | X_scaled]; [discriminate |].
  cbn [bind] in Hcalc.
  destruct (ml_anomaly_scores self3 (length df_featured) X_scaled) as [e | ml] eqn:Hml;
    [discriminate |].
  cbn [bind ret] in Hcalc. injection Hcalc as <-.
  destruct (ml_anomaly_scores_range _ _ _ _ Hml) as [Hmll Hmlr].
  exists ml. split; [congruence |]. split; [exact Hmlr |]. split; [reflexivity |].
  cbn [total_transactions flagged_transactions]. split; [reflexivity |].
  split; [reflexivity |].
  unfold train_isolation_forest in Htrain.
  destruct (scaler_fit_transform X) as [e | [sc Xs]]; [discriminate |].
  cbn [bind] in Htrain.
  destruct (fit_forest _ Xs) as [e | forest]; [discriminate |].
  cbn [bind ret] in Htrain. injection Htrain as <- _.
  cbn [is_trained feature_columns label_encoders isolation_forest scaler fst].
  destruct Hself2 as [-> ->].
  repeat split; discriminate.
Qed.
End FraudPipeline.

(** ** Scores and labels of the rows [detect_fraud] returns *)

Lemma np_clip_idle (q : Q) :
  0 <= q <= 100 -> np_clip (Num q) 0 100 = Num q.
Proof.
  intros [H0 H100]. unfold np_clip, clt. cbn [cgt].
  destruct (Qltb q 0) eqn:Elo; [apply Qltb_lt in Elo; lra |]. cbn [cgt].
  destruct (Qltb 100 q) eqn:Ehi; [apply Qltb_lt in Ehi; lra | reflexivity].
Qed.

Lemma zip_with_fst_inv {A B C : Type} (g : A -> B -> C) (h : C -> A)
      (l1 : list A) (l2 : list B) :
  (forall a b, h (g a b) = a) -> length l2 = length l1 ->
  map h (zip_with g l1 l2) = l1.
Proof.
  intros Hh. revert l2. induction l1 as [| a l1 IH]; intros [| b l2] Hlen;
    cbn in Hlen |- *; try reflexivity; try discriminate.
  rewrite Hh, IH by lia. reflexivity.
Qed.

Lemma filter_ext_length {A : Type} (p q : A -> bool) (l : list A) :
  (forall x, In x l -> p x = q x) ->
  length (List.filter p l) = length (List.filter q l).
Proof.
  intros Hpq. rewrite (List.filter_ext_in p q l Hpq). reflexivity.
Qed.

Section FraudLabels.
Context `{Numpy} `{Sklearn}.
Import FraudDetector.

Lemma velocity_score_range (c : Z) :
  (1 <= c)%Z ->
  exists v, np_minimum (zcell (c * 3)) (Num 15) = Num v /\ 3 <= v <= 15.
Proof.
  intros Hc. unfold np_minimum, zcell, clt. cbn [cgt].
  assert (H3 : 3 <= inject_Z (c * 3)).
  { change 3 with (inject_Z 3). rewrite <- Zle_Qle. lia. }
  destruct (Qltb 15 (inject_Z (c * 3))) eqn:E;
    [apply Qltb_lt in E | apply Qltb_ge in E]; eexists; split;
      try reflexivity; lra.
Qed.

Lemma deviation_score_range (z : cell) :
  (z = NaN /\ np_minimum (cmul (cabs z) (Num 5)) (Num 25) = NaN)
  \/ exists d, np_minimum (cmul (cabs z) (Num 5)) (Num 25) = Num d /\ 0 <= d <= 25.
Proof.
  destruct z as [q | neg |]; [right | right | left; split; reflexivity].
  - unfold np_minimum, clt. cbn [cabs cmul cgt].
    pose proof (Qabs_nonneg q) as Ha.
    destruct (Qltb 25 (Qabs q * 5)) eqn:E;
      [apply Qltb_lt in E | apply Qltb_ge in E]; eexists; split;
        try reflexivity; lra.
  - exists 25. split; [reflexivity | lra].
Qed.

Lemma engineer_features_counts (self : t) (df : list Transaction) (f : Featured) :
  In f (snd (engineer_features self df)) ->
  In (tx f) df
  /\ (1 <= daily_txn_count f <= Z.of_nat (length df))%Z
  /\ (1 <= merchant_frequency f <= Z.of_nat (length df))%Z.
Proof.
  unfold engineer_features. cbn [snd]. intros Hf.
  apply in_map_iff in Hf as [r [<- Hr]]. cbn [tx daily_txn_count merchant_frequency].
  split; [exact Hr |]. unfold count_where. split.
  - pose proof (filter_In_length (same_user_day r) df r Hr) as H1.
    pose proof (List.filter_length_le (same_user_day r) df) as H2.
    assert (same_user_day r r = true) by (unfold same_user_day; rewrite !Z.eqb_refl; reflexivity).
    specialize (H1 ltac:(assumption)). lia.
  - pose proof (filter_In_length (fun r' => String.eqb (tx_merchant r') (tx_merchant r))
                                 df r Hr) as H1.
    pose proof (List.filter_length_le
                  (fun r' => String.eqb (tx_merchant r') (tx_merchant r)) df) as H2.
    specialize (H1 (String.eqb_refl _)). lia.
Qed.

(** A row that [engineer_features] could have built, scored with an
    anomaly score within [0, 100]. *)
Lemma score_row_label (f : Featured) (ml : Q) :
  engineered f -> (1 <= daily_txn_count f)%Z -> 0 <= ml <= 100 ->
  (amount_zscore f = NaN
   /\ fraud_score (score_row f ml) = NaN /\ risk_level (score_row f ml) = None)
  \/ exists q,
      fraud_score (score_row f ml) = Num q
      /\ weighted_score ml (amount_score (score_row f ml)) (time_score (score_row f ml))
                        (velocity_score (score_row f ml))
                        (deviation_score (score_row f ml))
                        (merchant_score (score_row f ml)) = Num q
      /\ 3 # 10 <= q <= 53.75
      /\ (risk_level (score_row f ml) = Some "Low"%string
          \/ risk_level (score_row f ml) = Some "Medium"%string
          \/ risk_level (score_row f ml) = Some "High"%string)
      /\ (50 < q <-> risk_level (score_row f ml) = Some "High"%string).
Proof.
  intros Heng Hcount [Hml0 Hml100].
  pose proof (time_score_le f Heng) as Ht.
  pose proof (merchant_score_le f Heng) as Hm.
  destruct Heng as (Hp & Hn & Hw & Hr).
  assert (Ht0 : 0 <= inject_Z (is_night f * 15 + is_weekend f * 5)).
  { change 0 with (inject_Z 0). rewrite <- Zle_Qle. lia. }
  assert (Hm0 : 0 <= inject_Z (rare_merchant f * 10)).
  { change 0 with (inject_Z 0). rewrite <- Zle_Qle. lia. }
  cbn [score_row fraud_score risk_level ml_anomaly_score amount_score
       time_score velocity_score deviation_score merchant_score].
  unfold weighted_score.
  destruct (velocity_score_range (daily_txn_count f) Hcount) as (v & -> & Hv).
  destruct (deviation_score_range (amount_zscore f)) as [[Hnan ->] | (d & -> & Hd)].
  { left. cbn [cmul cadd zcell np_clip pd_cut]. repeat split. exact Hnan. }
  right. cbn [cmul cadd zcell].
  set (w := ml * 0.40 + amount_percentile f * 30 * 0.20
            + inject_Z (is_night f * 15 + is_weekend f * 5) * 0.10 + v * 0.10
            + d * 0.15 + inject_Z (rare_merchant f * 10) * 0.05).
  assert (Hw' : 3 # 10 <= w <= 53.75) by (unfold w; lra).
  rewrite (np_clip_idle w) by lra.
  exists w. split; [reflexivity |]. split; [reflexivity |]. split; [exact Hw' |].
  destruct (pd_cut_risk w) as (Hlow & Hmed & Hhigh & _ & _).
  unfold risk_bins, risk_labels in *.
  split.
  - destruct (Qlt_le_dec 25 w) as [H25 | H25].
    + destruct (Qlt_le_dec 50 w) as [H50 | H50].
      * right; right. apply Hhigh. lra.
      * right; left. apply Hmed. lra.
    + left. apply Hlow. lra.
  - rewrite Hhigh. split; intros; lra.
Qed.

(** X6. In the frame [detect_fraud] returns, a row has no score and no
    label when its z-score is missing; every other row has a score between
    0.3 and 53.75 that equals the weighted sum of its six sub-scores (the
    clip to [0, 100] never acts), and carries one of the labels Low,
    Medium and High, High exactly when the score is above 50. *)
Theorem detect_fraud_labels (self : t) (df : list Transaction) (tune : bool)
        (self' : t) (results : Results) (scored : list Scored) (s : Scored) :
  detect_fraud self df tune = inr (self', results, scored) -> In s scored ->
  (amount_zscore (featured s) = NaN /\ fraud_score s = NaN /\ risk_level s = None)
  \/ exists q,
      fraud_score s = Num q
      /\ weighted_score (ml_anomaly_score s) (amount_score s) (time_score s)
                        (velocity_score s) (deviation_score s) (merchant_score s)
         = Num q
      /\ 3 # 10 <= q <= 53.75
      /\ (risk_level s = Some "Low"%string
          \/ risk_level s = Some "Medium"%string
          \/ risk_level s = Some "High"%string)
      /\ (50 < q <-> risk_level s = Some "High"%string).
Proof.
  intros Hrun Hs.
  destruct (detect_fraud_inv _ _ _ _ _ _ Hrun) as (ml & _ & Hml & -> & _).
  apply In_zip_with in Hs as (f & m & Hf & Hm & ->).
  rewrite List.Forall_forall in Hml.
  apply (score_row_label f m).
  - apply (engineer_features_engineered self df f Hf).
  - apply (engineer_features_counts self df f Hf).
  - apply Hml, Hm.
Qed.

(** X5. [detect_fraud] returns one scored row per transaction, in the
    order of the ledger; its summary counts the ledger, and the flagged
    transactions (score above 50) are exactly the rows labelled High.  The
    detector comes back trained, with the 17 feature names and the two
    label encoders fitted on the ledger. *)
Theorem detect_fraud_frame (self : t) (df : list Transaction) (tune : bool)
        (self' : t) (results : Results) (scored : list Scored) :
  detect_fraud self df tune = inr (self', results, scored) ->
  map (fun s => tx (featured s)) scored = df
  /\ total_transactions results = Z.of_nat (length df)
  /\ flagged_transactions results
     = count_where (fun s => option_string_eqb (risk_level s) (Some "High"%string)) scored
  /\ (0 <= flagged_transactions results <= total_transactions results)%Z
  /\ is_trained self' = true
  /\ feature_columns self' = all_feature_columns
  /\ dict_get (label_encoders self') "category"
     = Some (label_classes (map (fun r => fillna_Unknown (tx_category r)) df))
  /\ dict_get (label_encoders self') "payment_method"
     = Some (label_classes (map (fun r => fillna_Unknown (tx_payment_method r)) df)).
Proof.
  intros Hrun.
  destruct (detect_fraud_inv _ _ _ _ _ _ Hrun)
    as (ml & Hlen & Hml & Hscored & Htotal & Hflag & Htr & Hcols & Henc & _).
  assert (Hfl : length (snd (engineer_features self df)) = length df)
    by (unfold engineer_features; cbn [snd]; apply length_map).
  assert (Hrows : map featured scored = snd (engineer_features self df)).
  { rewrite Hscored. apply zip_with_fst_inv; [reflexivity | congruence]. }
  assert (Hscl : length scored = length df).
  { rewrite <- Hfl, <- Hrows, length_map. reflexivity. }
  split.
  { rewrite <- (map_map featured tx), Hrows.
    unfold engineer_features. cbn [snd]. rewrite map_map. cbn [tx]. apply map_id. }
  split; [exact Htotal |].
  assert (Hhigh : flagged_transactions results
                  = count_where
                      (fun s => option_string_eqb (risk_level s) (Some "High"%string))
                      scored).
  { rewrite Hflag. unfold count_where. f_equal. apply filter_ext_length.
    intros s Hs. rewrite Hscored in Hs.
    apply In_zip_with in Hs as (f & m & Hf & Hm & ->).
    rewrite List.Forall_forall in Hml.
    destruct (score_row_label f m (engineer_features_engineered self df f Hf)
                              (proj1 (proj1 (proj2 (engineer_features_counts self df f Hf))))
                              (Hml m Hm))
      as [(_ & -> & ->) | (q & -> & _ & _ & Hlab & Hiff)]; [reflexivity |].
    cbn [cgt]. destruct (Qltb 50 q) eqn:E.
    - apply Qltb_lt in E. apply Hiff in E. rewrite E. reflexivity.
    - apply Qltb_ge in E.
      destruct Hlab as [-> | [-> | Hh]]; try reflexivity.
      apply Hiff in Hh. lra. }
  split; [exact Hhigh |]. split.
  { rewrite Htotal, Hflag.
    pose proof (List.filter_length_le (fun s => cgt (fraud_score s) (Num 50)) scored).
    lia. }
  split; [exact Htr |]. split; [exact Hcols |].
  rewrite Henc. unfold engineer_features. cbn [fst label_encoders].
  split.
  - rewrite dict_get_set_ne by discriminate. apply dict_get_set_eq.
  - apply dict_get_set_eq.
Qed.
End FraudLabels.

(** The statement of X5 on three purchases. *)
Lemma detect_fraud_frame_witness :
  exists self' results scored,
    FraudDetector.detect_fraud FraudDetector.init three_purchases false
    = inr (self', results, scored)
    /\ map (fun s => FraudDetector.tx (FraudDetector.featured s)) scored = three_purchases
    /\ FraudDetector.total_transactions results = 3%Z
    /\ FraudDetector.flagged_transactions results
       = FraudDetector.count_where
           (fun s => FraudDetector.option_string_eqb (FraudDetector.risk_level s)
                                                     (Some "High"%string))
           scored.
Proof.
  destruct three_purchases_scored as (self' & results & scored & Hrun & _).
  exists self', results, scored. split; [exact Hrun |].
  destruct (detect_fraud_frame _ _ _ _ _ _ Hrun) as (Hrows & Htotal & Hflag & _).
  split; [exact Hrows |]. split; [exact Htotal | exact Hflag].
Defined.

(** The statement of X6 on three purchases. *)
Lemma detect_fraud_labels_witness :
  exists self' results scored,
    FraudDetector.detect_fraud FraudDetector.init three_purchases false
    = inr (self', results, scored)
    /\ forall s,
        In s scored ->
        (FraudDetector.amount_zscore (FraudDetector.featured s) = NaN
         /\ FraudDetector.fraud_score s = NaN /\ FraudDetector.risk_level s = None)
        \/ exists q,
            FraudDetector.fraud_score s = Num q
            /\ 3 # 10 <= q <= 53.75
            /\ (50 < q <-> FraudDetector.risk_level s = Some "High"%string).
Proof.
  destruct three_purchases_scored as (self' & results & scored & Hrun & _).
  exists self', results, scored. split; [exact Hrun |].
  intros s Hs.
  destruct (detect_fraud_labels _ _ _ _ _ _ s Hrun Hs)
    as [Hnan | (q & Hq & _ & Hrange & _ & Hhigh)]; [left; exact Hnan |].
  right. exists q. split; [exact Hq |]. split; [exact Hrange | exact Hhigh].
Defined.

Section FraudReturns.
Context `{Numpy} `{Sklearn}.
Import FraudDetector.

(** On a ledger that is not empty and has no amount of -1, whose
    [log_amount] is minus infinity, nothing but the last fit of the
    forest can make [detect_fraud] raise. *)
Lemma detect_fraud_returns (self : t) (df : list Transaction) (tune : bool) :
  df <> [] ->
  Forall (fun r => ~ tx_amount r == -1) df ->
  (forall params X, X <> [] -> exists forest, fit_forest params X = inr forest) ->
  exists self' results scored, detect_fraud self df tune = inr (self', results, scored).
Proof.
  intros Hne Hamt Hfit. unfold detect_fraud.
  pose proof (engineer_features_zscore_not_inf self df) as Hz.
  pose proof (engineer_features_log_not_inf self df) as Hl.
  specialize (fun f => Hl f Hamt).
  destruct (engineer_features self df) as [self1 feats] eqn:Hfeat.
  assert (Hlen : length feats = length df).
  { apply (f_equal snd) in Hfeat. cbn [snd] in Hfeat. subst feats.
    unfold engineer_features. cbn [snd]. apply length_map. }
  cbn [snd] in Hz, Hl.
  assert (Hzs : Forall (fun f => never_inf (amount_zscore f)) feats)
    by (rewrite List.Forall_forall; exact Hz).
  assert (Hls : Forall (fun f => never_inf (log_amount f)) feats)
    by (rewrite List.Forall_forall; exact Hl).
  destruct (prepare_features_matrix self1 feats Hzs Hls) as [HlenX HXfin].
  destruct (prepare_features self1 feats) as [self2 X] eqn:Hprep. cbn [snd] in *.
  assert (Hdf : (0 < length df)%nat) by (destruct df; [congruence | cbn; lia]).
  assert (HXne : X <> []).
  { intros Hnil. rewrite Hnil in HlenX. cbn [length] in HlenX. lia. }
  destruct (check_array_finite X 17 HXne ltac:(lia) HXfin) as (X' & HX' & HlenX' & HwX').
  unfold train_isolation_forest, scaler_fit_transform. rewrite HX'. cbn [bind ret].
  set (sc := scaler_fit X').
  set (Xs := map (scale_row sc) X').
  assert (HXs : Xs <> []).
  { intros Hnil. apply (f_equal (@length _)) in Hnil. subst Xs.
    rewrite length_map in Hnil. cbn [length] in Hnil. lia. }
  match goal with
  | |- context [fit_forest ?p Xs] => destruct (Hfit p Xs HXs) as [forest ->]
  end.
  cbn [bind ret]. unfold calculate_fraud_scores. cbn [scaler].
  unfold scaler_transform. rewrite HX'. cbn [bind].
  assert (Hmean : length (mean_ sc) = 17%nat).
  { subst sc. unfold scaler_fit. cbn [mean_]. rewrite length_map.
    apply length_columns_of; [| exact HwX'].
    intros Hnil. rewrite Hnil in HlenX'. cbn [length] in HlenX'. lia. }
  rewrite Hmean, (forallb_width X' 17 HwX'). cbn [bind ret].
  unfold ml_anomaly_scores. cbn [isolation_forest].
  replace (length (map (decision_function forest) (map (scale_row sc) X')) =? length feats)%nat
    with true by (symmetry; apply Nat.eqb_eq; rewrite !length_map; lia).
  cbn [bind ret]. do 3 eexists. reflexivity.
Qed.

(** X7. On a ledger of at least 10 transactions, none of them of the
    amount -1 (where [np.log1p] is minus infinity, which the scaler
    refuses), the fraud runner succeeds whenever the isolation forest can
    be fitted on a non-empty matrix: feature engineering, the encoders,
    the scaler and the scorer cannot raise.  The runner reports the model
    file derived from the database path and writes there a bundle holding
    the fitted forest, the fitted scaler and the 17 feature names. *)
Theorem run_fraud_detection_succeeds
        (db_path : string) (df : list Transaction) (tune : bool)
        (fs : gmap string Bundle) :
  (10 <= length df)%nat ->
  Forall (fun r => ~ tx_amount r == -1) df ->
  (forall params X, X <> [] -> exists forest, fit_forest params X = inr forest) ->
  exists results scored fs' b,
    RunML.run_fraud_detection db_path (inr df) tune fs
    = (RunML.Success (results, scored)
                     (RunML.replace_db "_fraud_models.joblib" db_path), fs')
    /\ length scored = length df
    /\ fs' !! RunML.replace_db "_fraud_models.joblib" db_path = Some b
    /\ b_isolation_forest b <> None
    /\ b_scaler b <> None
    /\ b_feature_columns b = all_feature_columns.
Proof.
  intros Hlen Hamt Hfit.
  assert (Hne : df <> []) by (destruct df; [cbn in Hlen; lia | discriminate]).
  destruct (detect_fraud_returns init df tune Hne Hamt Hfit)
    as (self' & results & scored & Hrun).
  destruct (detect_fraud_inv _ _ _ _ _ _ Hrun)
    as (ml & Hmll & _ & Hscored & _ & _ & _ & Hcols & _ & Hforest & Hscaler).
  unfold RunML.run_fraud_detection, RunML.try_except, load_data_from_db.
  cbn [bind ret].
  replace (length df =? 0)%nat with false by (symmetry; apply Nat.eqb_neq; lia).
  cbn [bind ret].
  replace (length df <? 10)%nat with false by (symmetry; apply Nat.ltb_ge; exact Hlen).
  rewrite Hrun. cbn [bind ret].
  do 4 eexists. split; [reflexivity |].
  split.
  { rewrite Hscored, length_zip_with.
    unfold engineer_features. cbn [snd]. rewrite length_map. lia. }
  unfold save_models. rewrite lookup_insert_eq. split; [reflexivity |].
  cbn [b_isolation_forest b_scaler b_feature_columns].
  split; [exact Hforest |]. split; [exact Hscaler | exact Hcols].
Qed.
End FraudReturns.

(** The statement of X7 on nine months of two purchases each, with the
    reference forest and no tuning. *)
Lemma run_fraud_detection_succeeds_witness :
  exists results scored fs' b,
    RunML.run_fraud_detection "opam.db" (inr nine_paired_months) false ∅
    = (RunML.Success (results, scored)
                     (RunML.replace_db "_fraud_models.joblib" "opam.db"), fs')
    /\ length scored = length nine_paired_months
    /\ fs' !! RunML.replace_db "_fraud_models.joblib" "opam.db" = Some b
    /\ FraudDetector.b_isolation_forest b <> None
    /\ FraudDetector.b_scaler b <> None
    /\ FraudDetector.b_feature_columns b = FraudDetector.all_feature_columns.
Proof.
  apply (run_fraud_detection_succeeds "opam.db" nine_paired_months false ∅).
  - cbn. lia.
  - repeat constructor; intros Habs; vm_compute in Habs; discriminate.
  - intros params X HX. destruct X as [| row X]; [congruence |].
    eexists. reflexivity.
Defined.

(** ** What the runners do to the model files *)

Lemma replace_db_dotless (suffix s : string) :
  dotless s = true -> RunML.replace_db suffix s = s.
Proof.
  induction s as [| c s IH]; [reflexivity |].
  unfold dotless. cbn [list_ascii_of_string forallb]. intros Hd.
  apply andb_prop in Hd as [Hc Hs].
  cbn [RunML.replace_db].
  assert (Hc' : c <> "."%char).
  { intros ->. discriminate Hc. }
  rewrite (IH Hs).
  destruct c as [[] [] [] [] [] [] [] []]; try reflexivity. contradiction.
Qed.

(** X9. [db_path.replace('.db', suffix)] as the runners use it: a path
    without a dot is returned unchanged (the model file is then the
    database file itself); in a path whose first dot opens [.db], that
    occurrence is replaced by the suffix and the replacement goes on
    behind it. *)
Theorem replace_db_first_dot (suffix stem rest : string) :
  dotless stem = true ->
  RunML.replace_db suffix stem = stem
  /\ RunML.replace_db suffix (stem +:+ ".db" +:+ rest)
     = stem +:+ suffix +:+ RunML.replace_db suffix rest.
Proof.
  intros Hd. split; [apply replace_db_dotless, Hd |].
  induction stem as [| c stem IH]; [reflexivity |].
  unfold dotless in Hd. cbn [list_ascii_of_string forallb] in Hd.
  apply andb_prop in Hd as [Hc Hs].
  assert (Hc' : c <> "."%char).
  { intros ->. discriminate Hc. }
  change (String c stem +:+ ".db" +:+ rest) with (String c (stem +:+ ".db" +:+ rest)).
  change (String c stem +:+ suffix +:+ RunML.replace_db suffix rest)
    with (String c (stem +:+ suffix +:+ RunML.replace_db suffix rest)).
  rewrite <- (IH Hs). cbn [RunML.replace_db].
  destruct c as [[] [] [] [] [] [] [] []]; try reflexivity. contradiction.
Qed.

Section RunnerFiles.
Context `{Numpy} `{Sklearn}.

(** X8. Neither runner lets an exception through, and neither touches a
    model file unless it succeeds: with an error answer the files are as
    before, and with a success exactly the reported file, whose name is
    derived from the database path, has been written. *)
Theorem runners_file_effect
        (has_xgboost : bool) (db_path : string) (rows : result (list Transaction))
        (tune : bool)
        (fs : gmap string ExpensePredictor.Bundle)
        (ffs : gmap string FraudDetector.Bundle) :
  (let '(out, fs') := RunML.run_expense_prediction has_xgboost db_path rows tune fs in
   match out with
   | RunML.Error _ => fs' = fs
   | RunML.Success _ path =>
       path = RunML.replace_db "_expense_models.joblib" db_path
       /\ is_Some (fs' !! path)
       /\ forall other, other <> path -> fs' !! other = fs !! other
   end)
  /\ (let '(out, ffs') := RunML.run_fraud_detection db_path rows tune ffs in
      match out with
      | RunML.Error _ => ffs' = ffs
      | RunML.Success _ path =>
          path = RunML.replace_db "_fraud_models.joblib" db_path
          /\ is_Some (ffs' !! path)
          /\ forall other, other <> path -> ffs' !! other = ffs !! other
      end).
Proof.
  split.
  - unfold RunML.run_expense_prediction, RunML.try_except, load_data_from_db.
    destruct rows as [e | df]; cbn [bind ret]; [reflexivity |].
    destruct (length df =? 0)%nat; cbn [bind ret]; [reflexivity |].
    destruct (length df <? 10)%nat; cbn [bind ret]; [reflexivity |].
    destruct (nrows (ExpensePredictor.engineer_features df) <? 3)%nat;
      cbn [bind ret]; [reflexivity |].
    destruct (ExpensePredictor.prepare_data _ _) as [e | [[p0 X] y]];
      cbn [bind ret]; [reflexivity |].
    destruct (ExpensePredictor.train_with_hyperparameter_tuning _ _ _ _ _) as [e | p1];
      cbn [bind ret]; [reflexivity |].
    destruct (ExpensePredictor.predict_next_month _ _) as [e | r];
      cbn [bind ret]; [reflexivity |].
    unfold ExpensePredictor.save_models. split; [reflexivity |].
    split; [rewrite lookup_insert_eq; eexists; reflexivity |].
    intros other Hother. apply lookup_insert_ne. congruence.
  - unfold RunML.run_fraud_detection, RunML.try_except, load_data_from_db.
    destruct rows as [e | df]; cbn [bind ret]; [reflexivity |].
    destruct (length df =? 0)%nat; cbn [bind ret]; [reflexivity |].
    destruct (length df <? 10)%nat; cbn [bind ret]; [reflexivity |].
    destruct (FraudDetector.detect_fraud _ _ _) as [e | [[d results] scored]];
      cbn [bind ret]; [reflexivity |].
    unfold FraudDetector.save_models. split; [reflexivity |].
    split; [rewrite lookup_insert_eq; eexists; reflexivity |].
    intros other Hother. apply lookup_insert_ne. congruence.
Qed.
End RunnerFiles.

(** The statement of X9 on the path [opam.db]. *)
Lemma replace_db_first_dot_witness :
  RunML.replace_db "_expense_models.joblib" "opam" = "opam"%string
  /\ RunML.replace_db "_expense_models.joblib" ("opam" +:+ ".db" +:+ "")
     = "opam" +:+ "_expense_models.joblib" +:+ RunML.replace_db "_expense_models.joblib" "".
Proof.
  apply (replace_db_first_dot "_expense_models.joblib" "opam" "").
  reflexivity.
Defined.

(** ** The label encoders *)

Lemma string_ltb_trans (a b c : string) :
  String.ltb a b = true -> String.ltb b c = true -> String.ltb a c = true.
Proof.
  unfold String.ltb. intros H1 H2.
  destruct (String.compare a b) eqn:E1; try discriminate.
  destruct (String.compare b c) eqn:E2; try discriminate.
  apply OrderedTypeEx.String_as_OT.cmp_lt in E1, E2.
  pose proof (OrderedTypeEx.String_as_OT.lt_trans _ _ _ E1 E2) as H3.
  apply OrderedTypeEx.String_as_OT.cmp_lt in H3.
  unfold OrderedTypeEx.String_as_OT.cmp in H3. rewrite H3. reflexivity.
Qed.

Lemma string_ltb_irrefl (a : string) : String.ltb a a = false.
Proof.
  unfold String.ltb.
  assert (E : String.compare a a = Eq)
    by (apply OrderedTypeEx.String_as_OT.cmp_eq; reflexivity).
  rewrite E. reflexivity.
Qed.

Lemma string_ltb_connex (a b : string) :
  String.eqb a b = false -> String.ltb a b = false -> String.ltb b a = true.
Proof.
  unfold String.ltb. intros Hne Hlt. rewrite (String.compare_antisym b a).
  destruct (String.compare a b) eqn:E; cbn; try reflexivity; try discriminate.
  apply String.compare_eq_iff in E. subst b. rewrite String.eqb_refl in Hne. discriminate.
Qed.

Section LabelEncoder.
Import FraudDetector.

Lemma In_insert_sorted (s x : string) (l : list string) :
  In x (insert_sorted s l) <-> x = s \/ In x l.
Proof.
  induction l as [| y l IH]; cbn [insert_sorted].
  - cbn. intuition congruence.
  - destruct (String.eqb_spec s y) as [-> | Hne].
    + cbn. intuition congruence.
    + destruct (String.ltb s y).
      * cbn. intuition congruence.
      * cbn [In]. rewrite IH. intuition congruence.
Qed.

Lemma insert_sorted_sorted (s : string) (l : list string) :
  StronglySorted (fun a b => String.ltb a b = true) l ->
  StronglySorted (fun a b => String.ltb a b = true) (insert_sorted s l).
Proof.
  induction 1 as [| y l Hl IH Hy]; cbn [insert_sorted].
  - constructor; constructor.
  - destruct (String.eqb s y) eqn:Eeq; [constructor; assumption |].
    destruct (String.ltb s y) eqn:Elt.
    + constructor; [constructor; assumption |].
      constructor; [exact Elt |].
      rewrite List.Forall_forall in Hy. rewrite List.Forall_forall.
      intros z Hz. apply (string_ltb_trans s y z Elt (Hy z Hz)).
    + constructor; [exact IH |].
      rewrite List.Forall_forall in Hy. rewrite List.Forall_forall.
      intros z Hz. apply In_insert_sorted in Hz as [-> | Hz]; [| apply Hy, Hz].
      apply string_ltb_connex; assumption.
Qed.

Lemma label_classes_sorted (values : list string) :
  StronglySorted (fun a b => String.ltb a b = true) (label_classes values).
Proof.
  induction values as [| v values IH]; [constructor |].
  apply insert_sorted_sorted, IH.
Qed.

Lemma In_label_classes (values : list string) (x : string) :
  In x (label_classes values) <-> In x values.
Proof.
  induction values as [| v values IH]; [reflexivity |].
  change (label_classes (v :: values)) with (insert_sorted v (label_classes values)).
  rewrite In_insert_sorted, IH. cbn. intuition congruence.
Qed.

Lemma label_transform_decodes (classes : list string) (v : string) :
  In v classes ->
  (0 <= label_transform classes v < Z.of_nat (length classes))%Z
  /\ nth_error classes (Z.to_nat (label_transform classes v)) = Some v.
Proof.
  induction classes as [| c classes IH]; [intros [] |].
  intros Hv. cbn [label_transform length].
  destruct (String.eqb_spec c v) as [-> | Hne].
  - split; [lia | reflexivity].
  - destruct Hv as [-> | Hv]; [congruence |].
    destruct (IH Hv) as [Hr Hn]. split; [lia |].
    replace (Z.to_nat (1 + label_transform classes v))
      with (S (Z.to_nat (label_transform classes v))) by lia.
    exact Hn.
Qed.

Lemma label_transform_monotone (classes : list string) (u v : string) :
  StronglySorted (fun a b => String.ltb a b = true) classes ->
  In u classes -> In v classes -> String.ltb u v = true ->
  (label_transform classes u < label_transform classes v)%Z.
Proof.
  induction 1 as [| c classes Hs IH Hc]; [intros [] |].
  intros Hu Hv Hlt. cbn [label_transform].
  rewrite List.Forall_forall in Hc.
  destruct (String.eqb_spec c u) as [Ecu | Hcu];
    destruct (String.eqb_spec c v) as [Ecv | Hcv].
  - subst u v. rewrite string_ltb_irrefl in Hlt. discriminate.
  - subst u. destruct Hv as [Hv | Hv]; [congruence |].
    pose proof (label_transform_decodes classes v Hv). lia.
  - subst v. destruct Hu as [Hu | Hu]; [congruence |].
    pose proof (string_ltb_trans _ _ _ (Hc u Hu) Hlt) as Habs.
    rewrite string_ltb_irrefl in Habs. discriminate.
  - destruct Hu as [Hu | Hu]; [congruence |].
    destruct Hv as [Hv | Hv]; [congruence |].
    specialize (IH Hu Hv Hlt). lia.
Qed.

(** X10. A label encoder fitted on a column holds its distinct values in
    strictly ascending order; it encodes each value of the column as its
    position among them, so that decoding the code gives the value back
    and the codes keep the order of the strings. *)
Theorem label_encoder_round_trip (values : list string) :
  StronglySorted (fun a b => String.ltb a b = true) (label_classes values)
  /\ (forall x, In x (label_classes values) <-> In x values)
  /\ Forall (fun v =>
               (0 <= label_transform (label_classes values) v
                < Z.of_nat (length (label_classes values)))%Z
               /\ nth_error (label_classes values)
                            (Z.to_nat (label_transform (label_classes values) v))
                  = Some v
               /\ Forall (fun u =>
                            String.ltb u v = true
                            <-> (label_transform (label_classes values) u
                                 < label_transform (label_classes values) v)%Z)
                         values)
            values.
Proof.
  pose proof (label_classes_sorted values) as Hsorted.
  split; [exact Hsorted |]. split; [apply In_label_classes |].
  rewrite List.Forall_forall. intros v Hv.
  apply In_label_classes in Hv.
  destruct (label_transform_decodes _ v Hv) as [Hr Hn].
  split; [exact Hr |]. split; [exact Hn |].
  rewrite List.Forall_forall. intros u Hu. apply In_label_classes in Hu.
  split; [apply label_transform_monotone; assumption |].
  intros Hlt.
  destruct (String.eqb_spec u v) as [-> | Hne]; [lia |].
  destruct (String.ltb u v) eqn:E; [reflexivity |].
  assert (Hvu : String.ltb v u = true).
  { apply string_ltb_connex; [| exact E].
    destruct (String.eqb_spec u v); [contradiction | reflexivity]. }
  pose proof (label_transform_monotone _ v u Hsorted Hv Hu Hvu). lia.
Qed.
End LabelEncoder.

(** ** The frame of fraud features *)

Section FraudFeatures.
Context `{Numpy} `{Sklearn}.
Import FraudDetector.

(** X11. [engineer_features] of the fraud detector keeps the ledger row
    for row and touches nothing on the instance but the two encoders.  In
    every row the encoded category and payment method decode to the
    row's own values (a missing one to [Unknown]), the transaction
    counts itself among the day's and the merchant's transactions, the
    percentile lies in [0, 1], and the z-score is a number or missing but
    never infinite. *)
Theorem fraud_features_frame (self : t) (df : list Transaction) :
  map tx (snd (engineer_features self df)) = df
  /\ isolation_forest (fst (engineer_features self df)) = isolation_forest self
  /\ scaler (fst (engineer_features self df)) = scaler self
  /\ feature_columns (fst (engineer_features self df)) = feature_columns self
  /\ is_trained (fst (engineer_features self df)) = is_trained self
  /\ contamination (fst (engineer_features self df)) = contamination self
  /\ Forall (fun f =>
               nth_error (label_classes (map (fun r => fillna_Unknown (tx_category r)) df))
                         (Z.to_nat (category_encoded f))
               = Some (fillna_Unknown (tx_category (tx f)))
               /\ nth_error
                    (label_classes (map (fun r => fillna_Unknown (tx_payment_method r)) df))
                    (Z.to_nat (payment_encoded f))
                  = Some (fillna_Unknown (tx_payment_method (tx f)))
               /\ (1 <= daily_txn_count f <= Z.of_nat (length df))%Z
               /\ (1 <= merchant_frequency f <= Z.of_nat (length df))%Z
               /\ 0 <= amount_percentile f <= 1
               /\ never_inf (amount_zscore f))
            (snd (engineer_features self df)).
Proof.
  split.
  { unfold engineer_features. cbn [snd]. rewrite map_map. cbn [tx]. apply map_id. }
  do 5 (split; [reflexivity |]).
  rewrite List.Forall_forall. intros f Hf.
  destruct (engineer_features_counts self df f Hf) as (Htx & Hday & Hmer).
  pose proof (engineer_features_engineered self df f Hf) as (Hpct & _).
  pose proof (engineer_features_zscore_not_inf self df f Hf) as Hz.
  assert (Hcodes : category_encoded f
                   = label_transform
                       (label_classes (map (fun r => fillna_Unknown (tx_category r)) df))
                       (fillna_Unknown (tx_category (tx f)))
                   /\ payment_encoded f
                      = label_transform
                          (label_classes
                             (map (fun r => fillna_Unknown (tx_payment_method r)) df))
                          (fillna_Unknown (tx_payment_method (tx f)))).
  { unfold engineer_features in Hf. cbn [snd] in Hf.
    apply in_map_iff in Hf as [r [<- _]]. split; reflexivity. }
  destruct Hcodes as [-> ->].
  split.
  { apply label_transform_decodes, In_label_classes.
    apply (in_map (fun r => fillna_Unknown (tx_category r))), Htx. }
  split.
  { apply label_transform_decodes, In_label_classes.
    apply (in_map (fun r => fillna_Unknown (tx_payment_method r))), Htx. }
  repeat split; solve [apply Hday | apply Hmer | apply Hpct | exact Hz].
Qed.
End FraudFeatures.

(** ** The search for the forest's hyperparameters *)

Section GridSearch.
Context `{Numpy} `{Sklearn}.
Import FraudDetector.

Lemma grid_fold_argmax (X_scaled : list (list Q)) (l : list ForestParams) :
  X_scaled <> [] ->
  forall (b : cell) (o : option ForestParams),
    let step := fun (best : cell * option ForestParams) cand =>
                  match fit_forest cand X_scaled with
                  | inl _ => best
                  | inr model =>
                      let scores := map (decision_function model) X_scaled in
                      let score := np_std scores in
                      if cgt score (fst best) then (score, Some cand) else best
                  end in
    (fold_left step l (b, o) = (b, o)
     /\ forall c s, In c l -> candidate_spread X_scaled c = Some s -> cgt (Num s) b = false)
    \/ exists p s,
        In p l /\ candidate_spread X_scaled p = Some s
        /\ fold_left step l (b, o) = (Num s, Some p)
        /\ cgt (Num s) b = true
        /\ forall c s', In c l -> candidate_spread X_scaled c = Some s' -> s' <= s.
Proof.
  intros Hne. induction l as [| cand l IH]; intros b o step.
  - left. split; [reflexivity | intros c s []].
  - cbn [fold_left].
    assert (Hstep : (step (b, o) cand = (b, o)
                     /\ forall s, candidate_spread X_scaled cand = Some s ->
                                  cgt (Num s) b = false)
                    \/ exists s, candidate_spread X_scaled cand = Some s
                                 /\ step (b, o) cand = (Num s, Some cand)
                                 /\ cgt (Num s) b = true).
    { subst step. unfold candidate_spread. cbn beta.
      destruct (fit_forest cand X_scaled) as [e | model].
      - left. split; [reflexivity | intros s Hs; discriminate].
      - assert (Hstd : np_std (map (decision_function model) X_scaled)
                       = Num (np_sqrt (varQ 0 (map (decision_function model) X_scaled)))).
        { destruct X_scaled; [congruence | reflexivity]. }
        cbn zeta. rewrite Hstd. cbn [fst].
        destruct (cgt _ b) eqn:E.
        + right. eexists. split; [reflexivity |]. split; [reflexivity | exact E].
        + left. split; [reflexivity |]. intros s [= <-]. exact E. }
    destruct Hstep as [[-> Hcand] | (s & Hs & -> & Hgt)].
    + destruct (IH b o) as [[Hfold Hall] | (p & s & Hp & Hps & Hfold & Hgt & Hmax)].
      * left. split; [exact Hfold |].
        intros c s [<- | Hc] Hcs; [apply Hcand, Hcs | apply (Hall c s Hc Hcs)].
      * right. exists p, s. split; [right; exact Hp |]. split; [exact Hps |].
        split; [exact Hfold |]. split; [exact Hgt |].
        intros c s' [<- | Hc] Hcs; [| apply (Hmax c s' Hc Hcs)].
        specialize (Hcand s' Hcs).
        destruct b as [q | [] |]; cbn [cgt] in Hcand, Hgt; try discriminate.
        apply Qltb_ge in Hcand. apply Qltb_lt in Hgt. lra.
    + destruct (IH (Num s) (Some cand)) as [[Hfold Hall] | (p & s1 & Hp & Hps & Hfold & Hgt1 & Hmax)].
      * right. exists cand, s. split; [left; reflexivity |]. split; [exact Hs |].
        split; [exact Hfold |]. split; [exact Hgt |].
        intros c s' [<- | Hc] Hcs.
        -- rewrite Hs in Hcs. injection Hcs as <-. lra.
        -- specialize (Hall c s' Hc Hcs). cbn [cgt] in Hall.
           apply Qltb_ge in Hall. exact Hall.
      * right. exists p, s1. split; [right; exact Hp |]. split; [exact Hps |].
        split; [exact Hfold |].
        cbn [cgt] in Hgt1. apply Qltb_lt in Hgt1.
        split.
        -- destruct b as [q | [] |]; cbn [cgt] in Hgt |- *; try discriminate;
             try reflexivity.
           apply Qltb_lt in Hgt.
           destruct (Qltb q s1) eqn:E; [reflexivity |]. apply Qltb_ge in E. lra.
        -- intros c s' [<- | Hc] Hcs; [| apply (Hmax c s' Hc Hcs)].
           rewrite Hs in Hcs. injection Hcs as <-. lra.
Qed.

(** X12. On a matrix that is not empty, the manual grid search returns a
    candidate of the grid that could be fitted and whose decision scores
    have the largest spread among all candidates that could be fitted; it
    returns nothing exactly when no candidate of the grid can be
    fitted. *)
Theorem grid_search_argmax (X_scaled : list (list Q)) :
  X_scaled <> [] ->
  match grid_search X_scaled with
  | Some p =>
      In p param_grid
      /\ exists s,
          candidate_spread X_scaled p = Some s
          /\ forall c s', In c param_grid ->
                          candidate_spread X_scaled c = Some s' -> s' <= s
  | None => forall c, In c param_grid -> candidate_spread X_scaled c = None
  end.
Proof.
  intros Hne. unfold grid_search.
  pose proof (grid_fold_argmax X_scaled param_grid Hne (Inf true) None) as Hg.
  cbn zeta in Hg.
  destruct Hg as [[Hfold Hall] | (p & s & Hp & Hps & Hfold & _ & Hmax)];
    rewrite Hfold; cbn [snd].
  - intros c Hc. destruct (candidate_spread X_scaled c) as [s |] eqn:E; [| reflexivity].
    specialize (Hall c s Hc E). discriminate.
  - split; [exact Hp |]. exists s. split; [exact Hps | exact Hmax].
Qed.

Lemma param_grid_contamination (p : ForestParams) :
  In p param_grid ->
  exists c, contamination_param p = Some c /\ In c grid_contaminations.
Proof.
  unfold param_grid. intros Hp.
  apply in_flat_map in Hp as (n_est & _ & Hp).
  apply in_flat_map in Hp as (max_samp & _ & Hp).
  apply in_flat_map in Hp as (contam & Hc & Hp).
  apply in_flat_map in Hp as (max_feat & _ & Hp).
  apply in_map_iff in Hp as (b & <- & _).
  exists contam. split; [reflexivity | exact Hc].
Qed.

Lemma grid_search_In (X_scaled : list (list Q)) (p : ForestParams) :
  grid_search X_scaled = Some p -> In p param_grid.
Proof.
  unfold grid_search.
  assert (Hgen : forall l b o,
             (forall q, o = Some q -> In q param_grid) ->
             (forall q, In q l -> In q param_grid) ->
             forall q,
               snd (fold_left
                      (fun (best : cell * option ForestParams) cand =>
                         match fit_forest cand X_scaled with
                         | inl _ => best
                         | inr model =>
                             let scores := map (decision_function model) X_scaled in
                             let score := np_std scores in
                             if cgt score (fst best) then (score, Some cand) else best
                         end) l (b, o)) = Some q -> In q param_grid).
  { induction l as [| cand l IH]; intros b o Ho Hl q; cbn [fold_left snd].
    - apply Ho.
    - destruct (fit_forest cand X_scaled) as [e | model].
      + apply IH; [exact Ho | intros q' Hq'; apply Hl; right; exact Hq'].
      + cbn zeta. destruct (cgt _ _).
        * apply IH; [| intros q' Hq'; apply Hl; right; exact Hq'].
          intros q' [= <-]. apply Hl. left. reflexivity.
        * apply IH; [exact Ho | intros q' Hq'; apply Hl; right; exact Hq']. }
  apply (Hgen param_grid (Inf true) None); [discriminate | trivial].
Qed.

(** X13. On a feature matrix of finite numbers, without NaN or infinity,
    a returned [train_isolation_forest] leaves the detector trained, with
    a forest and the scaler fitted on the matrix, and keeps its encoders
    and feature names.  Without tuning the contamination is the one the
    detector had; with tuning it is the contamination of the candidate
    that the search over the scaled matrix kept, one of the grid, or 0.05
    when the search kept none, so one of the four values of the grid in
    either case.  The anomalies it reports are at most as many as the
    rows, and their rate lies in [0, 100]. *)
Theorem train_isolation_forest_results
        (self : t) (X : list (list cell)) (tune : bool)
        (self' : t) (training : TrainingResults) :
  Forall (Forall (fun c => isfinite c = true)) X ->
  train_isolation_forest self X tune = inr (self', training) ->
  exists sc X_scaled,
    scaler_fit_transform X = inr (sc, X_scaled)
    /\ scaler self' = Some sc
    /\ is_trained self' = true
    /\ isolation_forest self' <> None
    /\ label_encoders self' = label_encoders self
    /\ feature_columns self' = feature_columns self
    /\ tr_contamination training = contamination self'
    /\ (if tune
        then match grid_search X_scaled with
             | Some p => In p param_grid
                         /\ contamination_param p = Some (contamination self')
             | None => contamination self' = 0.05
             end
             /\ In (contamination self') grid_contaminations
        else contamination self' = contamination self)
    /\ (0 <= n_anomalies training <= Z.of_nat (length X))%Z
    /\ 0 <= anomaly_rate training <= 100.
Proof.
  intros _.
  unfold train_isolation_forest, scaler_fit_transform.
  destruct (check_array X) as [e | X'] eqn:HX'; [discriminate |]. cbn [bind ret].
  set (sc := scaler_fit X'). set (Xs := map (scale_row sc) X').
  destruct (fit_forest _ Xs) as [e | forest]; [discriminate |]. cbn [bind ret].
  intros [= <- <-].
  exists sc, Xs. split; [reflexivity |].
  cbn [is_trained isolation_forest scaler label_encoders feature_columns
       tr_contamination contamination n_anomalies anomaly_rate].
  split; [reflexivity |]. split; [reflexivity |]. split; [discriminate |].
  do 3 (split; [reflexivity |]).
  split.
  { destruct tune; [| reflexivity].
    destruct (grid_search Xs) as [p |] eqn:Hp.
    - apply grid_search_In in Hp.
      destruct (param_grid_contamination p Hp) as (c & Hpc & Hc).
      rewrite Hpc. split; [split; [exact Hp | reflexivity] | exact Hc].
    - split; [reflexivity |]. right; right; left. reflexivity. }
  assert (HlenX : length X' = length X).
  { unfold check_array in HX'.
    assert (Hgen : forall (L : list (list cell)) L',
               fold_right (fun row acc => let* tl := acc in
                                          let* r := check_row row in ret (r :: tl))
                          (ret []) L = inr L' -> length L' = length L).
    { induction L as [| row L IH]; intros L' HL; cbn [fold_right] in HL.
      - injection HL as <-. reflexivity.
      - destruct (fold_right _ _ L) as [e | tl]; [discriminate |]. cbn [bind] in HL.
        destruct (check_row row) as [e | r]; [discriminate |]. cbn [bind ret] in HL.
        injection HL as <-. cbn [length]. rewrite (IH tl eq_refl). reflexivity. }
    destruct X as [| [| c row] X]; try discriminate. apply Hgen, HX'. }
  assert (HX'ne : (0 < length X')%nat).
  { rewrite HlenX. unfold check_array in HX'. destruct X; [discriminate | cbn; lia]. }
  set (predictions := map (forest_predict forest) Xs).
  assert (Hpl : length predictions = length X).
  { subst predictions Xs. rewrite !length_map. exact HlenX. }
  pose proof (List.filter_length_le (fun p => (p =? -1)%Z) predictions) as Hfl.
  unfold count_where. split; [lia |].
  apply round2_range.
  set (n := length (List.filter (fun p => (p =? -1)%Z) predictions)) in *.
  unfold lenQ. rewrite Hpl, <- HlenX.
  assert (Hn0 : 0 <= inject_Z (Z.of_nat n)).
  { change 0 with (inject_Z 0). rewrite <- Zle_Qle. lia. }
  assert (Hnl : inject_Z (Z.of_nat n) <= inject_Z (Z.of_nat (length X'))).
  { rewrite <- Zle_Qle. lia. }
  assert (Hl0 : 0 < inject_Z (Z.of_nat (length X'))).
  { change 0 with (inject_Z 0). rewrite <- Zlt_Qlt. lia. }
  assert (Hr0 : 0 <= inject_Z (Z.of_nat n) / inject_Z (Z.of_nat (length X'))).
  { apply Qle_shift_div_l; [exact Hl0 | lra]. }
  assert (Hr1 : inject_Z (Z.of_nat n) / inject_Z (Z.of_nat (length X')) <= 1).
  { apply Qle_shift_div_r; [exact Hl0 | lra]. }
  lra.
Qed.
End GridSearch.

Lemma two_rows_trained :
  exists self' training,
    FraudDetector.train_isolation_forest FraudDetector.init [[Num 0]; [Num 1]] false
    = inr (self', training).
Proof. do 2 eexists. vm_compute. reflexivity. Qed.

(** The statement of X12 on a matrix of two rows, with the reference
    forest. *)
Lemma grid_search_argmax_witness :
  match FraudDetector.grid_search [[0]; [1]] with
  | Some p =>
      In p FraudDetector.param_grid
      /\ exists s,
          candidate_spread [[0]; [1]] p = Some s
          /\ forall c s', In c FraudDetector.param_grid ->
                          candidate_spread [[0]; [1]] c = Some s' -> s' <= s
  | None => forall c, In c FraudDetector.param_grid -> candidate_spread [[0]; [1]] c = None
  end.
Proof.
  apply (grid_search_argmax [[0]; [1]]). discriminate.
Defined.

(** The statement of X13 on a matrix of two rows, without tuning. *)
Lemma train_isolation_forest_results_witness :
  exists self' training,
    FraudDetector.train_isolation_forest FraudDetector.init [[Num 0]; [Num 1]] false
    = inr (self', training)
    /\ Forall (Forall (fun c => isfinite c = true)) [[Num 0]; [Num 1]]
    /\ FraudDetector.is_trained self' = true
    /\ FraudDetector.contamination self' = FraudDetector.contamination FraudDetector.init
    /\ (0 <= FraudDetector.n_anomalies training <= 2)%Z
    /\ 0 <= FraudDetector.anomaly_rate training <= 100.
Proof.
  destruct two_rows_trained as (self' & training & Hrun).
  assert (Hfin : Forall (Forall (fun c => isfinite c = true)) [[Num 0]; [Num 1]])
    by (repeat constructor).
  exists self', training. split; [exact Hrun |]. split; [exact Hfin |].
  destruct (train_isolation_forest_results _ _ _ _ _ Hfin Hrun)
    as (sc & Xs & _ & _ & Htr & _ & _ & _ & _ & Hcont & Hn & Hrate).
  split; [exact Htr |]. split; [exact Hcont |]. split; [exact Hn | exact Hrate].
Defined.

(** ** The dictionary of predictions *)

Lemma dict_set_fresh {V : Type} (d : dict V) (k : string) (v : V) :
  ~ In k (dict_keys d) -> dict_set d k v = d ++ [(k, v)].
Proof.
  induction d as [| [k' v'] d IH]; intros Hk; [reflexivity |].
  cbn [dict_set]. cbn in Hk.
  destruct (String.eqb_spec k' k) as [-> | Hne]; [tauto |].
  cbn [app]. rewrite IH by tauto. reflexivity.
Qed.

Lemma fold_dict_set_fresh {A V : Type} (key : A -> string) (val : A -> V) (l : list A) :
  List.NoDup (map key l) ->
  forall acc : dict V,
    (forall a, In a l -> ~ In (key a) (dict_keys acc)) ->
    fold_left (fun d a => dict_set d (key a) (val a)) l acc
    = acc ++ map (fun a => (key a, val a)) l.
Proof.
  induction l as [| a l IH]; intros Hnd acc Hacc; cbn [fold_left map].
  - rewrite app_nil_r. reflexivity.
  - inversion Hnd as [| ? ? Ha Hnd']; subst.
    rewrite dict_set_fresh by (apply Hacc; left; reflexivity).
    rewrite IH; [rewrite <- app_assoc; reflexivity | exact Hnd' |].
    intros b Hb. unfold dict_keys. rewrite map_app, in_app_iff. cbn [map In fst].
    intros [Hin | [Heq | []]].
    + apply (Hacc b (or_intror Hb)), Hin.
    + apply Ha. rewrite Heq. apply in_map, Hb.
Qed.

Lemma best_model_key_cases (x : string * Q) :
  best_model_key x = Inf false \/ best_model_key x = Num (snd x).
Proof. unfold best_model_key. destruct (String.eqb _ _); auto. Qed.

Lemma clt_keys_trans (a b c : string * Q) :
  clt (best_model_key b) (best_model_key a) = false ->
  clt (best_model_key c) (best_model_key b) = false ->
  clt (best_model_key c) (best_model_key a) = false.
Proof.
  unfold clt.
  destruct (best_model_key_cases a) as [-> | ->],
           (best_model_key_cases b) as [-> | ->],
           (best_model_key_cases c) as [-> | ->]; cbn [cgt negb andb]; intros H1 H2;
    try reflexivity; try discriminate.
  apply Qltb_ge in H1, H2.
  destruct (Qltb (snd c) (snd a)) eqn:E; [| reflexivity].
  apply Qltb_lt in E. lra.
Qed.

Lemma clt_keys_lt_le (a b : string * Q) :
  clt (best_model_key a) (best_model_key b) = true ->
  clt (best_model_key b) (best_model_key a) = false.
Proof.
  unfold clt.
  destruct (best_model_key_cases a) as [-> | ->],
           (best_model_key_cases b) as [-> | ->]; cbn [cgt negb andb]; intros H1;
    try reflexivity; try discriminate.
  apply Qltb_lt in H1.
  destruct (Qltb (snd b) (snd a)) eqn:E; [| reflexivity].
  apply Qltb_lt in E. lra.
Qed.

Lemma best_fold_min (tl : list (string * Q)) :
  forall best,
    let r := fold_left (fun best x => if clt (best_model_key x) (best_model_key best)
                                      then x else best) tl best in
    (r = best \/ In r tl)
    /\ clt (best_model_key best) (best_model_key r) = false
    /\ forall x, In x tl -> clt (best_model_key x) (best_model_key r) = false.
Proof.
  induction tl as [| x tl IH]; intros best; cbn [fold_left].
  - split; [left; reflexivity |]. split; [| intros x []].
    unfold clt. destruct (best_model_key_cases best) as [-> | ->]; cbn [cgt negb andb];
      [reflexivity |].
    destruct (Qltb (snd best) (snd best)) eqn:E; [| reflexivity].
    apply Qltb_lt in E. lra.
  - destruct (clt (best_model_key x) (best_model_key best)) eqn:E.
    + destruct (IH x) as (Hin & Hx & Hall). cbn zeta in *.
      split; [destruct Hin as [-> | Hin]; right; [left; reflexivity | right; exact Hin] |].
      split.
      * eapply clt_keys_trans; [exact Hx | apply clt_keys_lt_le, E].
      * intros y [<- | Hy]; [exact Hx | apply Hall, Hy].
    + destruct (IH best) as (Hin & Hb & Hall). cbn zeta in *.
      split; [destruct Hin as [-> | Hin]; [left; reflexivity | right; right; exact Hin] |].
      split; [exact Hb |].
      intros y [<- | Hy]; [| apply Hall, Hy].
      eapply clt_keys_trans; [exact Hb | exact E].
Qed.

Section PredictionDict.
Context `{Numpy} `{Sklearn}.
Import ExpensePredictor.

Lemma best_model_of_min (preds : dict Q) :
  preds <> [] ->
  exists v,
    In (best_model_of preds, v) preds
    /\ forall x, In x preds ->
                 clt (best_model_key x) (best_model_key (best_model_of preds, v)) = false.
Proof.
  intros Hne. destruct preds as [| it tl]; [congruence |].
  unfold best_model_of.
  pose proof (best_fold_min tl it) as Hmin. cbn zeta in Hmin.
  change (fun x : string * Q =>
            if String.eqb (fst x) "ensemble" then Inf false else Num (snd x))
    with best_model_key.
  set (r := fold_left _ tl it) in *.
  destruct Hmin as (Hin & Hit & Hall).
  exists (snd r). rewrite <- surjective_pairing.
  split; [destruct Hin as [-> | Hin]; [left; reflexivity | right; exact Hin] |].
  intros x [<- | Hx]; [exact Hit | apply Hall, Hx].
Qed.

(** What a returned [predict_next_month] computed its dictionary from. *)
Lemma predict_next_month_parts (self : t) (monthly_df : DataFrame) (r : Prediction) :
  predict_next_month self monthly_df = inr r ->
  exists scaled,
    predictions r
    = dict_set (individual_predictions self scaled) "ensemble"
               (py_max0 (ensemble_pred self (individual_predictions self scaled)))
    /\ best_model r = best_model_of (predictions r).
Proof.
  unfold predict_next_month.
  destruct (is_trained self); [cbn [negb] | discriminate].
  destruct (df_values monthly_df (feature_columns self)) as [e | rows];
    [discriminate |]. cbn [bind].
  destruct (scaler_transform (scaler self) (tail 1 rows)) as [e | scaled];
    [discriminate |]. cbn [bind].
  destruct (determine_trend monthly_df) as [e | tr]; [discriminate |]. cbn [bind ret].
  intros [= <-]. exists scaled. split; reflexivity.
Qed.

Lemma individual_predictions_map (self : t) (scaled : list (list Q)) :
  List.NoDup (dict_keys (models self)) ->
  individual_predictions self scaled
  = map (fun nm => (fst nm, py_max0 (model_predict (snd nm) (nth 0 scaled []))))
        (models self).
Proof.
  intros Hnd. unfold individual_predictions.
  rewrite (fold_dict_set_fresh fst
             (fun nm => py_max0 (model_predict (snd nm) (nth 0 scaled [])))
             (models self) Hnd []); [reflexivity |].
  intros a _ [].
Qed.

(** X14. With at least one fitted model, none of them stored under the
    name [ensemble], [best_model] in the answer of [predict_next_month]
    names a fitted model, never the ensemble, and the prediction of that
    model is the smallest of the individual predictions. *)
Theorem best_model_smallest (self : t) (monthly_df : DataFrame) (r : Prediction) :
  predict_next_month self monthly_df = inr r ->
  List.NoDup (dict_keys (models self)) ->
  ~ In "ensemble"%string (dict_keys (models self)) ->
  models self <> [] ->
  In (best_model r) (dict_keys (models self))
  /\ exists v,
      In (best_model r, v) (predictions r)
      /\ forall k v', In (k, v') (predictions r) -> k <> "ensemble"%string -> v <= v'.
Proof.
  intros Hr Hnd Hens Hne.
  destruct (predict_next_month_parts _ _ _ Hr) as (scaled & Hpreds & Hbest).
  rewrite (individual_predictions_map self scaled Hnd) in Hpreds.
  set (preds := map _ (models self)) in Hpreds.
  assert (Hkeys : dict_keys preds = dict_keys (models self)).
  { subst preds. unfold dict_keys. rewrite map_map. reflexivity. }
  rewrite dict_set_fresh in Hpreds by (rewrite Hkeys; exact Hens).
  assert (Hpne : predictions r <> []).
  { rewrite Hpreds. destruct preds; discriminate. }
  destruct (best_model_of_min (predictions r) Hpne) as (v & Hin & Hmin).
  rewrite <- Hbest in Hin, Hmin.
  assert (Hfirst : exists k0 v0, In (k0, v0) (predictions r) /\ k0 <> "ensemble"%string).
  { destruct (models self) as [| [k0 m0] ms] eqn:Hms; [congruence |].
    exists k0. eexists. split.
    - rewrite Hpreds. apply in_or_app. left. subst preds. left. reflexivity.
    - intros ->. apply Hens. left. reflexivity. }
  assert (Hnot : best_model r <> "ensemble"%string).
  { intros Heq. destruct Hfirst as (k0 & v0 & Hin0 & Hk0).
    specialize (Hmin _ Hin0). unfold best_model_key, clt in Hmin. cbn [fst snd] in Hmin.
    rewrite Heq in Hmin. cbn in Hmin.
    destruct (String.eqb_spec k0 "ensemble"); [contradiction | discriminate]. }
  split.
  - rewrite Hpreds in Hin. apply in_app_or in Hin as [Hin | [Heq | []]].
    + rewrite <- Hkeys. apply (in_map fst) in Hin. exact Hin.
    + injection Heq as Heq _. congruence.
  - exists v. split; [exact Hin |].
    intros k v' Hk Hkne. specialize (Hmin _ Hk).
    unfold best_model_key, clt in Hmin. cbn [fst snd] in Hmin.
    destruct (String.eqb_spec k "ensemble"); [contradiction |].
    destruct (String.eqb_spec (best_model r) "ensemble"); [contradiction |].
    cbn [cgt] in Hmin. apply Qltb_ge in Hmin. exact Hmin.
Qed.
End PredictionDict.

Lemma two_model_prediction :
  exists r,
    ExpensePredictor.predict_next_month two_model_predictor (totals_frame [100]) = inr r.
Proof. eexists. vm_compute. reflexivity. Qed.

(** The statement of X14 on a predictor of two models that answer 1 and
    2. *)
Lemma best_model_smallest_witness :
  exists r,
    ExpensePredictor.predict_next_month two_model_predictor (totals_frame [100]) = inr r
    /\ In (ExpensePredictor.best_model r)
          (dict_keys (ExpensePredictor.models two_model_predictor))
    /\ exists v,
        In (ExpensePredictor.best_model r, v) (ExpensePredictor.predictions r)
        /\ forall k v', In (k, v') (ExpensePredictor.predictions r) ->
                        k <> "ensemble"%string -> v <= v'.
Proof.
  destruct two_model_prediction as (r & Hr).
  exists r. split; [exact Hr |].
  apply (best_model_smallest two_model_predictor (totals_frame [100]) r Hr).
  - repeat constructor; cbn; intuition discriminate.
  - cbn. intuition discriminate.
  - discriminate.
Defined.

(** ** The ensemble forecast of a freshly trained predictor *)

Lemma py_max0_id (x c : Q) : x == c -> 0 <= c -> py_max0 x == c.
Proof.
  intros Hx Hc. unfold py_max0. destruct (Qltb 0 x) eqn:E; [exact Hx |].
  apply Qltb_ge in E. lra.
Qed.

Section Unanimous.
Context `{Numpy} `{Sklearn}.
Import ExpensePredictor.

Lemma fit_all_keys (fit : string -> result Model) (names : list string) :
  List.NoDup names ->
  forall ms0 fitted,
    fold_left (fit_step fit) names (ret ms0) = inr fitted ->
    (forall n, In n names -> ~ In n (dict_keys ms0)) ->
    dict_keys fitted = dict_keys ms0 ++ names.
Proof.
  induction 1 as [| n names Hn Hnd IH]; intros ms0 fitted Hfold Hfresh.
  - cbn in Hfold. injection Hfold as <-. rewrite app_nil_r. reflexivity.
  - cbn [fold_left] in Hfold. unfold fit_step at 2 in Hfold. cbn [bind ret] in Hfold.
    destruct (fit n) as [e | m]; cbn [bind] in Hfold.
    + rewrite fit_all_raised in Hfold. discriminate.
    + rewrite (IH _ _ Hfold).
      * rewrite dict_set_fresh by (apply Hfresh; left; reflexivity).
        unfold dict_keys. rewrite map_app, <- app_assoc. reflexivity.
      * intros k Hk. rewrite dict_set_fresh by (apply Hfresh; left; reflexivity).
        unfold dict_keys. rewrite map_app, in_app_iff. cbn [map In fst].
        intros [Hin | [Heq | []]].
        -- apply (Hfresh k (or_intror Hk)), Hin.
        -- subst k. contradiction.
Qed.

Lemma forecast_steps_inv (has_xgboost : bool) (df : list Transaction) (tune : bool)
      (predictor : t) (r : Prediction) :
  forecast_steps has_xgboost df tune = inr (predictor, r) ->
  dict_keys (models predictor) = estimator_names has_xgboost
  /\ ensemble_weights predictor = ensemble_weights (init has_xgboost)
  /\ predict_next_month predictor (engineer_features df) = inr r.
Proof.
  unfold forecast_steps.
  destruct (prepare_data _ _) as [e | [[p0 X] y]] eqn:Hprep; [discriminate |].
  cbn [bind].
  assert (Hp0 : models p0 = [] /\ ensemble_weights p0 = ensemble_weights (init has_xgboost)).
  { unfold prepare_data in Hprep.
    destruct (df_col _ _) as [e | y0]; [discriminate |]. cbn [bind] in Hprep.
    destruct (df_values _ _) as [e | X0]; [discriminate |]. cbn [bind ret] in Hprep.
    injection Hprep as <- _ _. split; reflexivity. }
  destruct Hp0 as [Hms Hws].
  destruct (train_with_hyperparameter_tuning _ _ _ _ _) as [e | p1] eqn:Htrain;
    [discriminate |]. cbn [bind].
  destruct (predict_next_month p1 _) as [e | r1] eqn:Hr; [discriminate |].
  cbn [bind ret]. intros [= <- <-].
  unfold train_with_hyperparameter_tuning, scaler_fit_transform in Htrain.
  destruct (check_array X) as [e | X']; [discriminate |]. cbn [bind ret] in Htrain.
  destruct (check_row y) as [e | y']; [discriminate |]. cbn [bind] in Htrain.
  set (X_train := firstn (split_idx X) (map (scale_row (scaler_fit X')) X')) in Htrain.
  set (y_train := firstn (split_idx X) y') in Htrain.
  change (fold_left _ (estimator_names has_xgboost) (ret (models p0)))
    with (fold_left (fit_step (fun name => fit_estimator name tune X_train y_train))
                    (estimator_names has_xgboost) (ret (models p0))) in Htrain.
  destruct (fold_left _ _ _) as [e | fitted] eqn:Hfold; [discriminate |].
  cbn [bind ret] in Htrain. injection Htrain as <-.
  cbn [models ensemble_weights]. split; [| split; [exact Hws | exact Hr]].
  rewrite (fit_all_keys _ _ (estimator_names_NoDup has_xgboost) _ _ Hfold);
    rewrite Hms; [reflexivity | intros n _ []].
Qed.

(** X15. When the forecasts of all the models of a freshly trained
    predictor for the last month, the entries of the returned dictionary
    other than [ensemble], are the same amount [c], the ensemble forecast
    is [c] with xgboost installed and [0.9 c] without it: the weights of
    the four remaining models add up to 0.90, so the ensemble falls 10%
    short of a forecast on which all its models agree. *)
Theorem forecast_unanimous (has_xgboost : bool) (df : list Transaction) (tune : bool)
        (predictor : t) (r : Prediction) (c : Q) :
  forecast_steps has_xgboost df tune = inr (predictor, r) ->
  (forall k v, In (k, v) (predictions r) -> k <> "ensemble"%string -> v == c) ->
  exists e,
    dict_get (predictions r) "ensemble" = Some e
    /\ e == (if has_xgboost then 1 else 0.9) * c.
Proof.
  intros Hsteps Hall.
  destruct (forecast_steps_inv _ _ _ _ _ Hsteps) as (Hkeys & Hws & Hr).
  destruct (predict_next_month_parts _ _ _ Hr) as (scaled & Hpreds & _).
  assert (Hnd : List.NoDup (dict_keys (models predictor)))
    by (rewrite Hkeys; apply estimator_names_NoDup).
  rewrite (individual_predictions_map predictor scaled Hnd) in Hpreds.
  set (row := nth 0 scaled []) in *.
  assert (Hens : forall name, In name (dict_keys (models predictor)) ->
                              name <> "ensemble"%string).
  { intros name Hin ->. rewrite Hkeys in Hin. unfold estimator_names in Hin.
    destruct has_xgboost; cbn in Hin; intuition discriminate. }
  assert (Hp : forall name m, In (name, m) (models predictor) ->
                              py_max0 (model_predict m row) == c).
  { intros name m Hin.
    assert (Hname : name <> "ensemble"%string).
    { apply Hens. apply (in_map fst) in Hin. exact Hin. }
    apply (Hall name); [| exact Hname].
    rewrite Hpreds, dict_set_fresh.
    - apply in_or_app. left.
      apply (in_map (fun nm => (fst nm, py_max0 (model_predict (snd nm) row)))) in Hin.
      exact Hin.
    - unfold dict_keys. rewrite map_map. cbn [fst].
      intros Hin'. apply (Hens _ Hin'). reflexivity. }
  assert (Hc : 0 <= c).
  { destruct (models predictor) as [| [name m] ms] eqn:Hms.
    - unfold estimator_names in Hkeys.
      destruct has_xgboost; discriminate Hkeys.
    - rewrite <- (Hp name m (or_introl eq_refl)). apply py_max0_nonneg. }
  rewrite Hpreds. eexists. split; [apply dict_get_set_eq |].
  unfold ensemble_pred. rewrite Hws, map_map. cbn [fst snd].
  unfold dict_keys in Hkeys.
  remember (models predictor) as ms eqn:Hms in *. clear Hms Hnd Hall Hpreds Hens.
  destruct has_xgboost; cbn in Hkeys.
  all: repeat (destruct ms as [| [? ?] ms]; [discriminate Hkeys |];
               cbn [map fst] in Hkeys; injection Hkeys as -> Hkeys).
  all: destruct ms; [| discriminate Hkeys].
  all: cbn [map fst snd].
  all: repeat match goal with
         | |- context [dict_get_default ?w ?k 0] =>
             let v := eval vm_compute in (dict_get_default w k 0) in
             change (dict_get_default w k 0) with v
         end.
  all: unfold py_sum; cbn [fold_left].
  all: repeat match goal with
         | |- context [py_max0 (model_predict ?m ?rw)] =>
             let H := fresh "Hm" in
             assert (H : py_max0 (model_predict m rw) == c)
               by (eapply Hp; cbn; eauto 10);
             set (py_max0 (model_predict m rw)) in *
         end.
  all: apply py_max0_id; [lra | lra].
Qed.
End Unanimous.

Lemma level_months_forecast :
  exists predictor r,
    forecast_steps false level_months false = inr (predictor, r)
    /\ forall k v,
        In (k, v) (ExpensePredictor.predictions r) -> k <> "ensemble"%string -> v == 160.
Proof.
  do 2 eexists. split; [vm_compute; reflexivity |].
  intros k v Hin Hk. cbn [ExpensePredictor.predictions] in Hin.
  repeat (destruct Hin as [[= <- <-] | Hin]; [try reflexivity; congruence |]).
  destruct Hin.
Qed.

(** The statement of X15 on nine level months, without xgboost: the four
    reference models all answer 160, the ensemble 144. *)
Lemma forecast_unanimous_witness :
  exists predictor r e,
    forecast_steps false level_months false = inr (predictor, r)
    /\ (forall k v,
           In (k, v) (ExpensePredictor.predictions r) -> k <> "ensemble"%string ->
           v == 160)
    /\ dict_get (ExpensePredictor.predictions r) "ensemble" = Some e
    /\ e == 0.9 * 160.
Proof.
  destruct level_months_forecast as (predictor & r & Hrun & Hall).
  destruct (forecast_unanimous false level_months false predictor r 160 Hrun Hall)
    as (e & He & Heq).
  exists predictor, r, e. split; [exact Hrun |]. split; [exact Hall |].
  split; [exact He | exact Heq].
Defined.

(** ** Loading what was never trained *)

Section LoadUntrained.
Context `{Numpy} `{Sklearn}.

(** X16. [load_models] marks the instance as trained whatever the file
    holds.  After loading what a fresh, untrained instance saved, the
    predictor passes its own [is_trained] check and fails in the scaler
    with a NotFittedError; the fraud scorer fails in the same way. *)
Theorem load_untrained_not_fitted :
  (forall (has_xgboost : bool) (fresh : ExpensePredictor.t) (path : string)
          (fs : gmap string ExpensePredictor.Bundle) (monthly_df : DataFrame),
      exists loaded,
        ExpensePredictor.load_models
          fresh path
          (ExpensePredictor.save_models (ExpensePredictor.init has_xgboost) path fs)
        = inr loaded
        /\ ExpensePredictor.is_trained loaded = true
        /\ ExpensePredictor.predict_next_month loaded monthly_df
           = inl "NotFittedError: This StandardScaler instance is not fitted yet."%string)
  /\ (forall (fresh : FraudDetector.t) (path : string)
             (fs : gmap string FraudDetector.Bundle)
             (df : list FraudDetector.Featured) (X : list (list cell)),
         exists loaded,
           FraudDetector.load_models
             fresh path (FraudDetector.save_models FraudDetector.init path fs)
           = inr loaded
           /\ FraudDetector.is_trained loaded = true
           /\ FraudDetector.calculate_fraud_scores loaded df X
              = inl "NotFittedError: This StandardScaler instance is not fitted yet."%string).
Proof.
  split.
  - intros has_xgboost fresh path fs monthly_df.
    eexists. split; [apply expense_load_after_save |]. split; [reflexivity |].
    unfold ExpensePredictor.predict_next_month. cbn. reflexivity.
  - intros fresh path fs df X.
    eexists. split; [apply fraud_load_after_save |]. split; [reflexivity |].
    reflexivity.
Qed.
End LoadUntrained.

(** ** Forecasts by category *)

Lemma n_months_le_length (df : list Transaction) : (n_months df <= length df)%nat.
Proof.
  unfold n_months. rewrite <- (length_map period_of df).
  generalize (map period_of df). intros l.
  induction l as [| x l IH]; [cbn; lia |].
  cbn [nodup]. destruct (in_dec Z.eq_dec x l); cbn [length]; lia.
Qed.

Section ByCategory.
Context `{Numpy} `{Sklearn}.
Import ExpensePredictor.

Lemma same_value_eq (a b : option string) : same_value a b = true <-> a = b.
Proof.
  destruct a as [x |], b as [y |]; cbn; try (split; [discriminate | congruence]).
  - rewrite String.eqb_eq. split; congruence.
  - split; reflexivity.
Qed.

Lemma In_unique (l : list (option string)) (x : option string) :
  In x (unique l) <-> In x l.
Proof.
  induction l as [| y l IH]; [reflexivity |].
  cbn [unique In]. rewrite filter_In, IH.
  destruct (same_value y x) eqn:E.
  - apply same_value_eq in E. cbn. intuition congruence.
  - cbn. intuition.
Qed.

Lemma NoDup_unique (l : list (option string)) : List.NoDup (unique l).
Proof.
  induction l as [| y l IH]; [constructor |].
  cbn [unique]. constructor.
  - rewrite filter_In. intros [_ Hy].
    assert (E : same_value y y = true) by (apply same_value_eq; reflexivity).
    rewrite E in Hy. discriminate.
  - apply List.NoDup_filter, IH.
Qed.

Lemma In_insert_desc (p x : CategoryPrediction) (l : list CategoryPrediction) :
  In x (insert_desc p l) <-> x = p \/ In x l.
Proof.
  induction l as [| q l IH]; cbn [insert_desc].
  - cbn. intuition congruence.
  - destruct (Qle_bool _ _); cbn [In]; [intuition congruence |].
    rewrite IH. intuition congruence.
Qed.

Lemma insert_desc_perm (p : CategoryPrediction) (l : list CategoryPrediction) :
  Permutation (insert_desc p l) (p :: l).
Proof.
  induction l as [| q l IH]; cbn [insert_desc]; [reflexivity |].
  destruct (Qle_bool _ _); [reflexivity |].
  rewrite IH. apply perm_swap.
Qed.

Lemma sorted_desc_perm (l : list CategoryPrediction) : Permutation (sorted_desc l) l.
Proof.
  induction l as [| p l IH]; [reflexivity |].
  change (sorted_desc (p :: l)) with (insert_desc p (sorted_desc l)).
  rewrite insert_desc_perm, IH. reflexivity.
Qed.

Lemma insert_desc_sorted (p : CategoryPrediction) (l : list CategoryPrediction) :
  StronglySorted (fun a b => predicted_amount b <= predicted_amount a) l ->
  StronglySorted (fun a b => predicted_amount b <= predicted_amount a) (insert_desc p l).
Proof.
  induction 1 as [| q l Hl IH Hq]; cbn [insert_desc].
  - constructor; constructor.
  - destruct (Qle_bool (predicted_amount q) (predicted_amount p)) eqn:E.
    + apply Qle_bool_iff in E.
      constructor; [constructor; assumption |].
      constructor; [exact E |].
      rewrite List.Forall_forall in Hq. rewrite List.Forall_forall.
      intros z Hz. specialize (Hq z Hz). cbn beta in Hq. lra.
    + assert (Hlt : predicted_amount p < predicted_amount q).
      { apply Qnot_le_lt. intros Hle. apply Qle_bool_iff in Hle. congruence. }
      constructor; [exact IH |].
      rewrite List.Forall_forall in Hq. rewrite List.Forall_forall.
      intros z Hz. apply In_insert_desc in Hz as [-> | Hz]; [lra | apply Hq, Hz].
Qed.

Lemma sorted_desc_sorted (l : list CategoryPrediction) :
  StronglySorted (fun a b => predicted_amount b <= predicted_amount a) (sorted_desc l).
Proof.
  induction l as [| p l IH]; [constructor |].
  apply insert_desc_sorted, IH.
Qed.

Lemma predict_category_some (df : list Transaction) (c : option string)
      (p : CategoryPrediction) :
  predict_category df c = Some p ->
  exists name,
    c = Some name /\ category p = Some name
    /\ (3 <= n_months (of_category df name))%nat
    /\ transaction_count p = Z.of_nat (length (of_category df name))
    /\ 0 <= cp_confidence p <= 100.
Proof.
  unfold predict_category.
  set (cat_df := List.filter _ df).
  rewrite length_map, length_groupby.
  destruct (Nat.leb_spec 3 (n_months cat_df)) as [H3 |]; [| discriminate].
  intros [= <-]. cbn [category transaction_count cp_confidence].
  destruct c as [name |].
  - exists name. fold (of_category df name) in cat_df.
    split; [reflexivity |]. split; [reflexivity |]. split; [exact H3 |].
    split; [reflexivity |].
    apply round2_range.
    set (avg := meanQ _). set (std := np_sqrt _).
    destruct (Qltb 0 avg) eqn:E; [| lra].
    apply Qltb_lt in E. split; [apply py_max0_nonneg |].
    assert (Hstd : 0 <= std) by apply np_sqrt_nonneg.
    assert (Hr : 0 <= std / avg) by (apply Qle_shift_div_l; [exact E | lra]).
    unfold py_max0. destruct (Qltb 0 (100 - std / avg * 100)); lra.
  - exfalso. subst cat_df.
    assert (Hnil : List.filter (fun r => eq_category (tx_category r) None) df = []).
    { clear. induction df as [| r df IH]; [reflexivity |].
      cbn [List.filter]. destruct (tx_category r); cbn [eq_category]; exact IH. }
    rewrite Hnil in H3. cbn in H3. lia.
Qed.

Lemma predict_category_none (df : list Transaction) (name : string) :
  predict_category df (Some name) = None <-> (n_months (of_category df name) < 3)%nat.
Proof.
  unfold predict_category.
  fold (of_category df name).
  rewrite length_map, length_groupby.
  destruct (Nat.leb_spec 3 (n_months (of_category df name))); split;
    try discriminate; try reflexivity; intros; lia.
Qed.

Lemma predict_category_category (df : list Transaction) (c : option string)
      (p : CategoryPrediction) :
  predict_category df c = Some p -> category p = c.
Proof.
  unfold predict_category. destruct (3 <=? _)%nat; [| discriminate].
  intros [= <-]. reflexivity.
Qed.

Lemma NoDup_category_flat_map (df : list Transaction) (cs : list (option string)) :
  List.NoDup cs ->
  List.NoDup (map category
                  (flat_map (fun c => match predict_category df c with
                                      | Some p => [p]
                                      | None => []
                                      end) cs)).
Proof.
  induction 1 as [| c cs Hc Hnd IH]; [constructor |].
  cbn [flat_map]. destruct (predict_category df c) as [p |] eqn:Hp; [| exact IH].
  cbn [app map]. constructor; [| exact IH].
  rewrite (predict_category_category _ _ _ Hp).
  intros Hin. apply in_map_iff in Hin as (q & Hq & Hin).
  apply in_flat_map in Hin as (c' & Hc' & Hin).
  destruct (predict_category df c') as [p' |] eqn:Hp'; [| destruct Hin].
  destruct Hin as [<- | []]. rewrite (predict_category_category _ _ _ Hp') in Hq.
  subst c'. contradiction.
Qed.

(** X17. [predict_by_category] returns its forecasts in descending order
    of the predicted amount, one for each category of the ledger that has
    transactions in at least three calendar months and none for any other;
    no category appears twice.  Each forecast counts the transactions of
    its category and carries a confidence within [0, 100]. *)
Theorem predict_by_category_sorted (df : list Transaction) :
  StronglySorted (fun a b => predicted_amount b <= predicted_amount a)
                 (predict_by_category df)
  /\ List.NoDup (map category (predict_by_category df))
  /\ (forall name,
         In (Some name) (map category (predict_by_category df))
         <-> (3 <= n_months (of_category df name))%nat)
  /\ Forall (fun p =>
               exists name,
                 category p = Some name
                 /\ transaction_count p = Z.of_nat (length (of_category df name))
                 /\ (3 <= transaction_count p)%Z
                 /\ 0 <= cp_confidence p <= 100)
            (predict_by_category df).
Proof.
  unfold predict_by_category.
  set (preds := flat_map _ (unique (map tx_category df))).
  pose proof (sorted_desc_perm preds) as Hperm.
  split; [apply sorted_desc_sorted |]. split; [| split].
  - apply (Permutation_NoDup (l := map category preds)).
    + apply Permutation_map. symmetry. exact Hperm.
    + apply NoDup_category_flat_map, NoDup_unique.
  - intros name.
    rewrite (Permutation_in' (eq_refl (Some name)) (Permutation_map category Hperm)).
    subst preds. rewrite in_map_iff. split.
    + intros (p & Hcat & Hin). apply in_flat_map in Hin as (c & _ & Hin).
      destruct (predict_category df c) as [p' |] eqn:Hp; [| destruct Hin].
      destruct Hin as [<- | []].
      destruct (predict_category_some _ _ _ Hp) as (name' & _ & Hcat' & H3 & _).
      congruence.
    + intros H3.
      destruct (predict_category df (Some name)) as [p |] eqn:Hp.
      * exists p. split; [apply (predict_category_category _ _ _ Hp) |].
        apply in_flat_map. exists (Some name). split; [| rewrite Hp; left; reflexivity].
        apply In_unique.
        assert (Hne : of_category df name <> []).
        { intros Hnil. rewrite Hnil in H3. cbn in H3. lia. }
        destruct (of_category df name) as [| r rs] eqn:Hcat; [congruence |].
        assert (Hr : In r (of_category df name)) by (rewrite Hcat; left; reflexivity).
        unfold of_category in Hr. apply filter_In in Hr as [Hr Heq].
        apply in_map_iff. exists r. split; [| exact Hr].
        destruct (tx_category r) as [x |]; cbn in Heq; [| discriminate].
        apply String.eqb_eq in Heq. congruence.
      * apply predict_category_none in Hp. lia.
  - rewrite List.Forall_forall. intros p Hp.
    apply (Permutation_in _ Hperm) in Hp. subst preds.
    apply in_flat_map in Hp as (c & _ & Hin).
    destruct (predict_category df c) as [p' |] eqn:Hp'; [| destruct Hin].
    destruct Hin as [<- | []].
    destruct (predict_category_some _ _ _ Hp') as (name & _ & Hcat & H3 & Hcount & Hconf).
    exists name. split; [exact Hcat |]. split; [exact Hcount |].
    split; [| exact Hconf].
    rewrite Hcount. pose proof (n_months_le_length (of_category df name)). lia.
Qed.
End ByCategory.

(** ** Short histories of a category *)

Lemma round2_nonneg (x : Q) : 0 <= x -> 0 <= round2 x.
Proof.
  intros Hlo. unfold round2.
  assert (Hs : 0 <= x * 100) by lra.
  set (s := x * 100) in *. set (f := Qfloor s).
  assert (Hf0 : (0 <= f)%Z).
  { unfold f. rewrite <- (Qfloor_Z 0). apply Qfloor_resp_le. exact Hs. }
  clearbody f. clearbody s.
  assert (Hn : forall n, (0 <= n)%Z -> 0 <= inject_Z n / 100).
  { intros n Hn0. unfold Qle, Qdiv, Qmult, Qinv, inject_Z. cbn. lia. }
  apply Hn.
  destruct (Qltb (s - inject_Z f) (1 # 2)); [lia |].
  destruct (Qltb (1 # 2) (s - inject_Z f)); [lia |].
  destruct (Z.even f); lia.
Qed.

Lemma Forall_tail {A : Type} (P : A -> Prop) (n : nat) (l : list A) :
  Forall P l -> Forall P (tail n l).
Proof. intros Hl. unfold tail. apply Forall_drop, Hl. Qed.

Section CategoryTrend.
Context `{Numpy} `{Sklearn}.
Import ExpensePredictor.

Lemma monthly_sums_nonneg (df : list Transaction) :
  Forall (fun r => 0 <= tx_amount r) df ->
  Forall (fun q => 0 <= q)
         (map (fun g => sumQ (map tx_amount (snd g))) (groupby_year_month df)).
Proof.
  intros Hpos. pose proof (groupby_members _ df Hpos) as Hg.
  apply Forall_map. rewrite List.Forall_forall in Hg. rewrite List.Forall_forall.
  intros g Hin. destruct (Hg g Hin) as [_ Hrows].
  apply sumQ_nonneg, Forall_map. exact Hrows.
Qed.

(** X20. On a ledger without negative amounts, the forecast of a
    category with fewer than six months of history always has the trend
    [stable], and no forecast has a negative predicted amount or average
    transaction. *)
Theorem category_trend_short (df : list Transaction) (p : CategoryPrediction) :
  Forall (fun r => 0 <= tx_amount r) df ->
  In p (predict_by_category df) ->
  0 <= predicted_amount p
  /\ 0 <= avg_transaction p
  /\ forall name,
      category p = Some name ->
      (n_months (of_category df name) < 6)%nat ->
      cp_trend p = "stable"%string.
Proof.
  intros Hpos Hp. unfold predict_by_category in Hp.
  apply (Permutation_in _ (sorted_desc_perm _)) in Hp.
  apply in_flat_map in Hp as (c & _ & Hin).
  destruct (predict_category df c) as [p' |] eqn:Hp'; [| destruct Hin].
  destruct Hin as [<- | []].
  unfold predict_category in Hp'.
  set (cat_df := List.filter _ df) in Hp'.
  assert (Hcat : Forall (fun r => 0 <= tx_amount r) cat_df).
  { subst cat_df. rewrite List.Forall_forall in Hpos. rewrite List.Forall_forall.
    intros r Hr. apply filter_In in Hr as [Hr _]. apply Hpos, Hr. }
  pose proof (monthly_sums_nonneg cat_df Hcat) as Hsums.
  set (monthly_cat := map _ (groupby_year_month cat_df)) in *.
  assert (Hlen : length monthly_cat = n_months cat_df)
    by (subst monthly_cat; rewrite length_map; apply length_groupby).
  rewrite Hlen in Hp'.
  destruct (3 <=? n_months cat_df)%nat; [| discriminate].
  assert (Havg : 0 <= meanQ (tail 6 monthly_cat))
    by (apply meanQ_nonneg, Forall_tail, Hsums).
  destruct (Nat.leb_spec 6 (n_months cat_df)) as [H6 | H6];
    injection Hp' as <-; cbn [predicted_amount avg_transaction category cp_trend].
  all: split; [apply round2_nonneg, Havg |].
  all: split; [apply round2_nonneg, meanQ_nonneg, Forall_map; exact Hcat |].
  all: intros name -> Hshort.
  all: assert (Hshort' : (n_months cat_df < 6)%nat) by exact Hshort.
  - lia.
  - unfold category_trend.
    destruct (Qltb (meanQ (tail 6 monthly_cat) * 0.1) 0) eqn:E1;
      [apply Qltb_lt in E1; lra |].
    destruct (Qltb 0 (- meanQ (tail 6 monthly_cat) * 0.1)) eqn:E2;
      [apply Qltb_lt in E2; lra | reflexivity].
Qed.
End CategoryTrend.

Lemma three_months_by_category :
  exists p,
    ExpensePredictor.predict_by_category (paired_months [1; 2; 3]%Z) = [p]
    /\ ExpensePredictor.category p = Some "Food"%string.
Proof. eexists. split; [vm_compute; reflexivity | reflexivity]. Qed.

(** The statement of X20 on three months of two purchases each. *)
Lemma category_trend_short_witness :
  exists p,
    In p (ExpensePredictor.predict_by_category (paired_months [1; 2; 3]%Z))
    /\ 0 <= ExpensePredictor.predicted_amount p
    /\ 0 <= ExpensePredictor.avg_transaction p
    /\ ExpensePredictor.cp_trend p = "stable"%string.
Proof.
  destruct three_months_by_category as (p & Hrun & Hcat).
  assert (Hin : In p (ExpensePredictor.predict_by_category (paired_months [1; 2; 3]%Z)))
    by (rewrite Hrun; left; reflexivity).
  exists p. split; [exact Hin |].
  assert (Hpos : Forall (fun r => 0 <= tx_amount r) (paired_months [1; 2; 3]%Z))
    by (repeat constructor; discriminate).
  destruct (category_trend_short (paired_months [1; 2; 3]%Z) p Hpos Hin)
    as (Hamount & Havg & Htrend).
  split; [exact Hamount |]. split; [exact Havg |].
  apply (Htrend "Food"%string Hcat). vm_compute. lia.
Defined.

(** ** The two ensemble sums *)

Lemma dict_get_map {A B : Type} (f : A -> B) (d : dict A) (k : string) :
  dict_get (map (fun kv => (fst kv, f (snd kv))) d) k = option_map f (dict_get d k).
Proof.
  induction d as [| [k' v] d IH]; [reflexivity |].
  cbn [map dict_get fst snd]. destruct (String.eqb k' k); [reflexivity | exact IH].
Qed.

Lemma dict_get_None {V : Type} (d : dict V) (k : string) :
  ~ In k (dict_keys d) -> dict_get d k = None.
Proof.
  induction d as [| [k' v] d IH]; [reflexivity |].
  cbn. intros Hk. destruct (String.eqb_spec k' k); [tauto |]. apply IH. tauto.
Qed.

Lemma Forall2_Qeq_refl (l : list Q) : Forall2 Qeq l l.
Proof. induction l; constructor; [reflexivity | assumption]. Qed.

Lemma Forall2_Qeq_trans (l1 l2 l3 : list Q) :
  Forall2 Qeq l1 l2 -> Forall2 Qeq l2 l3 -> Forall2 Qeq l1 l3.
Proof.
  intros H12. revert l3. induction H12 as [| x y l1 l2 Hxy H12 IH]; intros l3 H23.
  - inversion H23. constructor.
  - inversion H23 as [| ? z ? l3' Hyz H23']; subst. constructor; [| apply IH, H23'].
    rewrite Hxy. exact Hyz.
Qed.

Lemma Forall2_length_eq {A B : Type} (R : A -> B -> Prop) (l1 : list A) (l2 : list B) :
  Forall2 R l1 l2 -> length l1 = length l2.
Proof. induction 1; cbn; congruence. Qed.

Section EnsembleSums.
Context `{Numpy} `{Sklearn}.
Import ExpensePredictor.

Lemma ensemble_fold_rows (ms : dict Model) (X : list (list Q)) (ws : dict Q) :
  forall acc acc',
    Forall2 Qeq acc acc' ->
    length acc = length X ->
    Forall2 Qeq
      (fold_left
         (fun ensemble_pred nw =>
            match dict_get (map (fun nm => (fst nm, map (model_predict (snd nm)) X)) ms)
                           (fst nw) with
            | Some p => zip_with Qplus ensemble_pred (map (Qmult (snd nw)) p)
            | None => ensemble_pred
            end) ws acc)
      (zip_with Qplus acc' (map (weighted_row_sum ms ws) X)).
Proof.
  induction ws as [| [k w] ws IH]; intros acc acc' Hacc Hlen; cbn [fold_left].
  - unfold weighted_row_sum. cbn [map sumQ fold_right].
    apply (Forall2_Qeq_trans _ acc'); [exact Hacc |].
    assert (Hl : length acc' = length X)
      by (rewrite <- Hlen; symmetry; apply (Forall2_length_eq _ _ _ Hacc)).
    clear Hacc Hlen. revert X Hl. induction acc' as [| a acc' IHa]; intros [| x X] Hl;
      cbn in Hl |- *; try discriminate; constructor; [lra | apply IHa; lia].
  - cbn [fst snd]. rewrite (dict_get_map (fun m => map (model_predict m) X) ms k).
    set (step := fun ensemble_pred nw => _).
    assert (Hgoal : forall acc1,
               Forall2 Qeq acc1
                       (zip_with Qplus acc'
                          (map (fun row => w * match dict_get ms k with
                                               | Some m => model_predict m row
                                               | None => 0
                                               end) X)) ->
               length acc1 = length X ->
               Forall2 Qeq (fold_left step ws acc1)
                       (zip_with Qplus acc' (map (weighted_row_sum ms ((k, w) :: ws)) X))).
    { intros acc1 Hacc1 Hlen1.
      apply (Forall2_Qeq_trans _ _ _ (IH acc1 _ Hacc1 Hlen1)).
      assert (Hl : length acc' = length X)
        by (rewrite <- Hlen; symmetry; apply (Forall2_length_eq _ _ _ Hacc)).
      clear - Hl. revert acc' Hl.
      induction X as [| x X IHX]; intros [| a acc'] Hl;
        cbn [zip_with map length] in Hl |- *;
        try discriminate; constructor; [| apply IHX; lia].
      unfold weighted_row_sum. cbn [map fst snd].
      match goal with
      | |- context [sumQ (?h :: ?t)] => change (sumQ (h :: t)) with (h + sumQ t)
      end.
      lra. }
    assert (Hl : length acc' = length X)
      by (rewrite <- Hlen; symmetry; apply (Forall2_length_eq _ _ _ Hacc)).
    destruct (dict_get ms k) as [m |]; cbn [option_map].
    + apply Hgoal.
      * clear - Hacc Hlen. rewrite map_map. revert X Hlen.
        induction Hacc as [| a a' acc acc' Ha Hacc IHa]; intros [| x X] Hlen;
          cbn in Hlen |- *; try discriminate; constructor;
            [rewrite Ha; reflexivity | apply IHa; lia].
      * rewrite length_zip_with, !length_map. lia.
    + apply Hgoal; [| exact Hlen].
      clear - Hacc Hlen. revert X Hlen.
      induction Hacc as [| a a' acc acc' Ha Hacc IHa]; intros [| x X] Hlen;
        cbn in Hlen |- *; try discriminate; constructor;
          [rewrite Ha; lra | apply IHa; lia].
Qed.
End EnsembleSums.

Lemma sumQ_cons (x : Q) (l : list Q) : sumQ (x :: l) = x + sumQ l.
Proof. reflexivity. Qed.

Lemma sumQ_map_Qeq {A : Type} (f g : A -> Q) (l : list A) :
  (forall x, In x l -> f x == g x) -> sumQ (map f l) == sumQ (map g l).
Proof.
  induction l as [| x l IH]; intros Hfg; [reflexivity |].
  cbn [map]. change (f x + sumQ (map f l) == g x + sumQ (map g l)).
  rewrite (Hfg x (or_introl eq_refl)), IH; [reflexivity |].
  intros y Hy. apply Hfg. right. exact Hy.
Qed.

Lemma sumQ_map_zero {A : Type} (f : A -> Q) (l : list A) :
  (forall x, In x l -> f x == 0) -> sumQ (map f l) == 0.
Proof.
  induction l as [| x l IH]; intros Hf; [reflexivity |].
  cbn [map]. change (f x + sumQ (map f l) == 0).
  rewrite (Hf x (or_introl eq_refl)), IH; [lra |].
  intros y Hy. apply Hf. right. exact Hy.
Qed.

(** One key of a dictionary of weights picks out its own weight. *)
Lemma sumQ_pick_key (ws : dict Q) (k0 : string) (a : Q) (h : string -> Q) :
  List.NoDup (dict_keys ws) -> h k0 == 0 ->
  sumQ (map (fun kw => snd kw * (if String.eqb k0 (fst kw) then a else h (fst kw))) ws)
  == dict_get_default ws k0 0 * a + sumQ (map (fun kw => snd kw * h (fst kw)) ws).
Proof.
  intros Hnd Hh. unfold dict_get_default.
  induction ws as [| [k w] ws IH].
  - cbn. lra.
  - inversion Hnd as [| ? ? Hk Hnd']; subst.
    cbn [map fst snd dict_get]. rewrite !sumQ_cons.
    rewrite (String.eqb_sym k k0).
    destruct (String.eqb_spec k0 k) as [-> | Hne].
    + rewrite (sumQ_map_Qeq
                 (fun kw => snd kw * (if String.eqb k (fst kw) then a else h (fst kw)))
                 (fun kw => snd kw * h (fst kw)) ws).
      * rewrite Hh. lra.
      * intros [k' w'] Hin. cbn [fst snd].
        destruct (String.eqb_spec k k') as [<- | _]; [| reflexivity].
        exfalso. apply Hk. apply (in_map fst) in Hin. exact Hin.
    + rewrite (IH Hnd'). lra.
Qed.

Section EnsembleAgreement.
Context `{Numpy} `{Sklearn}.
Import ExpensePredictor.

Lemma ensemble_sum_swap (ms : dict Model) (ws : dict Q) (f : Model -> Q) :
  List.NoDup (dict_keys ms) -> List.NoDup (dict_keys ws) ->
  sumQ (map (fun nm => dict_get_default ws (fst nm) 0 * f (snd nm)) ms)
  == sumQ (map (fun kw => snd kw * match dict_get ms (fst kw) with
                                   | Some m => f m
                                   | None => 0
                                   end) ws).
Proof.
  intros Hms Hws. induction ms as [| [k0 m0] ms IH].
  - cbn [map dict_get]. symmetry. apply sumQ_map_zero. intros kw _. lra.
  - inversion Hms as [| ? ? Hk Hms']; subst.
    cbn [map fst snd]. rewrite sumQ_cons.
    rewrite (IH Hms').
    rewrite (sumQ_map_Qeq
               (fun kw => snd kw * match dict_get ((k0, m0) :: ms) (fst kw) with
                                   | Some m => f m
                                   | None => 0
                                   end)
               (fun kw => snd kw * (if String.eqb k0 (fst kw) then f m0
                                    else match dict_get ms (fst kw) with
                                         | Some m => f m
                                         | None => 0
                                         end)) ws).
    + rewrite (sumQ_pick_key ws k0 (f m0)
                 (fun k => match dict_get ms k with Some m => f m | None => 0 end) Hws).
      * reflexivity.
      * rewrite (dict_get_None ms k0 Hk). reflexivity.
    + intros [k w] _. cbn [fst snd dict_get].
      destruct (String.eqb k0 k); reflexivity.
Qed.

(** X18. The two ensemble sums of the predictor.  [_ensemble_predict]
    returns for each row the sum, over the weights, of the weight times
    the prediction of the model of that name, a name without a model
    adding nothing.  On a row where no model predicts a negative amount,
    the ensemble sum inside [predict_next_month], which runs over the
    predictions and looks the weights up, has the same value. *)
Theorem ensemble_sums_agree (self : t) (X : list (list Q)) :
  List.NoDup (dict_keys (models self)) ->
  List.NoDup (dict_keys (ensemble_weights self)) ->
  length (_ensemble_predict self X) = length X
  /\ Forall2 Qeq (_ensemble_predict self X)
             (map (weighted_row_sum (models self) (ensemble_weights self)) X)
  /\ forall row,
      (forall k m, In (k, m) (models self) -> 0 <= model_predict m row) ->
      ensemble_pred self (individual_predictions self [row])
      == weighted_row_sum (models self) (ensemble_weights self) row.
Proof.
  intros Hms Hws.
  assert (Hrows : Forall2 Qeq (_ensemble_predict self X)
                          (map (weighted_row_sum (models self) (ensemble_weights self)) X)).
  { unfold _ensemble_predict.
    rewrite (fold_dict_set_fresh fst (fun nm => map (model_predict (snd nm)) X)
                                 (models self) Hms []) by (intros a _ []).
    cbn [app].
    eapply Forall2_Qeq_trans.
    - apply (ensemble_fold_rows (models self) X (ensemble_weights self)
                                (repeat 0 (length X)) (repeat 0 (length X))).
      + apply Forall2_Qeq_refl.
      + apply repeat_length.
    - clear. induction X as [| x X IH]; cbn [length repeat map zip_with]; constructor;
        [lra | exact IH]. }
  split.
  { rewrite (Forall2_length_eq _ _ _ Hrows), length_map. reflexivity. }
  split; [exact Hrows |].
  intros row Hpos. unfold ensemble_pred, py_sum.
  rewrite fold_left_Qplus, (individual_predictions_map self [row] Hms), map_map.
  cbn [fst snd nth].
  rewrite (sumQ_map_Qeq _ (fun nm => dict_get_default (ensemble_weights self) (fst nm) 0
                                     * model_predict (snd nm) row) (models self)).
  - unfold weighted_row_sum.
    rewrite (ensemble_sum_swap (models self) (ensemble_weights self)
                               (fun m => model_predict m row) Hms Hws).
    lra.
  - intros [k m] Hin. cbn [fst snd].
    rewrite (py_max0_id (model_predict m row) (model_predict m row));
      [reflexivity | reflexivity | apply (Hpos k m Hin)].
Qed.
End EnsembleAgreement.

(** The statement of X18 on a predictor of two models and one row. *)
Lemma ensemble_sums_agree_witness :
  length (ExpensePredictor._ensemble_predict two_model_predictor [[0]]) = 1%nat
  /\ Forall2 Qeq (ExpensePredictor._ensemble_predict two_model_predictor [[0]])
             (map (weighted_row_sum (ExpensePredictor.models two_model_predictor)
                                    (ExpensePredictor.ensemble_weights two_model_predictor))
                  [[0]])
  /\ forall row,
      (forall k m, In (k, m) (ExpensePredictor.models two_model_predictor) ->
                   0 <= model_predict m row) ->
      ExpensePredictor.ensemble_pred
        two_model_predictor
        (ExpensePredictor.individual_predictions two_model_predictor [row])
      == weighted_row_sum (ExpensePredictor.models two_model_predictor)
                          (ExpensePredictor.ensemble_weights two_model_predictor) row.
Proof.
  apply (ensemble_sums_agree two_model_predictor [[0]]).
  - repeat constructor; cbn; intuition discriminate.
  - repeat constructor; cbn; intuition discriminate.
Defined.

(** ** The histogram of risk levels *)

Lemma count_where_partition {A : Type} (p1 p2 p3 q : A -> bool) (l : list A) :
  (forall x, In x l ->
             (Z.b2z (p1 x) + Z.b2z (p2 x) + Z.b2z (p3 x) = Z.b2z (q x))%Z) ->
  (FraudDetector.count_where p1 l + FraudDetector.count_where p2 l
   + FraudDetector.count_where p3 l
   = FraudDetector.count_where q l)%Z.
Proof.
  unfold FraudDetector.count_where.
  induction l as [| x l IH]; intros Hx; [reflexivity |].
  specialize (IH (fun y Hy => Hx y (or_intror Hy))).
  specialize (Hx x (or_introl eq_refl)). cbn [List.filter].
  destruct (p1 x), (p2 x), (p3 x), (q x); cbn [length Z.b2z] in *; lia.
Qed.

Lemma count_where_none {A : Type} (p : A -> bool) (l : list A) :
  (forall x, In x l -> p x = false) -> FraudDetector.count_where p l = 0%Z.
Proof.
  unfold FraudDetector.count_where.
  induction l as [| x l IH]; intros Hx; [reflexivity |].
  cbn [List.filter]. rewrite (Hx x (or_introl eq_refl)).
  apply IH. intros y Hy. apply Hx. right. exact Hy.
Qed.

Section RiskDistribution.
Context `{Numpy} `{Sklearn}.
Import FraudDetector.

(** X21. The histogram of risk levels that [detect_fraud] reports has
    an entry for each of the four labels and for nothing else; its
    [Critical] entry is always 0, its [High] entry is the number of
    flagged transactions, and the three other entries add up to the
    number of rows that have a score. *)
Theorem risk_distribution_counts (self : t) (df : list Transaction) (tune : bool)
        (self' : t) (results : Results) (scored : list Scored) :
  detect_fraud self df tune = inr (self', results, scored) ->
  risk_distribution scored !! "Critical"%string = Some 0%Z
  /\ risk_distribution scored !! "High"%string = Some (flagged_transactions results)
  /\ (exists low medium,
         risk_distribution scored !! "Low"%string = Some low
         /\ risk_distribution scored !! "Medium"%string = Some medium
         /\ (low + medium + flagged_transactions results
             = count_where (fun s => negb (isna (fraud_score s))) scored)%Z)
  /\ forall label,
      is_Some (risk_distribution scored !! label) <-> In label risk_labels.
Proof.
  intros Hrun.
  destruct (detect_fraud_inv _ _ _ _ _ _ Hrun)
    as (ml & _ & Hml & Hscored & _ & Hflag & _).
  assert (Hrow : forall s, In s scored ->
             (fraud_score s = NaN /\ risk_level s = None)
             \/ exists q, fraud_score s = Num q
                          /\ (risk_level s = Some "Low"%string
                              \/ risk_level s = Some "Medium"%string
                              \/ risk_level s = Some "High"%string)
                          /\ (50 < q <-> risk_level s = Some "High"%string)).
  { intros s Hs. rewrite Hscored in Hs.
    apply In_zip_with in Hs as (f & m & Hf & Hm & ->).
    rewrite List.Forall_forall in Hml.
    destruct (score_row_label f m (engineer_features_engineered self df f Hf)
                              (proj1 (proj1 (proj2 (engineer_features_counts self df f Hf))))
                              (Hml m Hm))
      as [(_ & Hnan & Hnone) | (q & Hq & _ & _ & Hlab & Hiff)].
    - left. split; assumption.
    - right. exists q. split; [exact Hq |]. split; assumption. }
  assert (Hhigh : count_where (fun s => option_string_eqb (risk_level s) (Some "High"%string))
                              scored
                  = flagged_transactions results).
  { rewrite Hflag. unfold count_where. f_equal. apply filter_ext_length.
    intros s Hs. destruct (Hrow s Hs) as [[-> ->] | (q & -> & Hlab & Hiff)]; [reflexivity |].
    cbn [cgt]. destruct (Qltb 50 q) eqn:E.
    - apply Qltb_lt in E. apply Hiff in E. rewrite E. reflexivity.
    - apply Qltb_ge in E.
      destruct Hlab as [-> | [-> | Hh]]; try reflexivity.
      apply Hiff in Hh. lra. }
  unfold risk_distribution. cbn [map list_to_map foldr fst snd].
  split.
  { rewrite !lookup_insert_ne by discriminate. rewrite lookup_insert_eq.
    f_equal. apply count_where_none. intros s Hs.
    destruct (Hrow s Hs) as [[_ ->] | (q & _ & [-> | [-> | ->]] & _)]; reflexivity. }
  split.
  { rewrite !lookup_insert_ne by discriminate. rewrite lookup_insert_eq.
    f_equal. exact Hhigh. }
  split.
  { do 2 eexists. split; [rewrite lookup_insert_eq; reflexivity |].
    split; [rewrite lookup_insert_ne by discriminate; rewrite lookup_insert_eq;
            reflexivity |].
    rewrite <- Hhigh. apply count_where_partition. intros s Hs.
    destruct (Hrow s Hs) as [[-> ->] | (q & -> & [-> | [-> | ->]] & _)]; reflexivity. }
  intros label. unfold risk_labels. cbn [In].
  rewrite !lookup_insert_is_Some', lookup_empty. split.
  - intros [<- | [<- | [<- | [<- | [x Hx]]]]]; auto 6. discriminate Hx.
  - intros [<- | [<- | [<- | [<- | []]]]]; auto 6.
Qed.
End RiskDistribution.

(** The statement of X21 on three purchases. *)
Lemma risk_distribution_counts_witness :
  exists self' results scored,
    FraudDetector.detect_fraud FraudDetector.init three_purchases false
    = inr (self', results, scored)
    /\ FraudDetector.risk_distribution scored !! "Critical"%string = Some 0%Z
    /\ FraudDetector.risk_distribution scored !! "High"%string
       = Some (FraudDetector.flagged_transactions results).
Proof.
  destruct three_purchases_scored as (self' & results & scored & Hrun & _).
  exists self', results, scored. split; [exact Hrun |].
  destruct (risk_distribution_counts _ _ _ _ _ _ Hrun) as (Hcrit & Hhigh & _).
  split; [exact Hcrit | exact Hhigh].
Defined.

(** ** The dictionary of predictions, entry by entry *)

Section PredictionEntries.
Context `{Numpy} `{Sklearn}.
Import ExpensePredictor.

(** X23. The dictionary [predict_next_month] returns lists the fitted
    models in the order in which they were stored, followed by the
    ensemble, and none of its entries is negative. *)
Theorem predictions_entries (self : t) (monthly_df : DataFrame) (r : Prediction) :
  predict_next_month self monthly_df = inr r ->
  List.NoDup (dict_keys (models self)) ->
  ~ In "ensemble"%string (dict_keys (models self)) ->
  dict_keys (predictions r) = dict_keys (models self) ++ ["ensemble"%string]
  /\ Forall (fun kv => 0 <= snd kv) (predictions r).
Proof.
  intros Hr Hnd Hens.
  destruct (predict_next_month_parts _ _ _ Hr) as (scaled & Hpreds & _).
  rewrite (individual_predictions_map self scaled Hnd) in Hpreds.
  set (preds := map _ (models self)) in Hpreds.
  assert (Hkeys : dict_keys preds = dict_keys (models self)).
  { subst preds. unfold dict_keys. rewrite map_map. reflexivity. }
  rewrite dict_set_fresh in Hpreds by (rewrite Hkeys; exact Hens).
  split.
  { rewrite Hpreds. unfold dict_keys in *. rewrite map_app, Hkeys. reflexivity. }
  rewrite Hpreds. apply List.Forall_app. split.
  - subst preds. apply Forall_map. rewrite List.Forall_forall.
    intros nm _. apply py_max0_nonneg.
  - constructor; [apply py_max0_nonneg | constructor].
Qed.
End PredictionEntries.

(** The statement of X23 on a predictor of two models. *)
Lemma predictions_entries_witness :
  exists r,
    ExpensePredictor.predict_next_month two_model_predictor (totals_frame [100]) = inr r
    /\ dict_keys (ExpensePredictor.predictions r)
       = dict_keys (ExpensePredictor.models two_model_predictor) ++ ["ensemble"%string]
    /\ Forall (fun kv => 0 <= snd kv) (ExpensePredictor.predictions r).
Proof.
  destruct two_model_prediction as (r & Hr).
  exists r. split; [exact Hr |].
  apply (predictions_entries two_model_predictor (totals_frame [100]) r Hr).
  - repeat constructor; cbn; intuition discriminate.
  - cbn. intuition discriminate.
Defined.

(** ** The six sub-scores *)

Section SubScores.
Context `{Numpy} `{Sklearn}.
Import FraudDetector.

(** X24. The ranges that the comments of [calculate_fraud_scores] give
    for the sub-scores hold in the frame [detect_fraud] returns: the
    anomaly score lies in [0, 100], the amount score in [0, 30], the time
    score in [0, 20], the velocity score in [3, 15] (never below 3, as a
    transaction counts itself), the merchant score in [0, 10], and the
    deviation score in [0, 25] unless the z-score is missing. *)
Theorem sub_score_ranges (self : t) (df : list Transaction) (tune : bool)
        (self' : t) (results : Results) (scored : list Scored) :
  detect_fraud self df tune = inr (self', results, scored) ->
  Forall (fun s =>
            0 <= ml_anomaly_score s <= 100
            /\ 0 <= amount_score s <= 30
            /\ (0 <= time_score s <= 20)%Z
            /\ (exists v, velocity_score s = Num v /\ 3 <= v <= 15)
            /\ (0 <= merchant_score s <= 10)%Z
            /\ ((amount_zscore (featured s) = NaN /\ deviation_score s = NaN)
                \/ exists d, deviation_score s = Num d /\ 0 <= d <= 25))
         scored.
Proof.
  intros Hrun.
  destruct (detect_fraud_inv _ _ _ _ _ _ Hrun) as (ml & _ & Hml & -> & _).
  rewrite List.Forall_forall in Hml. rewrite List.Forall_forall.
  intros s Hs. apply In_zip_with in Hs as (f & m & Hf & Hm & ->).
  pose proof (engineer_features_engineered self df f Hf) as (Hp & Hn & Hw & Hr).
  destruct (engineer_features_counts self df f Hf) as (_ & [Hcount _] & _).
  cbn [score_row ml_anomaly_score amount_score time_score velocity_score
       merchant_score deviation_score featured].
  split; [apply Hml, Hm |]. split; [lra |]. split; [lia |].
  split; [apply velocity_score_range, Hcount |]. split; [lia |].
  apply deviation_score_range.
Qed.
End SubScores.

(** The statement of X24 on three purchases. *)
Lemma sub_score_ranges_witness :
  exists self' results scored,
    FraudDetector.detect_fraud FraudDetector.init three_purchases false
    = inr (self', results, scored)
    /\ Forall (fun s =>
                 0 <= FraudDetector.ml_anomaly_score s <= 100
                 /\ 0 <= FraudDetector.amount_score s <= 30
                 /\ (0 <= FraudDetector.time_score s <= 20)%Z)
              scored.
Proof.
  destruct three_purchases_scored as (self' & results & scored & Hrun & _).
  exists self', results, scored. split; [exact Hrun |].
  pose proof (sub_score_ranges _ _ _ _ _ _ Hrun) as Hall.
  rewrite List.Forall_forall in Hall. rewrite List.Forall_forall.
  intros s Hs. destruct (Hall s Hs) as (Hml & Ham & Htime & _).
  split; [exact Hml |]. split; [exact Ham | exact Htime].
Defined.

(** ** The most anomalous transaction *)

Lemma minQ_In (l : list Q) : l <> [] -> In (minQ l) l.
Proof.
  destruct l as [| x l]; [congruence |]. intros _. unfold minQ.
  assert (Hgen : forall l a, fold_left (fun m y => if Qltb y m then y else m) l a = a
                             \/ In (fold_left (fun m y => if Qltb y m then y else m) l a) l).
  { clear. induction l as [| y l IH]; intros a; [left; reflexivity |].
    cbn [fold_left].
    destruct (IH (if Qltb y a then y else a)) as [-> | Hin]; [| right; right; exact Hin].
    destruct (Qltb y a); [right; left; reflexivity | left; reflexivity]. }
  destruct (Hgen l x) as [-> | Hin]; [left; reflexivity | right; exact Hin].
Qed.

Lemma zip_with_In_r {A B C : Type} (g : A -> B -> C) (l1 : list A) (l2 : list B) (b : B) :
  length l1 = length l2 -> In b l2 -> exists a, In a l1 /\ In (g a b) (zip_with g l1 l2).
Proof.
  revert l2. induction l1 as [| a l1 IH]; intros [| b' l2] Hlen Hb;
    cbn in Hlen; try discriminate; [destruct Hb |].
  destruct Hb as [-> | Hb].
  - exists a. split; left; reflexivity.
  - destruct (IH l2 ltac:(lia) Hb) as (a' & Ha' & Hin).
    exists a'. split; right; assumption.
Qed.

Section MostAnomalous.
Context `{Numpy} `{Sklearn}.
Import FraudDetector.

Lemma ml_anomaly_scores_top (self : t) (n : nat) (X_scaled : list (list Q)) (ml : list Q) :
  isolation_forest self <> None ->
  ml_anomaly_scores self n X_scaled = inr ml ->
  (0 < n)%nat ->
  exists m, In m ml /\ m == 100.
Proof.
  unfold ml_anomaly_scores. intros Hforest.
  destruct (isolation_forest self) as [forest |]; [| congruence].
  set (ds := map (decision_function forest) X_scaled).
  destruct (Nat.eqb_spec (length ds) n) as [Hn |]; [| discriminate].
  intros [= <-] Hpos.
  assert (Hne : ds <> []) by (intros Hnil; rewrite Hnil in Hn; cbn in Hn; lia).
  eexists. split.
  - apply in_map, (minQ_In ds Hne).
  - cbn beta. unfold Qdiv. lra.
Qed.

Lemma score_row_floor (f : Featured) (ml q : Q) :
  engineered f -> (1 <= daily_txn_count f)%Z ->
  fraud_score (score_row f ml) = Num q ->
  0 <= ml * 0.40 + (3 # 10) <= 100 ->
  ml * 0.40 + (3 # 10) <= q.
Proof.
  intros (Hp & Hn & Hw & Hr) Hcount.
  assert (Ht0 : 0 <= inject_Z (is_night f * 15 + is_weekend f * 5)).
  { change 0 with (inject_Z 0). rewrite <- Zle_Qle. lia. }
  assert (Hm0 : 0 <= inject_Z (rare_merchant f * 10)).
  { change 0 with (inject_Z 0). rewrite <- Zle_Qle. lia. }
  cbn [score_row fraud_score]. unfold weighted_score.
  destruct (velocity_score_range (daily_txn_count f) Hcount) as (v & -> & Hv).
  destruct (deviation_score_range (amount_zscore f)) as [[_ ->] | (d & -> & Hd)];
    [cbn; discriminate |].
  cbn [cmul cadd zcell].
  set (w := ml * 0.40 + amount_percentile f * 30 * 0.20
            + inject_Z (is_night f * 15 + is_weekend f * 5) * 0.10 + v * 0.10
            + d * 0.15 + inject_Z (rare_merchant f * 10) * 0.05).
  intros Hq Hml.
  assert (Hw' : ml * 0.40 + (3 # 10) <= w) by (unfold w; lra).
  destruct (np_clip_range w) as (r & Hr' & [Hr0 Hr100] & _).
  rewrite Hr' in Hq. injection Hq as <-.
  unfold np_clip, clt in Hr'. cbn [cgt] in Hr'.
  destruct (Qltb w 0) eqn:Elo; [apply Qltb_lt in Elo; lra |]. cbn [cgt] in Hr'.
  destruct (Qltb 100 w) eqn:Ehi; injection Hr' as <-; [lra | exact Hw'].
Qed.

(** X25. Whenever [detect_fraud] returns, some transaction carries the
    full anomaly score of 100: the scores are rescaled between the
    smallest and the largest decision score of the very ledger, so the
    most anomalous row of any ledger gets 100.  Unless its z-score is
    missing, that row has a fraud score of at least 40.3 and is labelled
    Medium or High, whatever the data. *)
Theorem most_anomalous_row (self : t) (df : list Transaction) (tune : bool)
        (self' : t) (results : Results) (scored : list Scored) :
  detect_fraud self df tune = inr (self', results, scored) ->
  exists s,
    In s scored
    /\ ml_anomaly_score s == 100
    /\ (fraud_score s = NaN
        \/ exists q,
            fraud_score s = Num q /\ 40.3 <= q
            /\ (risk_level s = Some "Medium"%string
                \/ risk_level s = Some "High"%string)).
Proof.
  unfold detect_fraud.
  destruct (engineer_features self df) as [self1 feats] eqn:Hfeat.
  assert (Hfeats : feats = snd (engineer_features self df)) by (rewrite Hfeat; reflexivity).
  assert (Hlen : length feats = length df).
  { rewrite Hfeats. unfold engineer_features. cbn [snd]. apply length_map. }
  destruct (prepare_features self1 feats) as [self2 X] eqn:Hprep.
  assert (HlenX : length X = length feats).
  { apply (f_equal snd) in Hprep. cbn [snd] in Hprep. subst X.
    unfold prepare_features. cbn [snd]. apply length_map. }
  destruct (train_isolation_forest self2 X tune) as [e | [self3 training]] eqn:Htrain;
    [discriminate |].
  cbn [bind].
  destruct (calculate_fraud_scores self3 feats X) as [e | df_scored] eqn:Hcalc;
    [discriminate |].
  cbn [bind ret]. intros [= <- <- <-].
  assert (Hforest : isolation_forest self3 <> None /\ (0 < length feats)%nat).
  { unfold train_isolation_forest, scaler_fit_transform in Htrain.
    destruct (check_array X) as [e | X'] eqn:HX'; [discriminate |].
    cbn [bind ret] in Htrain.
    destruct (fit_forest _ _) as [e | forest]; [discriminate |].
    cbn [bind ret] in Htrain. injection Htrain as <- _. cbn [isolation_forest].
    split; [discriminate |].
    unfold check_array in HX'. destruct X; [discriminate |]. cbn in HlenX. lia. }
  destruct Hforest as [Hforest Hpos].
  unfold calculate_fraud_scores in Hcalc.
  destruct (scaler_transform (scaler self3) X) as [e | X_scaled]; [discriminate |].
  cbn [bind] in Hcalc.
  destruct (ml_anomaly_scores self3 (length feats) X_scaled) as [e | ml] eqn:Hml;
    [discriminate |].
  cbn [bind ret] in Hcalc. injection Hcalc as <-.
  destruct (ml_anomaly_scores_range _ _ _ _ Hml) as [Hmll Hmlr].
  destruct (ml_anomaly_scores_top _ _ _ _ Hforest Hml Hpos) as (m & Hm & Hm100).
  destruct (zip_with_In_r score_row feats ml m ltac:(lia) Hm) as (f & Hf & Hin).
  exists (score_row f m). split; [exact Hin |]. split; [exact Hm100 |].
  rewrite Hfeats in Hf.
  pose proof (engineer_features_engineered self df f Hf) as Heng.
  destruct (engineer_features_counts self df f Hf) as (_ & [Hcount _] & _).
  rewrite List.Forall_forall in Hmlr.
  destruct (score_row_label f m Heng Hcount (Hmlr m Hm))
    as [(_ & Hnan & _) | (q & Hq & _ & Hrange & Hlab & Hiff)]; [left; exact Hnan |].
  right. exists q. split; [exact Hq |].
  assert (Hfloor : m * 0.40 + (3 # 10) <= q)
    by (apply (score_row_floor f m q Heng Hcount Hq); lra).
  split; [lra |].
  destruct Hlab as [Hlow | Hlab]; [| exact Hlab].
  exfalso. cbn [score_row risk_level fraud_score] in Hlow, Hq. rewrite Hq in Hlow.
  apply (proj1 (pd_cut_risk q)) in Hlow. lra.
Qed.
End MostAnomalous.

(** The statement of X25 on three purchases. *)
Lemma most_anomalous_row_witness :
  exists self' results scored s,
    FraudDetector.detect_fraud FraudDetector.init three_purchases false
    = inr (self', results, scored)
    /\ In s scored
    /\ FraudDetector.ml_anomaly_score s == 100.
Proof.
  destruct three_purchases_scored as (self' & results & scored & Hrun & _).
  destruct (most_anomalous_row _ _ _ _ _ _ Hrun) as (s & Hs & Hml & _).
  exists self', results, scored, s. split; [exact Hrun |]. split; [exact Hs | exact Hml].
Defined.

(** ** The split of the monthly rows *)

Section Split.
Import ExpensePredictor.

(** X26. The chronological split of [train_with_hyperparameter_tuning]
    puts the first [floor(0.8 n)] of [n] rows into the training set: the
    test set is never empty, and the training set is empty only when
    there is a single row. *)
Theorem split_sizes {A : Type} (X : list A) :
  (5 * Z.of_nat (split_idx X) <= 4 * Z.of_nat (length X)
   < 5 * (Z.of_nat (split_idx X) + 1))%Z
  /\ length (firstn (split_idx X) X) = split_idx X
  /\ length (skipn (split_idx X) X) = (length X - split_idx X)%nat
  /\ (X <> [] -> skipn (split_idx X) X <> [])
  /\ (firstn (split_idx X) X = [] <-> (length X <= 1)%nat).
Proof.
  unfold split_idx.
  set (n := length X).
  assert (Hq : lenQ X * 0.8 == (4 * Z.of_nat n) # 5).
  { unfold lenQ. fold n. unfold Qeq, Qmult, inject_Z. cbn. lia. }
  assert (Hfloor : Qfloor (lenQ X * 0.8) = (4 * Z.of_nat n / 5)%Z).
  { rewrite (Qfloor_comp _ _ Hq). reflexivity. }
  rewrite Hfloor.
  assert (Hdiv : (5 * (4 * Z.of_nat n / 5) <= 4 * Z.of_nat n
                  < 5 * (4 * Z.of_nat n / 5 + 1))%Z).
  { pose proof (Z.div_mod (4 * Z.of_nat n) 5 ltac:(lia)).
    pose proof (Z.mod_pos_bound (4 * Z.of_nat n) 5 ltac:(lia)). lia. }
  assert (Hnn : (0 <= 4 * Z.of_nat n / 5)%Z) by (apply Z.div_pos; lia).
  assert (Hle : (Z.to_nat (4 * Z.of_nat n / 5) <= n)%nat) by lia.
  split; [rewrite Z2Nat.id by exact Hnn; exact Hdiv |].
  split; [rewrite length_firstn; fold n; lia |].
  split; [rewrite length_skipn; reflexivity |].
  split.
  - intros Hne Hnil. apply (f_equal (@length _)) in Hnil.
    rewrite length_skipn in Hnil. fold n in Hnil. cbn [length] in Hnil.
    assert (n <> 0)%nat by (subst n; destruct X; [congruence | cbn; lia]).
    lia.
  - split.
    + intros Hnil. apply (f_equal (@length _)) in Hnil.
      rewrite length_firstn in Hnil. fold n in Hnil. cbn [length] in Hnil. lia.
    + intros Hn. apply length_zero_iff_nil. rewrite length_firstn. fold n. lia.
Qed.
End Split.

(** ** The forest scores its own training set *)

Section InSample.
Context `{Numpy} `{Sklearn}.
Import FraudDetector.

(** X27. [detect_fraud] scores in sample: the anomaly scores it returns
    are computed by the stored forest on exactly the standardised matrix
    on which that forest was fitted, standardised with the statistics of
    that same matrix. *)
Theorem fraud_scores_in_sample (self : t) (df : list Transaction) (tune : bool)
        (self' : t) (results : Results) (scored : list Scored) :
  detect_fraud self df tune = inr (self', results, scored) ->
  exists X' forest params,
    check_array (snd (prepare_features (fst (engineer_features self df))
                                       (snd (engineer_features self df)))) = inr X'
    /\ scaler self' = Some (scaler_fit X')
    /\ isolation_forest self' = Some forest
    /\ fit_forest params (map (scale_row (scaler_fit X')) X') = inr forest
    /\ map ml_anomaly_score scored
       = (let ds := map (decision_function forest)
                        (map (scale_row (scaler_fit X')) X') in
          map (fun d => 100 - (d - minQ ds) / (maxQ ds - minQ ds + (1 # 10000000000)) * 100)
              ds).
Proof.
  unfold detect_fraud.
  destruct (engineer_features self df) as [self1 feats] eqn:Hfeat. cbn [fst snd].
  destruct (prepare_features self1 feats) as [self2 X] eqn:Hprep. cbn [snd].
  destruct (train_isolation_forest self2 X tune) as [e | [self3 training]] eqn:Htrain;
    [discriminate |].
  cbn [bind].
  destruct (calculate_fraud_scores self3 feats X) as [e | df_scored] eqn:Hcalc;
    [discriminate |].
  cbn [bind ret]. intros [= <- <- <-].
  unfold train_isolation_forest, scaler_fit_transform in Htrain.
  destruct (check_array X) as [e | X'] eqn:HX'; [discriminate |].
  cbn [bind ret] in Htrain.
  destruct (fit_forest _ _) as [e | forest] eqn:Hfit; [discriminate |].
  cbn [bind ret] in Htrain. injection Htrain as <- _.
  unfold calculate_fraud_scores in Hcalc. cbn [scaler] in Hcalc.
  unfold scaler_transform in Hcalc. rewrite HX' in Hcalc. cbn [bind] in Hcalc.
  destruct (forallb _ X'); [| discriminate]. cbn [bind ret] in Hcalc.
  unfold ml_anomaly_scores in Hcalc. cbn [isolation_forest] in Hcalc.
  set (ds := map (decision_function forest) (map (scale_row (scaler_fit X')) X')) in *.
  destruct (Nat.eqb_spec (length ds) (length feats)) as [Hn |]; [| discriminate].
  cbn [bind ret] in Hcalc. injection Hcalc as <-.
  eexists X', forest, _. split; [reflexivity |]. split; [reflexivity |].
  split; [reflexivity |]. split; [exact Hfit |].
  cbn zeta. fold ds.
  set (g := fun d => 100 - _).
  assert (Hlen : length (map g ds) = length feats) by (rewrite length_map; exact Hn).
  clear - Hlen. revert Hlen. generalize (map g ds). intros ml. revert ml.
  induction feats as [| f feats IH]; intros [| m ml] Hlen; cbn in Hlen |- *;
    try discriminate; try reflexivity.
  rewrite IH by lia. reflexivity.
Qed.
End InSample.

(** The statement of X27 on three purchases. *)
Lemma fraud_scores_in_sample_witness :
  exists self' results scored X' forest,
    FraudDetector.detect_fraud FraudDetector.init three_purchases false
    = inr (self', results, scored)
    /\ FraudDetector.scaler self' = Some (scaler_fit X')
    /\ FraudDetector.isolation_forest self' = Some forest.
Proof.
  destruct three_purchases_scored as (self' & results & scored & Hrun & _).
  destruct (fraud_scores_in_sample _ _ _ _ _ _ Hrun)
    as (X' & forest & params & _ & Hsc & Hforest & _).
  exists self', results, scored, X', forest.
  split; [exact Hrun |]. split; [exact Hsc | exact Hforest].
Defined.
